(** * ReportBuilder: a shallow embedding of [report_builder.py]

    The script fetches users and their tasks page by page, renders one text
    report per user and keeps the reports in the directory [tasks/], moving
    the previous report of a user to an archival name before the new one is
    written, and putting the latest archived report back when the write
    cannot be verified.

    Conventions of the embedding.
    - A Python [str] is a Rocq [string]; one [ascii] stands for one character.
    - A value decoded from JSON is a [json] term.
    - The directory is a finite map from path to file content, the paths
      compared as texts.  Every file the script touches lies directly in
      [tasks/] when the user name holds no path separator, which [main]
      sees to before it calls [save_report]; statements that depend on
      where a file lies say so.
    - A file holds the text as it was written: the line feed is the line
      separator, as on POSIX systems.  Reading translates a carriage
      return, alone or before a line feed, to a line feed
      ([universal_newlines]), so a text with a carriage return is not read
      back as it was written.
    - [os.rename] replaces an existing target, as it does on POSIX systems.
    - What the script cannot decide is an explicit argument: the responses
      of the server, the clock, the order of [os.listdir], the fate of a
      write, and Python's [str] on values that are not strings.  A request
      always gets a response, and a file that exists can be read.
    - Exceptions are values of [exn]; an effectful function has type [M A]
      and returns an [outcome] together with the world it leaves behind.
    - A loop over a generator takes fuel, since the server may never send
      the empty page that ends it.
    - The two regular expressions of the script are sequences of
      one-character items.  [get_last_report] builds its pattern from the
      user name; user names made of ordinary characters, dots and paired
      parentheses are covered, any other operator in a user name gives
      [Unmodelled]. *)

From Stdlib Require Import ZArith QArith Ascii String List Lia DecimalString.
From Stdlib Require DecimalFacts DecimalNat.
From stdpp Require Import gmap strings list fin_maps.

(** ** Outcomes and the world *)

Inductive exn : Type :=
| KeyError (key : string)
| TypeError
| ValueError
| AttributeError
| JSONDecodeError
| FileNotFoundError
| HTTPError (status : Z).

(** [Unmodelled] marks an input outside the fragment this development
    covers; [OutOfFuel] a loop that did not finish within its fuel. *)
Inductive outcome (A : Type) : Type :=
| Ret (a : A)
| Raise (e : exn)
| Unmodelled
| OutOfFuel.

Arguments Ret {A} a.
Arguments Raise {A} e.
Arguments Unmodelled {A}.
Arguments OutOfFuel {A}.

Record world : Type := World {
  files : gmap string string;   (* path ↦ content *)
  stdout : list string;         (* lines printed so far, oldest first *)
  tick : nat                    (* number of questions asked to the outside *)
}.

Definition M (A : Type) : Type := world → outcome A * world.

Definition ret {A} (a : A) : M A := λ w, (Ret a, w).

Definition bind {A B} (c : M A) (k : A → M B) : M B :=
  λ w, match c w with
       | (Ret a, w') => k a w'
       | (Raise e, w') => (Raise e, w')
       | (Unmodelled, w') => (Unmodelled, w')
       | (OutOfFuel, w') => (OutOfFuel, w')
       end.

#[global] Instance M_ret : MRet M := @ret.
#[global] Instance M_bind : MBind M := λ A B k c, bind c k.

Definition raise {A} (e : exn) : M A := λ w, (Raise e, w).
Definition unmodelled {A} : M A := λ w, (Unmodelled, w).
Definition out_of_fuel {A} : M A := λ w, (OutOfFuel, w).

Definition lift {A} (o : outcome A) : M A := λ w, (o, w).

(** [try: ... except KeyError: handler] *)
Definition except_KeyError {A} (c : M A) (handler : M A) : M A :=
  λ w, match c w with
       | (Raise (KeyError _), w') => handler w'
       | r => r
       end.

Definition print (line : string) : M unit :=
  λ w, (Ret (), World (files w) (stdout w ++ [line]) (tick w)).

Definition get_files : M (gmap string string) := λ w, (Ret (files w), w).

Definition put_files (d : gmap string string) : M unit :=
  λ w, (Ret (), World d (stdout w) (tick w)).

(** A question to the outside: the answer may depend on when it is asked. *)
Definition ask {A} (oracle : nat → A) : M A :=
  λ w, (Ret (oracle (tick w)), World (files w) (stdout w) (S (tick w))).

(** ** Text *)

Definition is_digit (c : ascii) : bool :=
  (48 <=? nat_of_ascii c)%nat && (nat_of_ascii c <=? 57)%nat.

Definition digit_value (c : ascii) : Z := Z.of_nat (nat_of_ascii c) - 48.

(** [int(s)] on a string of decimal digits. *)
Fixpoint int_of_digits_from (acc : Z) (s : string) : Z :=
  match s with
  | EmptyString => acc
  | String c s' => int_of_digits_from (10 * acc + digit_value c) s'
  end.

Definition int_of_digits (s : string) : Z := int_of_digits_from 0 s.

(** [str(n)] for a natural number. *)
Definition str_of_nat (n : nat) : string := NilEmpty.string_of_uint (Nat.to_uint n).

(** [s.replace(old, new)] for a one-character [old]. *)
Fixpoint replace_char (old : ascii) (new : string) (s : string) : string :=
  match s with
  | EmptyString => EmptyString
  | String c s' =>
      if Ascii.eqb c old then new +:+ replace_char old new s'
      else String c (replace_char old new s')
  end.

(** The line feed, written [\n] in the source. *)
Definition nl : string := String (ascii_of_nat 10) EmptyString.

(** What reading in text mode does to the content of a file, the
    [newline] argument of [open] being left at its default: a carriage
    return, alone or followed by a line feed, is read as one line feed. *)
Fixpoint universal_newlines (s : string) : string :=
  match s with
  | EmptyString => EmptyString
  | String c rest =>
      if Ascii.eqb c (ascii_of_nat 13) then
        match rest with
        | String c' rest' =>
            if Ascii.eqb c' (ascii_of_nat 10)
            then String (ascii_of_nat 10) (universal_newlines rest')
            else String (ascii_of_nat 10) (universal_newlines rest)
        | EmptyString => String (ascii_of_nat 10) EmptyString
        end
      else String c (universal_newlines rest)
  end.

(** [s[:n]] *)
Definition str_prefix (n : nat) (s : string) : string := substring 0 n s.

(** ** JSON values as Python sees them *)

Inductive pyfloat : Type :=
| FFinite (q : Q)
| FInf (negative : bool)
| FNaN.

#[local] Unset Elimination Schemes.
Inductive json : Type :=
| JNull
| JBool (b : bool)
| JInt (z : Z)
| JFloat (f : pyfloat)
| JStr (s : string)
| JList (items : list json)
| JDict (fields : list (string * json)).
#[local] Set Elimination Schemes.

Fixpoint dict_lookup (key : string) (fields : list (string * json)) : option json :=
  match fields with
  | [] => None
  | (k, v) :: rest => if String.eqb k key then Some v else dict_lookup key rest
  end.

Fixpoint dict_store (key : string) (v : json) (fields : list (string * json))
  : list (string * json) :=
  match fields with
  | [] => [(key, v)]
  | (k, x) :: rest =>
      if String.eqb k key then (k, v) :: rest else (k, x) :: dict_store key v rest
  end.

(** [obj[key]] with a string key. *)
Definition getitem (obj : json) (key : string) : outcome json :=
  match obj with
  | JDict fields =>
      match dict_lookup key fields with
      | Some v => Ret v
      | None => Raise (KeyError key)
      end
  | _ => Raise TypeError
  end.

(** [obj[key] = v] with a string key. *)
Definition setitem (obj : json) (key : string) (v : json) : outcome json :=
  match obj with
  | JDict fields => Ret (JDict (dict_store key v fields))
  | _ => Raise TypeError
  end.

(** [len(v)] *)
Definition py_len (v : json) : outcome nat :=
  match v with
  | JStr s => Ret (String.length s)
  | JList items => Ret (length items)
  | JDict fields => Ret (length fields)
  | _ => Raise TypeError
  end.

(** [v[:46] + "..."]: a list cannot be added to a string, and a dictionary
    cannot be sliced (a [TypeError] up to Python 3.11). *)
Definition clip_title (v : json) : outcome json :=
  match v with
  | JStr s => Ret (JStr (str_prefix 46 s +:+ "..."))
  | _ => Raise TypeError
  end.

(** ["- " + v + "\n"] *)
Definition task_line (v : json) : outcome string :=
  match v with
  | JStr s => Ret ("- " +:+ s +:+ nl)
  | _ => Raise TypeError
  end.

(** [v == True] and [v == False]: a number equal to 1 or 0 compares equal. *)
Definition py_eq_bool (v : json) (b : bool) : bool :=
  match v with
  | JBool x => Bool.eqb x b
  | JInt z => Z.eqb z (if b then 1 else 0)
  | JFloat (FFinite q) => Qeq_bool q (if b then 1 else 0)
  | _ => false
  end.

(** [v == []] *)
Definition is_empty_list (v : json) : bool :=
  match v with
  | JList [] => true
  | _ => false
  end.

(** [for x in v] *)
Definition py_iter (v : json) : outcome (list json) :=
  match v with
  | JList items => Ret items
  | JDict fields => Ret (map (λ kv, JStr (fst kv)) fields)
  | JStr s => Ret (map (λ c, JStr (String c EmptyString)) (list_ascii_of_string s))
  | _ => Raise TypeError
  end.

(** [str(v)]: the identity on strings, [repr] decides the rest. *)
Definition py_str (repr : json → string) (v : json) : string :=
  match v with
  | JStr s => s
  | _ => repr v
  end.

(** Sequencing for plain outcomes. *)
#[global] Instance outcome_ret : MRet outcome := @Ret.
#[global] Instance outcome_bind : MBind outcome := λ A B k o,
  match o with
  | Ret a => k a
  | Raise e => Raise e
  | Unmodelled => Unmodelled
  | OutOfFuel => OutOfFuel
  end.

(** [for x in xs: s = body(x, s)] *)
Fixpoint for_each {A S} (body : A → S → M S) (xs : list A) (s : S) : M S :=
  match xs with
  | [] => ret s
  | x :: rest => s' ← body x s; for_each body rest s'
  end.

(** ** The data fetcher *)

Definition TODOS_URL : string := "https://json.medrocket.ru/todos".
Definition USERS_URL : string := "https://json.medrocket.ru/users".

Record request : Type := Request {
  url : string;
  params : list (string * json)
}.

(** [body] is [None] when the payload does not decode as JSON. *)
Record response : Type := Response {
  status_code : Z;
  body : option json
}.

(** [Response.raise_for_status] of the HTTP library: client and server
    errors raise, every other status returns. *)
Definition raise_for_status (page : response) : outcome unit :=
  if (400 <=? status_code page)%Z && (status_code page <? 600)%Z
  then Raise (HTTPError (status_code page))
  else Ret ().

(** [Response.json] *)
Definition response_json (page : response) : outcome json :=
  match body page with
  | Some v => Ret v
  | None => Raise JSONDecodeError
  end.

(** What a generator does when it is resumed: it yields a page and keeps
    the next page number, or it returns. *)
Inductive gen_step : Type :=
| Yield (page : json) (page_num : nat)
| Stop.

(** One turn of the [while(True)] loop shared by both fetchers, from the
    request to the [yield] or the [break]. *)
Definition fetch_page (get : request → response) (req : nat → request)
    (page_num : nat) : outcome gen_step :=
  let page := get (req page_num) in
  _ ← (if negb (status_code page =? 200)%Z then raise_for_status page else Ret ());
  v ← response_json page;
  if is_empty_list v then Ret Stop
  else Ret (Yield v (page_num + 1)).

Definition users_request (page_num : nat) : request :=
  Request USERS_URL [("_page", JInt (Z.of_nat page_num))].

Definition todos_request (user_id : json) (page_num : nat) : request :=
  Request TODOS_URL [("userId", user_id); ("_page", JInt (Z.of_nat page_num))].

(** [get_users()] resumed with its local [page_num]; a fresh generator
    starts at [first_page]. *)
Definition get_users (get : request → response) (page_num : nat) : outcome gen_step :=
  fetch_page get users_request page_num.

Definition get_todos (get : request → response) (user_id : json) (page_num : nat)
  : outcome gen_step :=
  fetch_page get (todos_request user_id) page_num.

Definition first_page : nat := 1.

(** Running a generator to its end: the pages it yields, then how it ends. *)
Fixpoint drain (fuel : nat) (next : nat → outcome gen_step) (page_num : nat)
  : list json * outcome unit :=
  match fuel with
  | O => ([], OutOfFuel)
  | S fuel' =>
      match next page_num with
      | Ret (Yield page n) =>
          let '(pages, r) := drain fuel' next n in (page :: pages, r)
      | Ret Stop => ([], Ret ())
      | Raise e => ([], Raise e)
      | Unmodelled => ([], Unmodelled)
      | OutOfFuel => ([], OutOfFuel)
      end
  end.

(** [for page in generator: s = body(page, s)], the generator being
    resumed between two runs of the body. *)
Fixpoint for_pages {S} (fuel : nat) (next : nat → M gen_step)
    (body : json → S → M S) (page_num : nat) (s : S) : M S :=
  match fuel with
  | O => out_of_fuel
  | S fuel' =>
      step ← next page_num;
      match step with
      | Yield page n => s' ← body page s; for_pages fuel' next body n s'
      | Stop => ret s
      end
  end.

(** ** The validators *)

Definition validate_user (user : json) : M bool :=
  except_KeyError
    (company ← lift (c ← getitem user "company"; getitem c "name");
     fullname ← lift (getitem user "name");
     email ← lift (getitem user "email");
     ret true)
    (print "User object is malformed";; ret false).

Definition validate_todo (todo : json) : M bool :=
  except_KeyError
    (title ← lift (getitem todo "title");
     completed ← lift (getitem todo "completed");
     ret true)
    (print "ToDo object is malformed";; ret false).

(** ** Dates and times *)

(** A naive [datetime.datetime]. *)
Record datetime : Type := Datetime {
  year : Z; month : Z; day : Z;
  hour : Z; minute : Z; second : Z; microsecond : Z
}.

Definition is_leap (y : Z) : bool :=
  (y mod 4 =? 0)%Z && (negb (y mod 100 =? 0)%Z || (y mod 400 =? 0)%Z).

Definition days_in_month (y m : Z) : Z :=
  if (m =? 2)%Z then (if is_leap y then 29 else 28)
  else if (m =? 4)%Z || (m =? 6)%Z || (m =? 9)%Z || (m =? 11)%Z then 30
  else 31.

(** [datetime.datetime(year=, month=, day=, hour=, minute=)]: the
    constructor refuses a date that does not exist. *)
Definition make_datetime (y m d h mi : Z) : outcome datetime :=
  if (1 <=? y)%Z && (y <=? 9999)%Z && (1 <=? m)%Z && (m <=? 12)%Z
     && (1 <=? d)%Z && (d <=? days_in_month y m)%Z
     && (0 <=? h)%Z && (h <=? 23)%Z && (0 <=? mi)%Z && (mi <=? 59)%Z
  then Ret (Datetime y m d h mi 0 0)
  else Raise ValueError.

Definition days_before_year (y : Z) : Z :=
  let p := (y - 1)%Z in (p * 365 + p / 4 - p / 100 + p / 400)%Z.

Fixpoint days_before_month_from (y : Z) (m : nat) : Z :=
  match m with
  | O => 0
  | S m' => (days_before_month_from y m' + days_in_month y (Z.of_nat m))%Z
  end.

(** Days of year [y] before the first of month [m]. *)
Definition days_before_month (y m : Z) : Z :=
  days_before_month_from y (Z.to_nat (m - 1)).

(** [date.toordinal]: day 1 is 1 January of year 1. *)
Definition toordinal (t : datetime) : Z :=
  (days_before_year (year t) + days_before_month (year t) (month t) + day t)%Z.

(** Microseconds since the start of day 0. *)
Definition to_microseconds (t : datetime) : Z :=
  ((((toordinal t * 24 + hour t) * 60 + minute t) * 60 + second t) * 1000000
   + microsecond t)%Z.

(** [a - b] as a [timedelta], in microseconds; timedeltas compare as these
    numbers do. *)
Definition datetime_sub (a b : datetime) : Z :=
  (to_microseconds a - to_microseconds b)%Z.

Definition str_of_Z (z : Z) : string := str_of_nat (Z.to_nat z).

Definition pad2 (z : Z) : string :=
  if (z <? 10)%Z then "0" +:+ str_of_Z z else str_of_Z z.

(** [t.strftime("%d.%m.%Y %H:%M")]; the year has four digits from year
    1000 on. *)
Definition strftime (t : datetime) : string :=
  pad2 (day t) +:+ "." +:+ pad2 (month t) +:+ "." +:+ str_of_Z (year t)
  +:+ " " +:+ pad2 (hour t) +:+ ":" +:+ pad2 (minute t).

(** ** The surroundings of a run *)

(** The fate of [open(report_path, "w")] followed by [write(report)]:
    all of the text lands, or [open] succeeds and an exception leaves
    [landed] in the file, or [open] itself raises and creates nothing. *)
Inductive write_effect : Type :=
| WriteOk
| WriteRaised (landed : string)
| OpenRaised.

Record env : Type := Env {
  http : nat → request → response;      (* [requests.get] *)
  now : nat → datetime;                 (* [datetime.datetime.now] *)
  write_fate : nat → write_effect;
  listdir : gmap string string → list string;   (* the order of [os.listdir] *)
  repr : json → string                  (* [str] on what is not a string *)
}.

(** ** The report composer *)

(** The four accumulators of [create_report]. *)
Record tally : Type := Tally {
  cur_tasks : string;
  comp_tasks : string;
  cur_total : nat;
  comp_total : nat
}.

Definition no_tasks : tally := Tally "" "" 0 0.

Definition total_tasks (t : tally) : nat := cur_total t + comp_total t.

(** The body of [for task in page]. *)
Definition count_task (task : json) (t : tally) : M tally :=
  ok ← validate_todo task;
  if ok : bool then
    title ← lift (getitem task "title");
    n ← lift (py_len title);
    task ← (if (46 <? n)%nat
            then clipped ← lift (clip_title title); lift (setitem task "title" clipped)
            else ret task);
    completed ← lift (getitem task "completed");
    if py_eq_bool completed false then
      title ← lift (getitem task "title");
      line ← lift (task_line title);
      ret (Tally (cur_tasks t +:+ line) (comp_tasks t) (cur_total t + 1) (comp_total t))
    else if py_eq_bool completed true then
      title ← lift (getitem task "title");
      line ← lift (task_line title);
      ret (Tally (cur_tasks t) (comp_tasks t +:+ line) (cur_total t) (comp_total t + 1))
    else ret t
  else ret t.

(** The body of [for page in get_todos(...)]. *)
Definition count_page (page : json) (t : tally) : M tally :=
  tasks ← lift (py_iter page);
  for_each count_task tasks t.

(** The templates [HEADER], [TOTAL_TASKS], [TOTAL_CURRENT_TASKS] and
    [TOTAL_COMPLETED_TASKS], already applied to their arguments. *)
Definition HEADER (company fullname email time : string) : string :=
  "# Report for " +:+ company +:+ "." +:+ nl
  +:+ fullname +:+ " <" +:+ email +:+ "> " +:+ time +:+ nl.

Definition TOTAL_TASKS (total : nat) : string :=
  "Total tasks: " +:+ str_of_nat total +:+ nl.

Definition TOTAL_CURRENT_TASKS (cur : nat) : string :=
  nl +:+ "## Current tasks (" +:+ str_of_nat cur +:+ "):" +:+ nl.

Definition TOTAL_COMPLETED_TASKS (comp : nat) : string :=
  nl +:+ "## Completed tasks (" +:+ str_of_nat comp +:+ "):" +:+ nl.

Definition render (e : env) (company fullname email : json) (time : string)
    (t : tally) : string :=
  HEADER (py_str (repr e) company) (py_str (repr e) fullname)
         (py_str (repr e) email) time
  +:+ TOTAL_TASKS (total_tasks t)
  +:+ TOTAL_CURRENT_TASKS (cur_total t)
  +:+ cur_tasks t
  +:+ TOTAL_COMPLETED_TASKS (comp_total t)
  +:+ comp_tasks t.

(** The generator [get_todos(user_id)] resumed inside a run. *)
Definition next_todos (e : env) (user_id : json) (page_num : nat) : M gen_step :=
  step ← ask (λ n, get_todos (http e n) user_id page_num);
  lift step.

Definition next_users (e : env) (page_num : nat) : M gen_step :=
  step ← ask (λ n, get_users (http e n) page_num);
  lift step.

(** The two nested loops of [create_report]. *)
Definition count_todos (e : env) (fuel : nat) (user_id : json) : M tally :=
  for_pages fuel (next_todos e user_id) count_page first_page no_tasks.

(** [None] is Python's [None]: the user has no tasks. *)
Definition create_report (e : env) (fuel : nat) (user : json) : M (option string) :=
  company ← lift (c ← getitem user "company"; getitem c "name");
  fullname ← lift (getitem user "name");
  email ← lift (getitem user "email");
  time ← ask (λ n, strftime (now e n));
  user_id ← lift (getitem user "id");
  t ← count_todos e fuel user_id;
  let report := render e company fullname email time t in
  if (total_tasks t =? 0)%nat then ret None else ret (Some report).

(** ** Regular expressions, as far as the script uses them *)

(** Both patterns of the script are sequences of one-character items: a
    literal, [.] (any character but a line feed) or [[0-9]]. *)
Inductive atom : Type :=
| Lit (c : ascii)
| AnyChar
| Digit.

Definition atom_matches (a : atom) (c : ascii) : bool :=
  match a with
  | Lit x => Ascii.eqb x c
  | AnyChar => negb (Ascii.eqb c (ascii_of_nat 10))
  | Digit => is_digit c
  end.

(** [re.match]: the pattern matches at the start of [s]; what follows the
    match is free. *)
Fixpoint re_match (p : list atom) (s : string) : bool :=
  match p, s with
  | [], _ => true
  | a :: p', String c s' => atom_matches a c && re_match p' s'
  | _ :: _, EmptyString => false
  end.

(** [re.search]: the leftmost position where the pattern matches; the
    result is the text from that position on. *)
Fixpoint re_search (p : list atom) (s : string) : option string :=
  if re_match p s then Some s
  else match s with
       | EmptyString => None
       | String _ s' => re_search p s'
       end.

Definition lits (s : string) : list atom := map Lit (list_ascii_of_string s).

(** Characters with a meaning of their own in a pattern, the dot and the
    parentheses apart. *)
Definition is_operator (c : ascii) : bool :=
  bool_decide (c ∈ list_ascii_of_string "\^$*+?{}[]|").

(** The user name read as a piece of a pattern, which is what
    [f"old_{username}_..."] makes of it: a dot matches any character, a
    pair of parentheses groups without matching anything, an ordinary
    character matches itself.  [depth] counts the groups still open.  Any
    other operator, or parentheses that do not pair up, is outside the
    fragment modelled here ([None]). *)
Fixpoint username_atoms (depth : nat) (username : string) : option (list atom) :=
  match username with
  | EmptyString => if (depth =? 0)%nat then Some [] else None
  | String c rest =>
      if Ascii.eqb c "("%char then username_atoms (S depth) rest
      else if Ascii.eqb c ")"%char then
        match depth with
        | O => None
        | S d => username_atoms d rest
        end
      else if Ascii.eqb c "."%char then cons AnyChar <$> username_atoms depth rest
      else if is_operator c then None
      else cons (Lit c) <$> username_atoms depth rest
  end.

(** ** The report file manager *)

(** What [get_date] returns: the reformatted date, or the integer 0. *)
Inductive date_value : Type :=
| DateText (s : string)
| DateZero.

(** [re_exp] of [get_date] *)
Definition date_re_exp : list atom :=
  [Digit; Digit; AnyChar; Digit; Digit; AnyChar; Digit; Digit; Digit; Digit;
   Lit " "; Digit; Digit; Lit ":"; Digit; Digit].

Definition date_format (year month day hour minute : string) : string :=
  year +:+ "-" +:+ month +:+ "-" +:+ day +:+ "T" +:+ hour +:+ ":" +:+ minute.

(** [get_date] once the file is read. *)
Definition find_date (data : string) : date_value :=
  match re_search date_re_exp data with
  | Some m =>
      DateText (date_format (substring 6 4 m) (substring 3 2 m) (substring 0 2 m)
                            (substring 11 2 m) (substring 14 2 m))
  | None => DateZero
  end.

(** [open(path, "r", encoding="utf-8").read()]: the content of the file
    with its line ends translated. *)
Definition read_file (path : string) : M string :=
  λ w, match files w !! path with
       | Some data => (Ret (universal_newlines data), w)
       | None => (Raise FileNotFoundError, w)
       end.

Definition get_date (path : string) : M date_value :=
  data ← read_file path;
  ret (find_date data).

(** [os.path.isfile] *)
Definition isfile (path : string) : M bool :=
  d ← get_files; ret (bool_decide (is_Some (d !! path))).

(** [os.rename] *)
Definition os_rename (src dst : string) : M unit :=
  d ← get_files;
  match d !! src with
  | Some data => put_files (<[dst := data]> (delete src d))
  | None => raise FileNotFoundError
  end.

(** [os.remove] *)
Definition os_remove (path : string) : M unit :=
  d ← get_files;
  match d !! path with
  | Some _ => put_files (delete path d)
  | None => raise FileNotFoundError
  end.

Definition validate_file (file_path report : string) : M (option bool) :=
  present ← isfile file_path;
  if present : bool then
    report_file ← read_file file_path;
    ret (Some (String.eqb report_file report))
  else ret None.

(** How a date is printed inside an f-string. *)
Definition date_text (date : date_value) : string :=
  match date with
  | DateText s => s
  | DateZero => "0"
  end.

Definition create_filename (username : string) (date : option date_value) : string :=
  match date with
  | None => username +:+ ".txt"
  | Some d => "old_" +:+ username +:+ "_" +:+ date_text d +:+ ".txt"
  end.

(** [re_exp] of [get_last_report]; the year starts [year_offset] characters
    into a matching name. *)
Definition last_report_re_exp (user : list atom) : list atom :=
  lits "old_" ++ user ++ lits "_" ++ [Digit; Digit; Digit; Digit] ++ lits "-"
  ++ [Digit; Digit] ++ lits "-" ++ [Digit; Digit]
  ++ lits "T" ++ [Digit; Digit] ++ lits ":" ++ [Digit; Digit] ++ [AnyChar] ++ lits "txt".

Definition year_offset (user : list atom) : nat := 4 + length user + 1.

(** The body of [for file_name in file_names]; the state is
    [(min_dif, last_report)]. *)
Definition scan_name (user : list atom) (today : datetime) (file_name : string)
    (st : option Z * option string) : outcome (option Z * option string) :=
  if re_match (last_report_re_exp user) file_name then
    let o := year_offset user in
    let year := int_of_digits (substring o 4 file_name) in
    let month := int_of_digits (substring (o + 5) 2 file_name) in
    let day := int_of_digits (substring (o + 8) 2 file_name) in
    let hour := int_of_digits (substring (o + 11) 2 file_name) in
    let minute := int_of_digits (substring (o + 14) 2 file_name) in
    file_date ← make_datetime year month day hour minute;
    let diff := datetime_sub today file_date in
    let st1 := match fst st with
               | None => (Some diff, Some file_name)
               | Some _ => st
               end in
    match fst st1 with
    | Some min_dif =>
        if (diff <? min_dif)%Z then Ret (Some diff, Some file_name) else Ret st1
    | None => Raise TypeError
    end
  else Ret st.

Fixpoint scan_names (user : list atom) (today : datetime) (file_names : list string)
    (st : option Z * option string) : outcome (option Z * option string) :=
  match file_names with
  | [] => Ret st
  | file_name :: rest =>
      st' ← scan_name user today file_name st;
      scan_names user today rest st'
  end.

(** [get_last_report] on the listing of [tasks/]. *)
Definition find_last_report (today : datetime) (file_names : list string)
    (username : string) : outcome (option string) :=
  match username_atoms 0 username with
  | Some user =>
      st ← scan_names user today file_names (None, None);
      Ret (snd st)
  | None => Unmodelled
  end.

Definition get_last_report (today : datetime)
    (listdir : gmap string string → list string) (username : string)
  : M (option string) :=
  d ← get_files;
  lift (find_last_report today (listdir d) username).

(** [with open(report_path, "w") as rep_file: rep_file.write(report)]
    inside [try ... except Exception: print(...)].  The text is stored as
    it is; [read_file] translates the line ends when it is read. *)
Definition write_report (fx : write_effect) (report_path report : string) : M unit :=
  d ← get_files;
  match fx with
  | WriteOk => put_files (<[report_path := report]> d)
  | WriteRaised landed =>
      put_files (<[report_path := landed]> d);;
      print ("Error occured while writing to file " +:+ report_path)
  | OpenRaised =>
      print ("Error occured while writing to file " +:+ report_path)
  end.

(** The two paths [save_report] builds for a user. *)
Definition report_path (username : string) : string :=
  "tasks/" +:+ create_filename username None.

Definition archive_path (username : string) (date : date_value) : string :=
  "tasks/" +:+ create_filename username (Some date).

(** The part of [save_report] before [finally]: move the report in place,
    if there is one, to its archival name, and write the new one. *)
Definition archive_and_write (fx : write_effect) (report username : string) : M unit :=
  present ← isfile (report_path username);
  (if present : bool then
     date ← get_date (report_path username);
     os_rename (report_path username) (archive_path username date)
   else ret ());;
  write_report fx (report_path username) report.

(** The [finally] block of [save_report]. *)
Definition reconcile (today : datetime) (listdir : gmap string string → list string)
    (report username : string) : M unit :=
  file_is_valid ← validate_file (report_path username) report;
  match file_is_valid with
  | Some true => ret ()
  | _ =>
      (match file_is_valid with
       | Some false => os_remove (report_path username)
       | _ => ret ()
       end);;
      last_report ← get_last_report today listdir username;
      match last_report with
      | Some name => os_rename ("tasks/" +:+ name) (report_path username)
      | None => ret ()
      end
  end.

Definition save_report (fx : write_effect) (today : datetime)
    (listdir : gmap string string → list string) (report username : string) : M unit :=
  archive_and_write fx report username;;
  reconcile today listdir report username.

(** ** The orchestrator *)

(** [user["username"].replace("/", "(f_slash)")] *)
Definition sanitize (v : json) : outcome string :=
  match v with
  | JStr s => Ret (replace_char "/" "(f_slash)" s)
  | _ => Raise AttributeError
  end.

(** [print(a, b)] writes both, separated by a space. *)
Definition print2 (e : env) (a : json) (b : string) : M unit :=
  print (py_str (repr e) a +:+ " " +:+ b).

(** The body of [for user in page]. *)
Definition process_user (e : env) (fuel : nat) (user : json) : M unit :=
  ok ← validate_user user;
  if negb ok then
    name ← lift (getitem user "username");
    print2 e name " doesn't have required"
  else
    report ← create_report e fuel user;
    match report with
    | None =>
        name ← lift (getitem user "username");
        print2 e name " doesn't have todos"
    | Some text =>
        name ← lift (getitem user "username");
        username ← lift (sanitize name);
        fx ← ask (write_fate e);
        today ← ask (now e);
        save_report fx today (listdir e) text username
    end.

Definition process_page (e : env) (fuel : nat) (page : json) (_ : unit) : M unit :=
  users ← lift (py_iter page);
  for_each (λ user _, process_user e fuel user) users ().

(** The script itself; creating [tasks/] leaves the files as they are. *)
Definition main (e : env) (fuel : nat) : M unit :=
  for_pages fuel (next_users e) (process_page e fuel) first_page ().

(** * Vocabulary of the statements *)

(** ** The directory during [save_report] *)

(** What [get_date] returns for a file that holds [stored]. *)
Definition date_of (stored : string) : date_value :=
  find_date (universal_newlines stored).

(** The directory after the archive step of [save_report]. *)
Definition archived (username : string) (d : gmap string string) : gmap string string :=
  match d !! report_path username with
  | Some old =>
      <[archive_path username (date_of old) := old]> (delete (report_path username) d)
  | None => d
  end.

(** What [validate_file] answers with [True]: the file at [path] is there
    and is read as [report]. *)
Definition verifies (d : gmap string string) (path report : string) : bool :=
  match d !! path with
  | Some stored => String.eqb (universal_newlines stored) report
  | None => false
  end.

(** The directory after the write, whatever its fate. *)
Definition written (fx : write_effect) (path report : string) (d : gmap string string)
  : gmap string string :=
  match fx with
  | WriteOk => <[path := report]> d
  | WriteRaised landed => <[path := landed]> d
  | OpenRaised => d
  end.


(** [w] after one more line of output. *)
Definition printed (line : string) (w : world) : world :=
  World (files w) (stdout w ++ [line]) (tick w).

(** ** Dates in reports and in names *)

(** [digits n s]: [s] consists of exactly [n] decimal digits. *)
Definition digits (n : nat) (s : string) : bool :=
  (String.length s =? n)%nat && forallb is_digit (list_ascii_of_string s).

(** The text [DD.MM.YYYY HH:MM] *)
Definition header_time (dd mm yyyy hh mi : string) : string :=
  dd +:+ "." +:+ mm +:+ "." +:+ yyyy +:+ " " +:+ hh +:+ ":" +:+ mi.

(** A text that starts with a date as the pattern of [get_date] takes it:
    [DD], one character, [MM], one character, [YYYY HH:MM]. *)
Definition dated (dd : string) (c1 : ascii) (mm : string) (c2 : ascii)
    (yyyy hh mi post : string) : string :=
  dd +:+ String c1 (mm +:+ String c2 (yyyy +:+ " " +:+ hh +:+ ":" +:+ mi +:+ post)).

(** The text [YYYY-MM-DDTHH:MM] *)
Definition stamp (yyyy mm dd hh mi : string) : string :=
  yyyy +:+ "-" +:+ mm +:+ "-" +:+ dd +:+ "T" +:+ hh +:+ ":" +:+ mi.

(** The pattern matches nowhere inside [pre] when [rest] follows it. *)
Fixpoint no_match_before (p : list atom) (pre rest : string) : bool :=
  match pre with
  | EmptyString => true
  | String _ pre' => negb (re_match p (pre +:+ rest)) && no_match_before p pre' rest
  end.

(** What follows [old_{username}_] in the pattern of [get_last_report]. *)
Definition stamp_re : list atom :=
  [Digit; Digit; Digit; Digit; Lit "-"; Digit; Digit; Lit "-"; Digit; Digit;
   Lit "T"; Digit; Digit; Lit ":"; Digit; Digit; AnyChar; Lit "t"; Lit "x"; Lit "t"].

(** The date that [get_last_report] reads in a matching name. *)
Definition name_date (user : list atom) (file_name : string) : outcome datetime :=
  let o := year_offset user in
  make_datetime (int_of_digits (substring o 4 file_name))
                (int_of_digits (substring (o + 5) 2 file_name))
                (int_of_digits (substring (o + 8) 2 file_name))
                (int_of_digits (substring (o + 11) 2 file_name))
                (int_of_digits (substring (o + 14) 2 file_name)).


(** Every name the pattern matches carries a date that exists. *)
Definition dates_exist (user : list atom) (file_names : list string) : Prop :=
  ∀ n, n ∈ file_names → re_match (last_report_re_exp user) n = true →
       ∃ t, name_date user n = Ret t.


(** ** User names as patterns *)

(** A user name without parentheses and without operators other than the
    dot, and one without the dot as well. *)
Definition is_simple (username : string) : bool :=
  forallb (λ c, negb (Ascii.eqb c "(") && negb (Ascii.eqb c ")") && negb (is_operator c))
          (list_ascii_of_string username).

Definition is_plain (username : string) : bool :=
  is_simple username && forallb (λ c, negb (Ascii.eqb c ".")) (list_ascii_of_string username).

(** ** Responses *)

(** A status for which [raise_for_status] raises. *)
Definition error_status (r : response) : bool :=
  (400 <=? status_code r)%Z && (status_code r <? 600)%Z.

(** The decoded payload, [JNull] when there is none. *)
Definition json_of (r : response) : json := default JNull (body r).

(** A response that makes the fetcher yield, and one that ends it. *)
Definition carries_page (r : response) : bool :=
  negb (error_status r)
  && match body r with Some v => negb (is_empty_list v) | None => false end.

Definition carries_end (r : response) : bool :=
  negb (error_status r)
  && match body r with Some v => is_empty_list v | None => false end.

(** [e] with another server. *)
Definition set_http (e : env) (h : nat → request → response) : env :=
  Env h (now e) (write_fate e) (listdir e) (repr e).

(** [r'] is [r], or [r] with [task] added somewhere to a list of records
    that is not empty. *)
Definition with_task (task : json) (r r' : response) : Prop :=
  r' = r
  ∨ ∃ l1 l2, l1 ++ l2 ≠ [] ∧ status_code r' = status_code r
      ∧ body r = Some (JList (l1 ++ l2)) ∧ body r' = Some (JList (l1 ++ task :: l2)).

(** * Inputs of the examples *)

Definition noon : datetime := Datetime 2026 11 3 12 30 15 0.

(** A listing of [tasks/] in the order of the map. *)
Definition plain_listdir (d : gmap string string) : list string :=
  omap (λ p, if String.prefix "tasks/" p
             then Some (substring 6 (String.length p - 6) p) else None)
       (map_to_list d).*1.

Definition ann_report : string :=
  HEADER "ACME" "Ann Lee" "ann@acme.org" "02.11.2026 09:15"
  +:+ TOTAL_TASKS 1 +:+ TOTAL_CURRENT_TASKS 0
  +:+ TOTAL_COMPLETED_TASKS 1 +:+ "- plan" +:+ nl.




Definition ann_world : world :=
  World {["tasks/Ann.txt" := ann_report]} [] 0.


(** A current report without a date. *)
Definition undated_world : world :=
  World {["tasks/Ann.txt" := "notes"]} [] 0.

(** The current report of a user and a report archived in the same minute. *)
Definition twice_world : world :=
  World (<["tasks/old_Ann_2026-11-02T09:15.txt" := "earlier report"]>
           {["tasks/Ann.txt" := ann_report]}) [] 0.

(** Two archived reports of one user and a current one. *)
Definition history_world : world :=
  World (<["tasks/old_Ann_2026-10-01T08:00.txt" := "report of October"]>
           (<["tasks/old_Ann_2025-12-24T18:30.txt" := "report of December"]>
              {["tasks/Ann.txt" := ann_report]})) [] 0.

(** The directory of a user whose name held a path separator: the
    current report and an archived one. *)
Definition slash_world : world :=
  World (<["tasks/old_a(f_slash)b_2026-10-01T08:00.txt" := "report of October"]>
           {["tasks/a(f_slash)b.txt" := ann_report]}) [] 0.

(** A directory that holds one archived report, of the user [aXb]. *)
Definition other_user_world : world :=
  World {["tasks/old_aXb_2026-11-02T09:15.txt" := ann_report]} [] 0.

Definition empty_world : world := World ∅ [] 0.

Definition ann_user : json :=
  JDict [("id", JInt 1); ("username", JStr "Ann"); ("name", JStr "Ann Lee");
         ("email", JStr "ann@acme.org"); ("company", JDict [("name", JStr "ACME")])].

Definition null_company_user : json :=
  JDict [("id", JInt 2); ("username", JStr "Cy"); ("name", JStr "Cy Young");
         ("email", JStr "cy@young.org"); ("company", JNull)].

Definition nameless_user : json :=
  JDict [("id", JInt 3); ("name", JStr "Di Ray")].

Definition zero_flag_task : json :=
  JDict [("title", JStr "water plants"); ("completed", JInt 0)].

Definition maybe_flag_task : json :=
  JDict [("title", JStr "feed the cat"); ("completed", JStr "maybe")].

(** The server of the examples: one page of [users], one page of [todos]
    for every user, nothing after that. *)
Definition page_of (req : request) : Z :=
  match dict_lookup "_page" (params req) with
  | Some (JInt z) => z
  | _ => 0
  end.

Definition demo_server (users todos : list json) (req : request) : response :=
  if (page_of req =? 1)%Z
  then Response 200 (Some (JList (if String.eqb (url req) USERS_URL then users else todos)))
  else Response 200 (Some (JList [])).

(** A server that answers every request with status 300 and one record. *)
Definition multiple_choices (_ : request) : response :=
  Response 300 (Some (JList [JStr "record"])).

Definition demo_env (users todos : list json) : env :=
  Env (λ _, demo_server users todos) (λ _, noon) (λ _, WriteOk) plain_listdir (λ _, "?").

(** * Vocabulary of the further properties *)

(** The title as a task line shows it. *)
Definition shown_title (title : string) : string :=
  if (46 <? String.length title)%nat then str_prefix 46 title +:+ "..." else title.

(** The flag of a task that has both keys. *)
Definition flag_of (task : json) : option json :=
  match task with
  | JDict fields =>
      match dict_lookup "title" fields with
      | Some _ => dict_lookup "completed" fields
      | None => None
      end
  | _ => None
  end.

(** A task whose flag equals [False], and one whose flag equals [True]. *)
Definition is_current (task : json) : bool :=
  match flag_of task with Some c => py_eq_bool c false | None => false end.

Definition is_completed (task : json) : bool :=
  match flag_of task with Some c => py_eq_bool c true | None => false end.

(** The line of a task in the report. *)
Definition line_of (task : json) : string :=
  match task with
  | JDict fields =>
      match dict_lookup "title" fields with
      | Some (JStr title) => "- " +:+ shown_title title +:+ nl
      | _ => ""
      end
  | _ => ""
  end.

Definition lines_of (tasks : list json) : string :=
  fold_right (λ task rest, line_of task +:+ rest) "" tasks.

(** A dictionary whose title, if it has one, is a string. *)
Definition well_titled (task : json) : bool :=
  match task with
  | JDict fields =>
      match dict_lookup "title" fields with
      | Some (JStr _) | None => true
      | Some _ => false
      end
  | _ => false
  end.

(** The lines that [validate_todo] prints for the tasks of a page: one
    for every task that lacks a key. *)
Definition lacks_key (task : json) : bool :=
  match flag_of task with Some _ => false | None => true end.

Definition malformed_lines (tasks : list json) : list string :=
  map (λ _, "ToDo object is malformed") (List.filter lacks_key tasks).

Definition mixed_page : list json :=
  [zero_flag_task; maybe_flag_task;
   JDict [("title", JStr "plan"); ("completed", JBool true)];
   JDict [("completed", JBool false)]].

(** A list or a dictionary of at most 46 items. *)
Definition short_container (v : json) : bool :=
  match v with
  | JList items => (length items <=? 46)%nat
  | JDict fields => (length fields <=? 46)%nat
  | _ => false
  end.

Definition numbered_task : json :=
  JDict [("title", JInt 7); ("completed", JBool false)].

Definition idless_user : json :=
  JDict [("username", JStr "Ed"); ("name", JStr "Ed Poe");
         ("email", JStr "ed@poe.org"); ("company", JDict [("name", JStr "Raven")])].

(** The text holds no carriage return: it is read back as it is written. *)
Definition no_cr (s : string) : bool :=
  forallb (λ c, negb (Ascii.eqb c (ascii_of_nat 13))) (list_ascii_of_string s).

(** No item of the pattern matches a line feed. *)
Definition never_lf (p : list atom) : bool :=
  forallb (λ a, negb (atom_matches a (ascii_of_nat 10))) p.

(** The name holds a path separator. *)
Definition has_slash (name : string) : bool :=
  existsb (Ascii.eqb "/") (list_ascii_of_string name).

(** The file that the write leaves is not read as the report: the write
    raised before the text was complete, or the text holds a carriage
    return. *)
Definition write_fails (fx : write_effect) (report : string) : bool :=
  match fx with
  | WriteOk => negb (String.eqb (universal_newlines report) report)
  | WriteRaised landed => negb (String.eqb (universal_newlines landed) report)
  | OpenRaised => true
  end.


(** A directory with a current report without a date and the archive of
    an earlier one. *)
Definition dateless_world : world :=
  World (<["tasks/old_Ann_0.txt" := "first notes"]> {["tasks/Ann.txt" := "notes"]}) [] 0.

(** Two states of the search of [get_last_report], run at two times, that
    hold the same name and the same file date. *)
Definition same_choice (today1 today2 : datetime) (st1 st2 : option Z * option string)
  : Prop :=
  st1.2 = st2.2
  ∧ match st1.1, st2.1 with
    | None, None => True
    | Some m1, Some m2 =>
        (m1 - to_microseconds today1 = m2 - to_microseconds today2)%Z
    | _, _ => False
    end.

Definition same_outcome (today1 today2 : datetime)
    (o1 o2 : outcome (option Z * option string)) : Prop :=
  match o1, o2 with
  | Ret st1, Ret st2 => same_choice today1 today2 st1 st2
  | Raise e1, Raise e2 => e1 = e2
  | Unmodelled, Unmodelled => True
  | OutOfFuel, OutOfFuel => True
  | _, _ => False
  end.

(** The date in a matching name as a point in time, 0 where the date is
    refused. *)
Definition name_time (user : list atom) (file_name : string) : Z :=
  match name_date user file_name with
  | Ret file_date => to_microseconds file_date
  | _ => 0
  end.

(** What the search holds after the names [seen]: the first of the names
    with the latest date. *)
Definition found_first (user : list atom) (today : datetime) (seen : list string)
    (st : option Z * option string) : Prop :=
  match st with
  | (Some m, Some best) =>
      ∃ before after,
        seen = before ++ best :: after
        ∧ re_match (last_report_re_exp user) best = true
        ∧ m = (to_microseconds today - name_time user best)%Z
        ∧ (∀ n, n ∈ before → re_match (last_report_re_exp user) n = true →
                (name_time user n < name_time user best)%Z)
        ∧ (∀ n, n ∈ after → re_match (last_report_re_exp user) n = true →
                (name_time user n ≤ name_time user best)%Z)
  | (None, None) =>
      ∀ n, n ∈ seen → re_match (last_report_re_exp user) n = false
  | _ => False
  end.

(** The server answers the requests [req page_num], [req (page_num + 1)],
    ... made from the time [first_tick] on with the pages [pages], none of
    them empty. *)
Fixpoint pages_served (e : env) (req : nat → request) (first_tick page_num : nat)
    (pages : list (list json)) : Prop :=
  match pages with
  | [] => True
  | records :: rest =>
      let r := http e first_tick (req page_num) in
      records ≠ [] ∧ error_status r = false ∧ body r = Some (JList records)
      ∧ pages_served e req (S first_tick) (S page_num) rest
  end.

(** The answer to the request that follows the pages [pages]. *)
Definition last_response (e : env) (req : nat → request) (first_tick : nat)
    (pages : list (list json)) : response :=
  http e (first_tick + length pages) (req (first_page + length pages)).

(** The tasks of a user come in the pages [pages], and the empty list
    after them. *)
Definition serves_todos (e : env) (user_id : json) (first_tick : nat)
    (pages : list (list json)) : Prop :=
  pages_served e (todos_request user_id) first_tick first_page pages
  ∧ carries_end (last_response e (todos_request user_id) first_tick pages) = true.

(** The report for the tasks [tasks]; [None] when none of them counts. *)
Definition report_of (company fullname email time : string) (tasks : list json)
  : option string :=
  let current := List.filter is_current tasks in
  let completed := List.filter is_completed tasks in
  if (length current + length completed =? 0)%nat then None
  else Some (HEADER company fullname email time
             +:+ TOTAL_TASKS (length current + length completed)
             +:+ TOTAL_CURRENT_TASKS (length current) +:+ lines_of current
             +:+ TOTAL_COMPLETED_TASKS (length completed) +:+ lines_of completed).

Definition plan_task : json := JDict [("title", JStr "plan"); ("completed", JBool true)].

(** A record with a [username] that [validate_user] turns down. *)
Definition malformed_named (user : json) : bool :=
  match user with
  | JDict fields =>
      match dict_lookup "username" fields, dict_lookup "company" fields with
      | Some _, None => true
      | Some _, Some (JDict inner) =>
          match dict_lookup "name" inner, dict_lookup "name" fields,
                dict_lookup "email" fields with
          | Some _, Some _, Some _ => false
          | _, _, _ => true
          end
      | _, _ => false
      end
  | _ => false
  end.

(** The two lines that the script prints for each of these records. *)
Definition skip_lines (e : env) (users : list json) : list string :=
  flat_map (λ user,
              match getitem user "username" with
              | Ret name => ["User object is malformed";
                             py_str (repr e) name +:+ " " +:+ " doesn't have required"]
              | _ => []
              end) users.

Definition unnamed_company_user : json :=
  JDict [("id", JInt 4); ("username", JStr "Flo"); ("name", JStr "Flo Rida");
         ("email", JStr "flo@rida.org"); ("company", JDict [])].

(** A server with two pages of users and an error after them. *)
Definition failing_server (req : request) : response :=
  if (page_of req <=? 2)%Z
  then Response 200 (Some (JList [unnamed_company_user]))
  else Response 503 None.

Definition failing_env : env :=
  Env (λ _, failing_server) (λ _, noon) (λ _, WriteOk) plain_listdir (λ _, "?").

(** What the header of a report holds before the time. *)
Definition header_before (company fullname email : string) : string :=
  "# Report for " +:+ company +:+ "." +:+ nl +:+ fullname +:+ " <" +:+ email +:+ "> ".

(** The time of [t] without its seconds. *)
Definition minute_of (t : datetime) : datetime :=
  Datetime (year t) (month t) (day t) (hour t) (minute t) 0 0.

(** [n] is written with two digits by [strftime] and read back by [int]. *)
Definition two_digits_ok (n : nat) : bool :=
  digits 2 (pad2 (Z.of_nat n)) && (int_of_digits (pad2 (Z.of_nat n)) =? Z.of_nat n)%Z.

(** A server with one page of tasks for every user and an error after it. *)
Definition failing_todos_server (req : request) : response :=
  if String.eqb (url req) USERS_URL then demo_server [ann_user] [] req
  else if (page_of req =? 1)%Z then Response 200 (Some (JList [plan_task]))
  else Response 500 None.

Definition failing_todos_env : env :=
  Env (λ _, failing_todos_server) (λ _, noon) (λ _, WriteOk) plain_listdir (λ _, "?").

(** A listing of [tasks/] that gives the names of the files that lie
    directly in it. *)
Definition flat_listdir (d : gmap string string) : list string :=
  List.filter (λ n, negb (has_slash n)) (plain_listdir d).

(** A directory with a file outside [tasks/]. *)
Definition notes_world : world :=
  World (<["notes.txt" := "keep"]> (files history_world)) [] 0.

(** A report stored with the line ends of another system: a carriage
    return before every line feed. *)
Definition windows_pre : string :=
  "# Report for ACME." +:+ String (ascii_of_nat 13) nl +:+ "Ann Lee <ann@acme.org> ".

Definition windows_post : string :=
  String (ascii_of_nat 13) nl +:+ "Total tasks: 0" +:+ String (ascii_of_nat 13) nl.

Definition windows_world : world :=
  World {["tasks/Ann.txt" := windows_pre +:+ "02.11.2026 09:15" +:+ windows_post]} [] 0.

(** A report with a carriage return. *)
Definition cr_report : string := "new" +:+ String (ascii_of_nat 13) "report".

(** * Properties *)

#[local] Arguments String.append : simpl nomatch.

(** ** Running the report file manager *)

Lemma length_append (a b : string) :
  String.length (a +:+ b) = String.length a + String.length b.
Proof. induction a as [|c a IH]; simpl; [done | by rewrite IH]. Qed.

Lemma append_assoc (a b c : string) : (a +:+ b) +:+ c = a +:+ (b +:+ c).
Proof. induction a as [|x a IH]; simpl; [done | by rewrite IH]. Qed.

Lemma substring_0_0 s : substring 0 0 s = EmptyString.
Proof. by destruct s. Qed.


Lemma report_path_not_archive username date :
  report_path username ≠ archive_path username date.
Proof.
  intros H. apply (f_equal String.length) in H.
  unfold report_path, archive_path, create_filename in H.
  rewrite !length_append in H. simpl in H. lia.
Qed.

Ltac run := unfold mbind, M_bind, bind, mret, M_ret, ret, lift, raise,
  get_files, put_files, print; simpl.

Lemma isfile_run path w :
  isfile path w = (Ret (bool_decide (is_Some (files w !! path))), w).
Proof. done. Qed.

Lemma validate_file_run path report w :
  validate_file path report w =
  (Ret (match files w !! path with
        | Some data => Some (String.eqb (universal_newlines data) report)
        | None => None
        end), w).
Proof.
  unfold validate_file, isfile, read_file. run.
  destruct (files w !! path) eqn:E; simpl.
  - by rewrite E.
  - done.
Qed.

Lemma archive_and_write_run fx report username w :
  ∃ out, archive_and_write fx report username w =
    (Ret (), World (written fx (report_path username) report (archived username (files w)))
                   (stdout w ++ out) (tick w)).
Proof.
  unfold archive_and_write, archived, date_of. fold (report_path username).
  unfold mbind, M_bind, bind. rewrite isfile_run.
  destruct (files w !! report_path username) as [old|] eqn:E.
  - rewrite bool_decide_true by eauto.
    unfold get_date, read_file, os_rename. run. rewrite E. simpl. rewrite E. simpl.
    fold (archive_path username (find_date (universal_newlines old))).
    unfold write_report. run.
    destruct fx; simpl; [exists [] | eexists [_] | eexists [_]]; rewrite ?app_nil_r; done.
  - rewrite bool_decide_false by (by intros [? ?]).
    unfold write_report. run.
    destruct fx; simpl; [exists [] | eexists [_] | eexists [_]]; rewrite ?app_nil_r; destruct w; done.
Qed.

Lemma archived_report_path username d : archived username d !! report_path username = None.
Proof.
  unfold archived. destruct (d !! report_path username) eqn:E; [|done].
  rewrite lookup_insert_ne by (apply not_eq_sym, report_path_not_archive).
  apply lookup_delete_eq.
Qed.

(** A check that gives [True] found a file that is read as the report. *)
Lemma validate_file_true path report w :
  (validate_file path report w).1 = Ret (Some true) →
  verifies (files w) path report = true.
Proof.
  rewrite validate_file_run. unfold verifies. simpl.
  destruct (files w !! path) as [data|]; [|done]. by intros [= ->].
Qed.

Lemma validate_file_not_true path report w :
  verifies (files w) path report = false →
  (validate_file path report w).1 ≠ Ret (Some true).
Proof. intros H Hv%validate_file_true. congruence. Qed.

Lemma verifies_read d path report :
  verifies d path report = true →
  ∃ stored, d !! path = Some stored ∧ universal_newlines stored = report.
Proof.
  unfold verifies. destruct (d !! path) as [stored|]; [|done].
  intros H%String.eqb_eq. eauto.
Qed.

Lemma reconcile_valid today listdir report username w :
  verifies (files w) (report_path username) report = true →
  reconcile today listdir report username w = (Ret (), w).
Proof.
  intros H. unfold reconcile.
  unfold mbind, M_bind, bind. rewrite validate_file_run.
  unfold verifies in H. destruct (files w !! report_path username); [|done].
  by rewrite H.
Qed.

(** The directory between the write and the check. *)
Lemma archive_and_write_files fx report username w :
  files (archive_and_write fx report username w).2
  = written fx (report_path username) report (archived username (files w)).
Proof. destruct (archive_and_write_run fx report username w) as [out ->]. done. Qed.

(** With a valid file in place, [save_report] stops after the write. *)
Lemma save_report_valid_run fx today listdir report username w :
  (validate_file (report_path username) report
     (archive_and_write fx report username w).2).1 = Ret (Some true) →
  save_report fx today listdir report username w
  = (Ret (), (archive_and_write fx report username w).2).
Proof.
  intros Hv%validate_file_true.
  destruct (archive_and_write_run fx report username w) as [out Hrun].
  unfold save_report, mbind, M_bind, bind. rewrite Hrun in *.
  by apply reconcile_valid.
Qed.

(** The write leaves every path but the current one alone. *)
Lemma written_other fx path report d p :
  p ≠ path → written fx path report d !! p = d !! p.
Proof. intros Hp. destruct fx; simpl; rewrite ?lookup_insert_ne by done; done. Qed.

Lemma archived_old username d old :
  d !! report_path username = Some old →
  archived username d !! archive_path username (date_of old) = Some old.
Proof. intros H. unfold archived. rewrite H. apply lookup_insert_eq. Qed.

Lemma archived_other username d old p :
  d !! report_path username = Some old →
  p ≠ report_path username → p ≠ archive_path username (date_of old) →
  archived username d !! p = d !! p.
Proof.
  intros H Hp1 Hp2. unfold archived. rewrite H.
  rewrite lookup_insert_ne by done. by rewrite lookup_delete_ne.
Qed.

(** ** The date of the archived report *)

Lemma re_search_skip p pre rest :
  no_match_before p pre rest = true →
  re_search p (pre +:+ rest) = re_search p rest.
Proof.
  induction pre as [|c pre IH]; [done|].
  cbn [no_match_before]. intros [H1 H2]%andb_true_iff.
  apply negb_true_iff in H1.
  change (String c pre +:+ rest) with (String c (pre +:+ rest)) in *.
  cbn [re_search]. rewrite H1. auto.
Qed.

Lemma re_search_here p s : re_match p s = true → re_search p s = Some s.
Proof. intros H. destruct s; cbn [re_search]; by rewrite H. Qed.

Lemma re_search_nowhere p s :
  (∀ pre rest, s = pre +:+ rest → re_match p rest = false) → re_search p s = None.
Proof.
  induction s as [|c s IH]; intros H; cbn [re_search].
  - by rewrite (H "" "").
  - rewrite (H "" (String c s)) by done. apply IH.
    intros pre rest ->. by apply (H (String c pre)).
Qed.

Lemma digits_2_inv s :
  digits 2 s = true →
  ∃ a b, s = String a (String b EmptyString) ∧ is_digit a = true ∧ is_digit b = true.
Proof.
  unfold digits. intros [Hl Hd]%andb_true_iff.
  destruct s as [|a [|b [|c s]]]; try discriminate.
  simpl in Hd. apply andb_true_iff in Hd as [Ha Hd]. apply andb_true_iff in Hd as [Hb _].
  eauto.
Qed.

Lemma digits_4_inv s :
  digits 4 s = true →
  ∃ a b c d, s = String a (String b (String c (String d EmptyString)))
    ∧ is_digit a = true ∧ is_digit b = true ∧ is_digit c = true ∧ is_digit d = true.
Proof.
  unfold digits. intros [Hl Hd]%andb_true_iff.
  destruct s as [|a [|b [|c [|d [|e s]]]]]; try discriminate.
  simpl in Hd. repeat (apply andb_true_iff in Hd as [? Hd]).
  exists a, b, c, d. auto.
Qed.

(** The date that [get_date] finds in a text whose leftmost match of the
    pattern is given. *)
Lemma find_date_leftmost pre post dd c1 mm c2 yyyy hh mi :
  digits 2 dd = true → digits 2 mm = true → digits 4 yyyy = true →
  digits 2 hh = true → digits 2 mi = true →
  c1 ≠ ascii_of_nat 10 → c2 ≠ ascii_of_nat 10 →
  no_match_before date_re_exp pre (dated dd c1 mm c2 yyyy hh mi post) = true →
  find_date (pre +:+ dated dd c1 mm c2 yyyy hh mi post)
  = DateText (stamp yyyy mm dd hh mi).
Proof.
  intros (d1 & d2 & -> & Hd1 & Hd2)%digits_2_inv (m1 & m2 & -> & Hm1 & Hm2)%digits_2_inv
         (y1 & y2 & y3 & y4 & -> & Hy1 & Hy2 & Hy3 & Hy4)%digits_4_inv
         (h1 & h2 & -> & Hh1 & Hh2)%digits_2_inv (n1 & n2 & -> & Hn1 & Hn2)%digits_2_inv
         Hc1%Ascii.eqb_neq Hc2%Ascii.eqb_neq Hpre.
  unfold find_date. rewrite re_search_skip by done.
  rewrite re_search_here.
  - unfold dated, stamp, date_format. simpl. by rewrite !substring_0_0.
  - unfold dated, date_re_exp. simpl.
    rewrite Hd1, Hd2, Hm1, Hm2, Hy1, Hy2, Hy3, Hy4, Hh1, Hh2, Hn1, Hn2, Hc1, Hc2. reflexivity.
Qed.

Lemma find_date_first pre post dd mm yyyy hh mi :
  digits 2 dd = true → digits 2 mm = true → digits 4 yyyy = true →
  digits 2 hh = true → digits 2 mi = true →
  no_match_before date_re_exp pre (header_time dd mm yyyy hh mi +:+ post) = true →
  find_date (pre +:+ header_time dd mm yyyy hh mi +:+ post)
  = DateText (date_format yyyy mm dd hh mi).
Proof.
  intros (d1 & d2 & -> & Hd1 & Hd2)%digits_2_inv (m1 & m2 & -> & Hm1 & Hm2)%digits_2_inv
         (y1 & y2 & y3 & y4 & -> & Hy1 & Hy2 & Hy3 & Hy4)%digits_4_inv
         (h1 & h2 & -> & Hh1 & Hh2)%digits_2_inv (n1 & n2 & -> & Hn1 & Hn2)%digits_2_inv Hpre.
  unfold find_date. rewrite re_search_skip by done.
  rewrite re_search_here.
  - unfold header_time, date_format. simpl. by rewrite !substring_0_0.
  - unfold header_time, date_re_exp. simpl. rewrite Hd1, Hd2, Hm1, Hm2, Hy1, Hy2, Hy3, Hy4, Hh1, Hh2, Hn1, Hn2. reflexivity.
Qed.

Lemma find_date_nowhere s :
  (∀ pre rest, s = pre +:+ rest → re_match date_re_exp rest = false) →
  find_date s = DateZero.
Proof. intros H. unfold find_date. by rewrite re_search_nowhere. Qed.

Lemma archive_path_stamp username yyyy mm dd hh mi :
  archive_path username (DateText (stamp yyyy mm dd hh mi))
  = "tasks/old_" +:+ username +:+ "_" +:+ stamp yyyy mm dd hh mi +:+ ".txt".
Proof. reflexivity. Qed.

(** ** Saves that verify *)

(** C1 as amended. Whatever the user name and the report, when the check
    made after the write finds the report in place ([validate_file] gives
    [True]), [save_report] returns; the current path of the user then
    holds a file that is read as the report, and the content that the
    current path had before the call is held by an archival path: by
    [old_{username}_YYYY-MM-DDTHH:MM.txt], built from the leftmost text of
    the form [DD?MM?YYYY HH:MM] in that content as it is read, and by
    [old_{username}_0.txt] when the content holds no such text. *)
Theorem save_report_verified fx today listdir report username w :
  (validate_file (report_path username) report
     (archive_and_write fx report username w).2).1 = Ret (Some true) →
  ∃ w', save_report fx today listdir report username w = (Ret (), w')
    ∧ (∃ stored, files w' !! ("tasks/" +:+ username +:+ ".txt") = Some stored
                 ∧ universal_newlines stored = report)
    ∧ ∀ old, files w !! ("tasks/" +:+ username +:+ ".txt") = Some old →
        (∀ pre dd c1 mm c2 yyyy hh mi post,
           universal_newlines old = pre +:+ dated dd c1 mm c2 yyyy hh mi post →
           no_match_before date_re_exp pre (dated dd c1 mm c2 yyyy hh mi post) = true →
           digits 2 dd = true → digits 2 mm = true → digits 4 yyyy = true →
           digits 2 hh = true → digits 2 mi = true →
           c1 ≠ ascii_of_nat 10 → c2 ≠ ascii_of_nat 10 →
           files w' !! ("tasks/old_" +:+ username +:+ "_" +:+ stamp yyyy mm dd hh mi
                        +:+ ".txt") = Some old)
        ∧ ((∀ pre rest, universal_newlines old = pre +:+ rest →
                        re_match date_re_exp rest = false) →
           files w' !! ("tasks/old_" +:+ username +:+ "_0.txt") = Some old).
Proof.
  intros Hv. exists (archive_and_write fx report username w).2.
  split; [by apply save_report_valid_run|].
  split; [by apply verifies_read, validate_file_true|].
  intros old Hold.
  assert (Harch : files (archive_and_write fx report username w).2
                    !! archive_path username (date_of old) = Some old).
  { rewrite archive_and_write_files.
    rewrite written_other by apply not_eq_sym, report_path_not_archive.
    by apply archived_old. }
  split.
  - intros pre dd c1 mm c2 yyyy hh mi post Hread Hpre Hdd Hmm Hyy Hhh Hmi Hc1 Hc2.
    rewrite <- archive_path_stamp, <- Harch. do 2 f_equal.
    unfold date_of. rewrite Hread. symmetry. by apply find_date_leftmost.
  - intros Hnone. rewrite <- Harch. unfold date_of.
    by rewrite (find_date_nowhere _ Hnone).
Qed.

Lemma save_report_verified_witness :
  ∃ w', save_report WriteOk noon plain_listdir "new report" "Ann" ann_world = (Ret (), w')
    ∧ (∃ stored, files w' !! ("tasks/" +:+ "Ann" +:+ ".txt") = Some stored
                 ∧ universal_newlines stored = "new report")
    ∧ ∀ old, files ann_world !! ("tasks/" +:+ "Ann" +:+ ".txt") = Some old →
        (∀ pre dd c1 mm c2 yyyy hh mi post,
           universal_newlines old = pre +:+ dated dd c1 mm c2 yyyy hh mi post →
           no_match_before date_re_exp pre (dated dd c1 mm c2 yyyy hh mi post) = true →
           digits 2 dd = true → digits 2 mm = true → digits 4 yyyy = true →
           digits 2 hh = true → digits 2 mi = true →
           c1 ≠ ascii_of_nat 10 → c2 ≠ ascii_of_nat 10 →
           files w' !! ("tasks/old_" +:+ "Ann" +:+ "_" +:+ stamp yyyy mm dd hh mi
                        +:+ ".txt") = Some old)
        ∧ ((∀ pre rest, universal_newlines old = pre +:+ rest →
                        re_match date_re_exp rest = false) →
           files w' !! ("tasks/old_" +:+ "Ann" +:+ "_0.txt") = Some old).
Proof.
  apply (save_report_verified WriteOk noon plain_listdir "new report" "Ann" ann_world).
  vm_compute. reflexivity.
Defined.

(** C1 fails as stated: the current report of this user holds no date, the
    write verifies, and the former content is kept as [old_Ann_0.txt], a
    name without a time; no other file holds it. *)
Lemma save_report_undated_counterexample :
  find_date (universal_newlines "notes") = DateZero
  ∧ ∃ w', save_report WriteOk noon plain_listdir "new report" "Ann" undated_world
          = (Ret (), w')
    ∧ plain_listdir (files w') = ["old_Ann_0.txt"; "Ann.txt"]
    ∧ files w' !! "tasks/Ann.txt" = Some "new report"
    ∧ files w' !! "tasks/old_Ann_0.txt" = Some "notes".
Proof.
  split; [reflexivity|].
  eexists. split; [vm_compute; reflexivity|].
  repeat split; vm_compute; reflexivity.
Qed.

(** C10. When the archival path built from the date of the current report
    is already taken, the archive step puts the current report there: the
    path no longer holds what it held, no other path but the current one
    changes, and a write that verifies leaves it so. *)
Theorem archive_replaces_same_minute fx today listdir report username w cur prev :
  files w !! report_path username = Some cur →
  files w !! archive_path username (date_of cur) = Some prev →
  let w1 := (archive_and_write fx report username w).2 in
  files w1 !! archive_path username (date_of cur) = Some cur
  ∧ (prev ≠ cur → files w1 !! archive_path username (date_of cur) ≠ Some prev)
  ∧ (∀ p, p ≠ report_path username → p ≠ archive_path username (date_of cur) →
       files w1 !! p = files w !! p)
  ∧ ((validate_file (report_path username) report w1).1 = Ret (Some true) →
       save_report fx today listdir report username w = (Ret (), w1)).
Proof.
  intros Hcur Hprev. cbn zeta. rewrite archive_and_write_files.
  pose proof (report_path_not_archive username (date_of cur)) as Hne.
  assert (Hnow : written fx (report_path username) report (archived username (files w))
                 !! archive_path username (date_of cur) = Some cur).
  { rewrite written_other by done. by apply archived_old. }
  split; [done|]. split; [rewrite Hnow; congruence|]. split.
  - intros p Hp1 Hp2. rewrite written_other by done. by apply (archived_other _ _ cur).
  - apply save_report_valid_run.
Qed.

Lemma archive_replaces_same_minute_witness :
  let w1 := (archive_and_write WriteOk "new report" "Ann" twice_world).2 in
  files w1 !! archive_path "Ann" (date_of ann_report) = Some ann_report
  ∧ ("earlier report" ≠ ann_report →
       files w1 !! archive_path "Ann" (date_of ann_report) ≠ Some "earlier report")
  ∧ (∀ p, p ≠ report_path "Ann" → p ≠ archive_path "Ann" (date_of ann_report) →
       files w1 !! p = files twice_world !! p)
  ∧ ((validate_file (report_path "Ann") "new report" w1).1 = Ret (Some true) →
       save_report WriteOk noon plain_listdir "new report" "Ann" twice_world = (Ret (), w1)).
Proof.
  apply (archive_replaces_same_minute WriteOk noon plain_listdir "new report" "Ann"
           twice_world ann_report "earlier report"); vm_compute; reflexivity.
Defined.




(** ** The search for the last report *)

Lemma last_report_re_exp_split user :
  last_report_re_exp user = lits "old_" ++ user ++ Lit "_" :: stamp_re.
Proof. reflexivity. Qed.

Lemma re_match_lits a p s :
  re_match (lits a ++ p) s = true ↔ ∃ s', s = a +:+ s' ∧ re_match p s' = true.
Proof.
  revert s. induction a as [|c a IH]; intros s.
  - simpl. split; [eauto|]. by intros (s' & -> & H).
  - cbn [lits list_ascii_of_string map app re_match]. destruct s as [|x s].
    + split; [done|]. by intros (s' & ? & _).
    + fold (lits a). cbn [atom_matches]. rewrite andb_true_iff, IH, Ascii.eqb_eq. split.
      * intros (-> & s' & -> & H). eauto.
      * intros (s' & [= -> ->] & H). eauto.
Qed.

Lemma username_atoms_simple username :
  is_simple username = true →
  ∃ user, username_atoms 0 username = Some user
    ∧ ∀ p s, re_match (user ++ p) (username +:+ s) = re_match p s.
Proof.
  unfold is_simple. induction username as [|c u IH]; cbn [list_ascii_of_string forallb].
  - intros _. exists []. done.
  - intros [Hc Hu]%andb_true_iff. destruct (IH Hu) as (user & Hua & Hm).
    apply andb_true_iff in Hc as [Hc Hop]. apply andb_true_iff in Hc as [Ho Hcl].
    apply negb_true_iff in Ho, Hcl, Hop.
    cbn [username_atoms]. rewrite Ho, Hcl, Hop, Hua.
    destruct (Ascii.eqb c ".") eqn:Hdot.
    + exists (AnyChar :: user). split; [done|]. intros p s.
      apply Ascii.eqb_eq in Hdot as ->. simpl. apply Hm.
    + exists (Lit c :: user). split; [done|]. intros p s.
      simpl. rewrite Ascii.eqb_refl. apply Hm.
Qed.

Lemma username_atoms_plain username :
  is_plain username = true → username_atoms 0 username = Some (lits username).
Proof.
  unfold is_plain, is_simple, lits. intros [Hs Hd]%andb_true_iff. revert Hs Hd.
  induction username as [|c u IH]; [done|].
  cbn [list_ascii_of_string forallb map username_atoms].
  intros [Hc Hu]%andb_true_iff [Hdot Hd]%andb_true_iff.
  apply andb_true_iff in Hc as [Hc Hop]. apply andb_true_iff in Hc as [Ho Hcl].
  apply negb_true_iff in Ho, Hcl, Hop, Hdot. rewrite Ho, Hcl, Hop, Hdot.
  by rewrite IH.
Qed.

(** The name that comes out of the search is a name the pattern matches. *)
Lemma scan_names_matches user today names st st' :
  scan_names user today names st = Ret st' →
  st'.2 = st.2
  ∨ ∃ n, st'.2 = Some n ∧ n ∈ names ∧ re_match (last_report_re_exp user) n = true.
Proof.
  revert st. induction names as [|n names IH]; intros st; cbn [scan_names].
  - intros [= ->]. by left.
  - destruct (scan_name user today n st) as [st1| | |] eqn:E1; try done.
    cbv beta iota delta [mbind outcome_bind]. intros H.
    assert (H1 : st1.2 = st.2
                 ∨ st1.2 = Some n ∧ re_match (last_report_re_exp user) n = true).
    { unfold scan_name in E1.
      destruct (re_match (last_report_re_exp user) n) eqn:Hm; [|left; congruence].
      cbv zeta in E1. destruct (make_datetime _ _ _ _ _) as [t| | |]; try done.
      cbv beta iota delta [mbind outcome_bind] in E1.
      destruct st as [[m|] last]; cbn [fst] in E1.
      - destruct (_ <? _)%Z; simplify_eq; auto.
      - cbn [fst] in E1. destruct (_ <? _)%Z; simplify_eq; auto. }
    destruct (IH _ H) as [H2 | (k & H2 & Hk & Hkm)].
    + destruct H1 as [H1 | [H1 Hm]].
      * left. congruence.
      * right. exists n. rewrite H2. split; [done|]. split; [by left|done].
    + right. exists k. split; [done|]. split; [by right|done].
Qed.

(** For a user name without operators but the dot, the search never
    returns the archival name built from the date [0]. *)
Lemma find_last_report_never_zero today names username :
  is_simple username = true →
  find_last_report today names username
  ≠ Ret (Some (create_filename username (Some DateZero))).
Proof.
  intros (user & Hu & Hm)%username_atoms_simple. unfold find_last_report. rewrite Hu.
  destruct (scan_names user today names (None, None)) as [st| | |] eqn:E; try done.
  cbv beta iota delta [mbind outcome_bind]. intros [= H].
  apply scan_names_matches in E as [E | (n & E & _ & Hn)]; [by rewrite H in E|].
  rewrite H in E. injection E as <-.
  rewrite last_report_re_exp_split in Hn.
  apply re_match_lits in Hn as (s' & Hs & Hn).
  unfold create_filename, date_text in Hs. apply (inj (String.append "old_")) in Hs.
  rewrite <- Hs, Hm in Hn. done.
Qed.

(** For a user name without any operator, the search returns only names
    that start with [old_{username}_], a date of the form
    [YYYY-MM-DDTHH:MM], one more character and [txt]. *)
Lemma find_last_report_plain today names username r :
  is_plain username = true →
  find_last_report today names username = Ret (Some r) →
  r ∈ names
  ∧ ∃ rest, r = "old_" +:+ username +:+ "_" +:+ rest ∧ re_match stamp_re rest = true.
Proof.
  intros Hu%username_atoms_plain. unfold find_last_report. rewrite Hu.
  destruct (scan_names _ today names (None, None)) as [st| | |] eqn:E; try done.
  cbv beta iota delta [mbind outcome_bind]. intros [= H].
  apply scan_names_matches in E as [E | (n & E & Hin & Hn)]; [by rewrite H in E|].
  rewrite H in E. injection E as <-. split; [done|].
  rewrite last_report_re_exp_split in Hn.
  apply re_match_lits in Hn as (s1 & -> & Hn).
  apply re_match_lits in Hn as (s2 & -> & Hn).
  apply (re_match_lits "_" stamp_re) in Hn as (s3 & -> & Hn).
  eauto.
Qed.




Lemma digits_2_intro a b :
  is_digit a = true → is_digit b = true → digits 2 (String a (String b EmptyString)) = true.
Proof. intros Ha Hb. unfold digits. simpl. by rewrite Ha, Hb. Qed.

Lemma digits_4_intro a b c d :
  is_digit a = true → is_digit b = true → is_digit c = true → is_digit d = true →
  digits 4 (String a (String b (String c (String d EmptyString)))) = true.
Proof. intros Ha Hb Hc Hd. unfold digits. simpl. by rewrite Ha, Hb, Hc, Hd. Qed.

(** What [stamp_re] matches: a date, one character that is no line feed,
    [txt], and anything after that. *)
Lemma stamp_re_shape s :
  re_match stamp_re s = true →
  ∃ yyyy mm dd hh mi c rest,
    s = stamp yyyy mm dd hh mi +:+ String c ("txt" +:+ rest)
    ∧ digits 4 yyyy = true ∧ digits 2 mm = true ∧ digits 2 dd = true
    ∧ digits 2 hh = true ∧ digits 2 mi = true ∧ c ≠ ascii_of_nat 10.
Proof.
  unfold stamp_re.
  destruct s as [|y1 [|y2 [|y3 [|y4 [|s1 [|m1 [|m2 [|s2 [|d1 [|d2 [|s3 [|h1 [|h2 [|s4
    [|n1 [|n2 [|c [|t1 [|t2 [|t3 rest]]]]]]]]]]]]]]]]]]]];
    cbn [re_match atom_matches]; rewrite ?andb_false_r; try discriminate.
  rewrite !andb_true_iff, !Ascii.eqb_eq, negb_true_iff, Ascii.eqb_neq.
  intros (Hy1 & Hy2 & Hy3 & Hy4 & <- & Hm1 & Hm2 & <- & Hd1 & Hd2 & <- & Hh1 & Hh2 & <-
          & Hn1 & Hn2 & Hc & <- & <- & <- & _).
  exists (String y1 (String y2 (String y3 (String y4 EmptyString)))),
         (String m1 (String m2 EmptyString)), (String d1 (String d2 EmptyString)),
         (String h1 (String h2 EmptyString)), (String n1 (String n2 EmptyString)), c, rest.
  split; [reflexivity|].
  repeat split; auto using digits_2_intro, digits_4_intro.
Qed.

(** C9 as amended. For a user name without regular-expression operators,
    a name that [get_last_report] returns is one of the listing and starts
    with [old_{username}_], a date [YYYY-MM-DDTHH:MM], one character and
    [txt]; it is never [old_{username}_0.txt], the name given to an
    archived report in which [get_date] found no date. *)
Theorem get_last_report_plain_names today listdir username w r w' :
  is_plain username = true →
  get_last_report today listdir username w = (Ret (Some r), w') →
  r ∈ listdir (files w)
  ∧ (∃ yyyy mm dd hh mi c rest,
       r = "old_" +:+ username +:+ "_" +:+ stamp yyyy mm dd hh mi
           +:+ String c ("txt" +:+ rest)
       ∧ digits 4 yyyy = true ∧ digits 2 mm = true ∧ digits 2 dd = true
       ∧ digits 2 hh = true ∧ digits 2 mi = true ∧ c ≠ ascii_of_nat 10)
  ∧ r ≠ create_filename username (Some DateZero).
Proof.
  intros Hp. unfold get_last_report, get_files, lift, mbind, M_bind, bind.
  destruct (find_last_report today (listdir (files w)) username) as [o| | |] eqn:E;
    try done.
  intros [= -> <-].
  destruct (find_last_report_plain _ _ _ _ Hp E) as (Hin & rest & -> & Hm).
  split; [done|]. split.
  - apply stamp_re_shape in Hm as (yyyy & mm & dd & hh & mi & c & rest' & -> & H).
    exists yyyy, mm, dd, hh, mi, c, rest'. done.
  - intros Hz. apply (find_last_report_never_zero today (listdir (files w)) username).
    + unfold is_plain in Hp. by apply andb_true_iff in Hp as [? _].
    + by rewrite E, Hz.
Qed.

Lemma get_last_report_plain_names_witness :
  "old_Ann_2026-10-01T08:00.txt" ∈ plain_listdir (files history_world)
  ∧ (∃ yyyy mm dd hh mi c rest,
       "old_Ann_2026-10-01T08:00.txt"
       = "old_" +:+ "Ann" +:+ "_" +:+ stamp yyyy mm dd hh mi +:+ String c ("txt" +:+ rest)
       ∧ digits 4 yyyy = true ∧ digits 2 mm = true ∧ digits 2 dd = true
       ∧ digits 2 hh = true ∧ digits 2 mi = true ∧ c ≠ ascii_of_nat 10)
  ∧ "old_Ann_2026-10-01T08:00.txt" ≠ create_filename "Ann" (Some DateZero).
Proof.
  apply (get_last_report_plain_names noon plain_listdir "Ann" history_world
           "old_Ann_2026-10-01T08:00.txt" history_world); vm_compute; reflexivity.
Defined.

(** C9 fails as stated: a name with text after [.txt] is returned, and so
    is, for the user [a.b], the archived report of the user [aXb]. *)
Lemma get_last_report_names_counterexample :
  get_last_report noon plain_listdir "Ann"
    (World {["tasks/old_Ann_2026-11-02T09:15.txt.bak" := ann_report]} [] 0)
  = (Ret (Some "old_Ann_2026-11-02T09:15.txt.bak"),
     World {["tasks/old_Ann_2026-11-02T09:15.txt.bak" := ann_report]} [] 0)
  ∧ get_last_report noon plain_listdir "a.b" other_user_world
    = (Ret (Some "old_aXb_2026-11-02T09:15.txt"), other_user_world)
  ∧ String.prefix "old_a.b_" "old_aXb_2026-11-02T09:15.txt" = false.
Proof. repeat split; vm_compute; reflexivity. Qed.

(** ** The rollback *)



(** The [finally] block when the check fails: the bad file goes, and the
    name the search returns, if any, becomes the current report. *)
Lemma reconcile_invalid today listdir report username w d :
  (validate_file (report_path username) report w).1 ≠ Ret (Some true) →
  d = delete (report_path username) (files w) →
  reconcile today listdir report username w
  = match find_last_report today (listdir d) username with
    | Ret (Some best) =>
        match d !! ("tasks/" +:+ best) with
        | Some data =>
            (Ret (), World (<[report_path username := data]> (delete ("tasks/" +:+ best) d))
                           (stdout w) (tick w))
        | None => (Raise FileNotFoundError, World d (stdout w) (tick w))
        end
    | Ret None => (Ret (), World d (stdout w) (tick w))
    | Raise e => (Raise e, World d (stdout w) (tick w))
    | Unmodelled => (Unmodelled, World d (stdout w) (tick w))
    | OutOfFuel => (OutOfFuel, World d (stdout w) (tick w))
    end.
Proof.
  rewrite validate_file_run. cbn [fst]. intros Hv ->.
  destruct w as [dw ow tw]. cbn [files stdout tick] in *.
  unfold reconcile, mbind, M_bind, bind. rewrite validate_file_run. cbn [files].
  unfold os_remove, get_last_report, os_rename, get_files, put_files, raise, lift, ret,
    mbind, M_bind, bind.
  cbv beta iota zeta delta [files stdout tick].
  destruct (dw !! report_path username) as [data|] eqn:E.
  - destruct (String.eqb (universal_newlines data) report) eqn:Heq; [done|].
    cbv beta iota zeta delta [files stdout tick]. rewrite E.
    destruct (find_last_report _ _ _) as [[best|]| | |]; try done.
    destruct (delete _ dw !! ("tasks/" +:+ best)); reflexivity.
  - rewrite delete_id by done.
    cbv beta iota zeta delta [files stdout tick].
    destruct (find_last_report _ _ _) as [[best|]| | |]; try done.
    destruct (dw !! ("tasks/" +:+ best)); reflexivity.
Qed.


(** A run of the rollback: the report archived last is the one that comes
    back, the older ones stay where they are. *)
Lemma save_report_rollback_example :
  ∃ w', save_report (WriteRaised "# Rep") noon plain_listdir "new report" "Ann"
          history_world = (Ret (), w')
    ∧ files w' !! "tasks/Ann.txt" = Some ann_report
    ∧ files w' !! "tasks/old_Ann_2026-11-02T09:15.txt" = None
    ∧ files w' !! "tasks/old_Ann_2026-10-01T08:00.txt" = Some "report of October"
    ∧ files w' !! "tasks/old_Ann_2025-12-24T18:30.txt" = Some "report of December".
Proof.
  eexists. split; [vm_compute; reflexivity|].
  repeat split; vm_compute; reflexivity.
Qed.

(** C2, at a failing input. After a failed write for a user whose name
    went through the replacement of the path separator, the two archived
    reports, the one that was there and the one just moved, stay under
    their archival names, and no current report is left. *)
Lemma save_report_sanitized_name_not_restored :
  sanitize (JStr "a/b") = Ret "a(f_slash)b"
  ∧ (validate_file (report_path "a(f_slash)b") "new report"
       (archive_and_write (WriteRaised "") "new report" "a(f_slash)b" slash_world).2).1
    = Ret (Some false)
  ∧ ∃ w', save_report (WriteRaised "") noon plain_listdir "new report" "a(f_slash)b"
            slash_world = (Ret (), w')
    ∧ plain_listdir (files w')
      = ["old_a(f_slash)b_2026-11-02T09:15.txt"; "old_a(f_slash)b_2026-10-01T08:00.txt"]
    ∧ files w' !! "tasks/old_a(f_slash)b_2026-11-02T09:15.txt" = Some ann_report
    ∧ files w' !! "tasks/old_a(f_slash)b_2026-10-01T08:00.txt" = Some "report of October"
    ∧ files w' !! "tasks/a(f_slash)b.txt" = None.
Proof.
  split; [reflexivity|]. split; [vm_compute; reflexivity|].
  eexists. split; [vm_compute; reflexivity|].
  repeat split; vm_compute; reflexivity.
Qed.

(** C3, at a failing input. After a failed write for the user [a.b], who
    has no archived report,
    the archived report of the user [aXb] has become the current report of
    [a.b]. *)
Lemma save_report_restores_foreign_archive :
  plain_listdir (files other_user_world) = ["old_aXb_2026-11-02T09:15.txt"]
  ∧ (validate_file (report_path "a.b") "new report"
       (archive_and_write OpenRaised "new report" "a.b" other_user_world).2).1
    = Ret None
  ∧ ∃ w', save_report OpenRaised noon plain_listdir "new report" "a.b" other_user_world
          = (Ret (), w')
    ∧ files w' !! "tasks/a.b.txt" = Some ann_report
    ∧ files w' !! "tasks/old_aXb_2026-11-02T09:15.txt" = None.
Proof.
  split; [vm_compute; reflexivity|]. split; [vm_compute; reflexivity|].
  eexists. split; [vm_compute; reflexivity|].
  repeat split; vm_compute; reflexivity.
Qed.

(** ** The data fetcher *)

Section fetch_page.
Variable get : request → response.
Variable req : nat → request.

Lemma fetch_page_yield page_num :
  carries_page (get (req page_num)) = true →
  fetch_page get req page_num = Ret (Yield (json_of (get (req page_num))) (page_num + 1)).
Proof.
  unfold carries_page, error_status, fetch_page, raise_for_status, response_json, json_of.
  intros [He Hb]%andb_true_iff. apply negb_true_iff in He. rewrite He.
  destruct (body (get (req page_num))) as [v|]; [|done].
  apply negb_true_iff in Hb.
  destruct (negb _); simpl; by rewrite Hb.
Qed.

Lemma fetch_page_stop page_num :
  carries_end (get (req page_num)) = true →
  fetch_page get req page_num = Ret Stop.
Proof.
  unfold carries_end, error_status, fetch_page, raise_for_status, response_json.
  intros [He Hb]%andb_true_iff. apply negb_true_iff in He. rewrite He.
  destruct (body (get (req page_num))) as [v|]; [|done].
  destruct (negb _); simpl; by rewrite Hb.
Qed.

Lemma fetch_page_error page_num :
  error_status (get (req page_num)) = true →
  fetch_page get req page_num = Raise (HTTPError (status_code (get (req page_num)))).
Proof.
  unfold error_status, fetch_page, raise_for_status. intros He. rewrite He.
  assert (Hne : (status_code (get (req page_num)) =? 200)%Z = false) by lia.
  by rewrite Hne.
Qed.

(** What the fetcher does is decided by these three cases alone. *)
Lemma fetch_page_inv page_num step :
  fetch_page get req page_num = Ret step →
  match step with
  | Yield v n =>
      carries_page (get (req page_num)) = true
      ∧ v = json_of (get (req page_num)) ∧ n = page_num + 1
  | Stop => carries_end (get (req page_num)) = true
  end.
Proof.
  unfold carries_page, carries_end, error_status, fetch_page, raise_for_status,
    response_json, json_of.
  destruct ((400 <=? _)%Z && _) eqn:He; simpl.
  - assert (Hne : (status_code (get (req page_num)) =? 200)%Z = false) by lia.
    by rewrite Hne.
  - destruct (body (get (req page_num))) as [v|]; simpl.
    + destruct (negb _); simpl; destruct (is_empty_list v) eqn:Hv;
        intros [= <-]; auto.
    + by destruct (negb _).
Qed.

Lemma drain_yields fuel first n :
  forallb (λ k, carries_page (get (req k))) (seq first n) = true →
  drain (n + fuel) (fetch_page get req) first
  = (let '(pages, r) := drain fuel (fetch_page get req) (first + n) in
     (map (λ k, json_of (get (req k))) (seq first n) ++ pages, r)).
Proof.
  revert first. induction n as [|n IH]; intros first.
  - intros _. simpl. rewrite Nat.add_0_r. by destruct (drain _ _ _).
  - cbn [seq forallb]. intros [H1 H2]%andb_true_iff.
    cbn [Nat.add drain]. rewrite fetch_page_yield by done.
    rewrite Nat.add_1_r, IH by done.
    replace (S first + n) with (first + S n) by lia.
    by destruct (drain _ _ _).
Qed.

Lemma drain_to_end fuel n :
  n < fuel →
  forallb (λ k, carries_page (get (req k))) (seq first_page n) = true →
  carries_end (get (req (first_page + n))) = true →
  drain fuel (fetch_page get req) first_page
  = (map (λ k, json_of (get (req k))) (seq first_page n), Ret ()).
Proof.
  intros Hf Hp He. replace fuel with (n + S (fuel - n - 1)) by lia.
  rewrite drain_yields by done. cbn [drain]. rewrite fetch_page_stop by done.
  by rewrite app_nil_r.
Qed.

Lemma drain_to_error fuel n :
  n < fuel →
  forallb (λ k, carries_page (get (req k))) (seq first_page n) = true →
  error_status (get (req (first_page + n))) = true →
  drain fuel (fetch_page get req) first_page
  = (map (λ k, json_of (get (req k))) (seq first_page n),
     Raise (HTTPError (status_code (get (req (first_page + n)))))).
Proof.
  intros Hf Hp He. replace fuel with (n + S (fuel - n - 1)) by lia.
  rewrite drain_yields by done. cbn [drain]. rewrite fetch_page_error by done.
  by rewrite app_nil_r.
Qed.

Lemma drain_returned fuel first pages :
  drain fuel (fetch_page get req) first = (pages, Ret ()) →
  pages = map (λ k, json_of (get (req k))) (seq first (length pages))
  ∧ forallb (λ k, carries_page (get (req k))) (seq first (length pages)) = true
  ∧ carries_end (get (req (first + length pages))) = true.
Proof.
  revert first pages. induction fuel as [|fuel IH]; intros first pages; [done|].
  cbn [drain].
  destruct (fetch_page get req first) as [[v n| ]| | |] eqn:E; try done.
  - apply fetch_page_inv in E as (Hc & -> & ->).
    destruct (drain fuel _ _) as [ps r] eqn:Ed. intros [= <- ->].
    apply IH in Ed as (Hps & Hall & Hend).
    cbn [length seq map forallb]. rewrite Nat.add_1_r in *.
    rewrite Hc, <- Hps, Hall. replace (first + S (length ps)) with (S first + length ps) by lia.
    done.
  - apply fetch_page_inv in E. intros [= <-]. simpl. by rewrite Nat.add_0_r.
Qed.
End fetch_page.

(** C8 as amended. Both fetchers ask for page 1, 2, ... in turn and yield
    every payload that is not the empty list; the sequence ends when the
    first empty list arrives, and only then; a response with a status from
    400 to 599 makes the fetcher raise an error carrying that status after
    the pages yielded so far. *)
Theorem fetcher_pages get next req n fuel :
  (next = get_users get ∧ req = users_request)
  ∨ (∃ user_id, next = get_todos get user_id ∧ req = todos_request user_id) →
  n < fuel →
  forallb (λ k, carries_page (get (req k))) (seq 1 n) = true →
  let pages := map (λ k, json_of (get (req k))) (seq 1 n) in
  let last := get (req (1 + n)) in
  (carries_end last = true → drain fuel next first_page = (pages, Ret ()))
  ∧ (error_status last = true →
       drain fuel next first_page = (pages, Raise (HTTPError (status_code last))))
  ∧ (∀ yielded, drain fuel next first_page = (yielded, Ret ()) →
       carries_end (get (req (1 + length yielded))) = true
       ∧ forallb (λ k, carries_page (get (req k))) (seq 1 (length yielded)) = true).
Proof.
  intros Hnext Hfuel Hpages.
  assert (Hfp : next = fetch_page get req).
  { destruct Hnext as [[-> ->] | (user_id & -> & ->)]; reflexivity. }
  subst next. cbn zeta. split; [|split].
  - intros He. by apply drain_to_end.
  - intros He. by apply drain_to_error.
  - intros yielded Hd. apply drain_returned in Hd as (_ & Hall & Hend). done.
Qed.

Lemma fetcher_pages_witness :
  let get := demo_server [JStr "user"] [JStr "task"] in
  let pages := map (λ k, json_of (get (users_request k))) (seq 1 1) in
  let last := get (users_request (1 + 1)) in
  (carries_end last = true → drain 5 (get_users get) first_page = (pages, Ret ()))
  ∧ (error_status last = true →
       drain 5 (get_users get) first_page = (pages, Raise (HTTPError (status_code last))))
  ∧ (∀ yielded, drain 5 (get_users get) first_page = (yielded, Ret ()) →
       carries_end (get (users_request (1 + length yielded))) = true
       ∧ forallb (λ k, carries_page (get (users_request k))) (seq 1 (length yielded)) = true).
Proof.
  apply (fetcher_pages (demo_server [JStr "user"] [JStr "task"])
           (get_users (demo_server [JStr "user"] [JStr "task"])) users_request 1 5).
  - left. split; reflexivity.
  - lia.
  - vm_compute. reflexivity.
Defined.

(** C8 fails as stated: status 300 is no success, yet the fetchers raise
    nothing and go on yielding pages. *)
Lemma fetcher_status_counterexample :
  ¬ (200 ≤ status_code (multiple_choices (users_request 1)) < 300)%Z
  ∧ get_users multiple_choices first_page = Ret (Yield (JList [JStr "record"]) 2)
  ∧ get_todos multiple_choices (JInt 1) first_page = Ret (Yield (JList [JStr "record"]) 2)
  ∧ drain 3 (get_users multiple_choices) first_page
    = ([JList [JStr "record"]; JList [JStr "record"]; JList [JStr "record"]], OutOfFuel).
Proof.
  split; [simpl; lia|].
  repeat split; vm_compute; reflexivity.
Qed.

(** ** The report composer *)

Lemma dict_lookup_store_ne key key' v fields :
  key ≠ key' → dict_lookup key' (dict_store key v fields) = dict_lookup key' fields.
Proof.
  intros Hne. induction fields as [|[k x] rest IH]; simpl.
  - destruct (String.eqb_spec key key'); done.
  - destruct (String.eqb_spec k key) as [->|Hk]; simpl.
    + destruct (String.eqb_spec key key'); done.
    + by rewrite IH.
Qed.

Lemma for_each_app {A S} (body : A → S → M S) l1 l2 s w :
  for_each body (l1 ++ l2) s w
  = (s' ← for_each body l1 s; for_each body l2 s') w.
Proof.
  revert s w. induction l1 as [|x l1 IH]; intros s w; [done|].
  cbn [app for_each]. unfold mbind, M_bind, bind in *.
  destruct (body x s w) as [[s1| | |] w1]; [apply IH|done..].
Qed.

Lemma count_task_skips task completed title t w :
  getitem task "title" = Ret (JStr title) →
  getitem task "completed" = Ret completed →
  py_eq_bool completed false = false →
  py_eq_bool completed true = false →
  count_task task t w = (Ret t, w).
Proof.
  intros Ht Hc Hf Htr. destruct task as [| | | | | |fields]; try discriminate.
  unfold count_task, validate_todo, except_KeyError, mbind, M_bind, bind, lift, mret, M_ret, ret.
  rewrite Ht, Hc. cbn [py_len].
  destruct (46 <? String.length title)%nat; cbn.
  - simpl in Hc. rewrite dict_lookup_store_ne by done.
    destruct (dict_lookup "completed" fields) as [c|]; [|done].
    injection Hc as ->. by rewrite Hf, Htr.
  - simpl in Hc. destruct (dict_lookup "completed" fields) as [c|]; [|done].
    injection Hc as ->. by rewrite Hf, Htr.
Qed.

Lemma next_todos_run e user_id page_num w :
  next_todos e user_id page_num w
  = (get_todos (http e (tick w)) user_id page_num,
     World (files w) (stdout w) (S (tick w))).
Proof.
  unfold next_todos, ask, lift, mbind, M_bind, bind. done.
Qed.

Lemma count_page_with_task task completed title l1 l2 t w :
  getitem task "title" = Ret (JStr title) →
  getitem task "completed" = Ret completed →
  py_eq_bool completed false = false →
  py_eq_bool completed true = false →
  count_page (JList (l1 ++ task :: l2)) t w = count_page (JList (l1 ++ l2)) t w.
Proof.
  intros Ht Hc Hf Htr. unfold count_page, py_iter, lift.
  change (for_each count_task (l1 ++ task :: l2) t w
          = for_each count_task (l1 ++ l2) t w).
  rewrite !for_each_app. unfold mbind, M_bind, bind.
  destruct (for_each count_task l1 t w) as [[t1| | |] w1]; try done.
  cbn [for_each]. unfold mbind, M_bind, bind.
  by rewrite (count_task_skips task completed title).
Qed.

Lemma count_todos_with_task task completed title e h fuel user_id page_num t w :
  getitem task "title" = Ret (JStr title) →
  getitem task "completed" = Ret completed →
  py_eq_bool completed false = false →
  py_eq_bool completed true = false →
  (∀ n req, with_task task (http e n req) (h n req)) →
  for_pages fuel (next_todos (set_http e h) user_id) count_page page_num t w
  = for_pages fuel (next_todos e user_id) count_page page_num t w.
Proof.
  intros Ht Hc Hf Htr Hh. revert page_num t w.
  induction fuel as [|fuel IH]; intros page_num t w; [done|].
  cbn [for_pages]. unfold mbind, M_bind, bind. rewrite !next_todos_run.
  cbn [http set_http].
  unfold get_todos, fetch_page.
  destruct (Hh (tick w) (todos_request user_id page_num))
    as [-> | (l1 & l2 & Hne & Hs & Hb & Hb')].
  - destruct (_ ≫= _) as [[v n|]| | |]; try done.
    all: destruct (count_page v t _) as [[t1| | |] w1]; try done; apply IH.
  - rewrite Hs. unfold raise_for_status. rewrite Hs.
    destruct (if negb _ then _ else _) as [[]| | |]; try done.
    assert (E1 : is_empty_list (JList (l1 ++ l2)) = false).
    { simpl. by destruct (l1 ++ l2). }
    assert (E2 : is_empty_list (JList (l1 ++ task :: l2)) = false).
    { simpl. by destruct l1. }
    unfold response_json. rewrite Hb, Hb'.
    cbv beta iota delta [mbind outcome_bind]. rewrite E1, E2.
    rewrite (count_page_with_task task completed title) by done.
    destruct (count_page _ t _) as [[t1| | |] w1]; try done; apply IH.
Qed.

(** C6 as amended. A task with a string title whose flag equals neither
    [True] nor [False] under Python's [==] leaves the two lists and the
    two counters of [create_report] as they are, so that adding it to a
    page of tasks changes neither the report nor the total it prints. *)
Theorem create_report_skips_other_flags task completed title :
  getitem task "title" = Ret (JStr title) →
  getitem task "completed" = Ret completed →
  py_eq_bool completed false = false →
  py_eq_bool completed true = false →
  (∀ t w, count_task task t w = (Ret t, w))
  ∧ (∀ e h fuel user w,
       (∀ n req, with_task task (http e n req) (h n req)) →
       create_report (set_http e h) fuel user w = create_report e fuel user w).
Proof.
  intros Ht Hc Hf Htr. split.
  - intros t w. by apply (count_task_skips task completed title).
  - intros e h fuel user w Hh. unfold create_report, count_todos.
    unfold mbind, M_bind, bind.
    destruct (lift _ w) as [[company| | |] w1]; try done.
    destruct (lift _ w1) as [[fullname| | |] w2]; try done.
    destruct (lift _ w2) as [[email| | |] w3]; try done.
    cbn [now set_http].
    destruct (ask _ w3) as [[time| | |] w4]; try done.
    destruct (lift _ w4) as [[user_id| | |] w5]; try done.
    by rewrite (count_todos_with_task task completed title).
Qed.

Lemma create_report_skips_other_flags_witness :
  (∀ t w, count_task maybe_flag_task t w = (Ret t, w))
  ∧ (∀ e h fuel user w,
       (∀ n req, with_task maybe_flag_task (http e n req) (h n req)) →
       create_report (set_http e h) fuel user w = create_report e fuel user w).
Proof.
  apply (create_report_skips_other_flags maybe_flag_task (JStr "maybe") "feed the cat");
    reflexivity.
Defined.

(** C6 fails as stated: the flag [0] is no boolean, and the task is listed
    and counted as a current task. *)
Lemma create_report_numeric_flag_counterexample :
  getitem zero_flag_task "completed" = Ret (JInt 0)
  ∧ JInt 0 ≠ JBool true ∧ JInt 0 ≠ JBool false
  ∧ (∀ t w, count_task zero_flag_task t w
            = (Ret (Tally (cur_tasks t +:+ "- water plants" +:+ nl) (comp_tasks t)
                          (cur_total t + 1) (comp_total t)), w))
  ∧ (create_report (demo_env [ann_user] [zero_flag_task]) 3 ann_user empty_world).1
    = Ret (Some (HEADER "ACME" "Ann Lee" "ann@acme.org" "03.11.2026 12:30"
                 +:+ TOTAL_TASKS 1
                 +:+ TOTAL_CURRENT_TASKS 1 +:+ "- water plants" +:+ nl
                 +:+ TOTAL_COMPLETED_TASKS 0)).
Proof.
  split; [reflexivity|]. split; [discriminate|]. split; [discriminate|]. split.
  - intros t w. reflexivity.
  - vm_compute. reflexivity.
Qed.

(** ** The validators and the orchestrator *)

(** On a dictionary [validate_todo] returns: [True] without a word, or
    [False] after its diagnostic. *)
Lemma validate_todo_returns fields w :
  validate_todo (JDict fields) w = (Ret true, w)
  ∨ validate_todo (JDict fields) w = (Ret false, printed "ToDo object is malformed" w).
Proof.
  unfold validate_todo, except_KeyError, getitem, lift, mbind, M_bind, bind.
  destruct (dict_lookup "title" fields); [|by right].
  destruct (dict_lookup "completed" fields); [by left | by right].
Qed.

(** So does [validate_user] when [company] is missing or is a dictionary. *)
Lemma validate_user_returns fields w :
  (∀ v, dict_lookup "company" fields = Some v → ∃ inner, v = JDict inner) →
  validate_user (JDict fields) w = (Ret true, w)
  ∨ validate_user (JDict fields) w = (Ret false, printed "User object is malformed" w).
Proof.
  intros Hc. unfold validate_user, except_KeyError, getitem, lift, mbind, M_bind, bind.
  cbv beta iota delta [mbind outcome_bind].
  destruct (dict_lookup "company" fields) as [v|]; [|by right].
  destruct (Hc v eq_refl) as [inner ->].
  destruct (dict_lookup "name" inner); [|by right].
  destruct (dict_lookup "name" fields); [|by right].
  destruct (dict_lookup "email" fields); [by left | by right].
Qed.

(** [validate_user] raises whenever [company] is there and is no
    dictionary. *)
Lemma validate_user_raises fields v w :
  dict_lookup "company" fields = Some v →
  (∀ inner, v ≠ JDict inner) →
  validate_user (JDict fields) w = (Raise TypeError, w).
Proof.
  intros Hc Hv. unfold validate_user, except_KeyError, getitem, lift, mbind, M_bind, bind.
  cbv beta iota delta [mbind outcome_bind]. rewrite Hc.
  destruct v as [| | | | | |inner]; try done. by destruct (Hv inner).
Qed.

(** C7, at a failing input. A user whose [company] is [null] makes
    [validate_user] raise. *)
Lemma validate_user_null_company_raises w :
  validate_user null_company_user w = (Raise TypeError, w).
Proof. reflexivity. Qed.

(** The replacement of the path separator leaves none behind. *)
Lemma sanitize_no_separator s :
  ∃ username, sanitize (JStr s) = Ret username
    ∧ forallb (λ c, negb (Ascii.eqb c "/")) (list_ascii_of_string username) = true.
Proof.
  eexists. split; [reflexivity|].
  induction s as [|c s IH]; [done|]. cbn [replace_char].
  destruct (Ascii.eqb c "/") eqn:E; [exact IH|].
  cbn [list_ascii_of_string forallb]. by rewrite E.
Qed.

(** A record that fails the validation and has a [username] costs one
    more line of output, and the loop goes on. *)
Lemma process_user_skips_malformed e fuel user name w w1 :
  validate_user user w = (Ret false, w1) →
  getitem user "username" = Ret name →
  process_user e fuel user w
  = (Ret (), printed (py_str (repr e) name +:+ " " +:+ " doesn't have required") w1).
Proof.
  intros Hv Hn. unfold process_user, mbind, M_bind, bind. rewrite Hv. cbn [negb].
  unfold lift. rewrite Hn. reflexivity.
Qed.

(** A user without tasks costs one line of output, and the loop goes on. *)
Lemma process_user_skips_empty e fuel user name w w1 w2 :
  validate_user user w = (Ret true, w1) →
  create_report e fuel user w1 = (Ret None, w2) →
  getitem user "username" = Ret name →
  process_user e fuel user w
  = (Ret (), printed (py_str (repr e) name +:+ " " +:+ " doesn't have todos") w2).
Proof.
  intros Hv Hr Hn. unfold process_user, mbind, M_bind, bind. rewrite Hv. cbn [negb].
  rewrite Hr. unfold lift. rewrite Hn. reflexivity.
Qed.

(** A record that fails the validation and has no [username] ends the
    loop over the page, whatever comes after it. *)
Lemma process_page_stops e fuel fields rest w w1 :
  validate_user (JDict fields) w = (Ret false, w1) →
  dict_lookup "username" fields = None →
  process_page e fuel (JList (JDict fields :: rest)) () w
  = (Raise (KeyError "username"), w1).
Proof.
  intros Hv Hn. unfold process_page, py_iter, lift. unfold mbind at 1, M_bind, bind at 1.
  cbn [for_each]. unfold process_user, mbind, M_bind, bind. rewrite Hv. cbn [negb].
  unfold lift, getitem. by rewrite Hn.
Qed.

(** C5, at a failing input. A record without [username] ends the run:
    the user after it is never looked at, although alone it gets its
    report. *)
Lemma main_stops_at_nameless_user :
  main (demo_env [nameless_user; ann_user] [zero_flag_task]) 3 empty_world
  = (Raise (KeyError "username"), World ∅ ["User object is malformed"] 1)
  ∧ ∃ w', main (demo_env [ann_user] [zero_flag_task]) 3 empty_world = (Ret (), w')
      ∧ is_Some (files w' !! "tasks/Ann.txt").
Proof.
  split; [vm_compute; reflexivity|].
  eexists. split; [vm_compute; reflexivity|].
  vm_compute. eauto.
Qed.

(** * Further properties *)

(** ** The validators and the task lines *)

(** What the two validators do with every value. *)
Lemma validate_todo_cases todo w :
  validate_todo todo w
  = match todo with
    | JDict fields =>
        match dict_lookup "title" fields, dict_lookup "completed" fields with
        | Some _, Some _ => (Ret true, w)
        | _, _ => (Ret false, printed "ToDo object is malformed" w)
        end
    | _ => (Raise TypeError, w)
    end.
Proof.
  unfold validate_todo, except_KeyError, getitem, lift, mbind, M_bind, bind.
  destruct todo as [| | | | | |fields]; try reflexivity.
  destruct (dict_lookup "title" fields); [|reflexivity].
  destruct (dict_lookup "completed" fields); reflexivity.
Qed.

Lemma validate_user_cases user w :
  validate_user user w
  = match user with
    | JDict fields =>
        match dict_lookup "company" fields with
        | None => (Ret false, printed "User object is malformed" w)
        | Some (JDict inner) =>
            match dict_lookup "name" inner, dict_lookup "name" fields,
                  dict_lookup "email" fields with
            | Some _, Some _, Some _ => (Ret true, w)
            | _, _, _ => (Ret false, printed "User object is malformed" w)
            end
        | Some _ => (Raise TypeError, w)
        end
    | _ => (Raise TypeError, w)
    end.
Proof.
  unfold validate_user, except_KeyError, getitem, lift, mbind, M_bind, bind.
  cbv beta iota delta [mbind outcome_bind].
  destruct user as [| | | | | |fields]; try reflexivity.
  destruct (dict_lookup "company" fields) as [[| | | | | |inner]|]; try reflexivity.
  destruct (dict_lookup "name" inner); [|reflexivity].
  destruct (dict_lookup "name" fields); [|reflexivity].
  destruct (dict_lookup "email" fields); reflexivity.
Qed.

(** [validate_todo] on a dictionary: it returns, [True] exactly when both
    keys are there, whatever their values; [False] comes with one line of
    output; the files stay as they are. *)
Theorem validate_todo_dict fields w :
  ∃ ok : bool, validate_todo (JDict fields) w
        = (Ret ok, if ok then w else printed "ToDo object is malformed" w)
    ∧ (ok = true ↔ is_Some (dict_lookup "title" fields)
                   ∧ is_Some (dict_lookup "completed" fields)).
Proof.
  rewrite validate_todo_cases.
  destruct (dict_lookup "title" fields) as [t|].
  - destruct (dict_lookup "completed" fields) as [c|].
    + exists true. split; [done|]. split; eauto.
    + exists false. split; [done|]. split; [done|]. by intros [_ [? ?]].
  - exists false. split; [done|]. split; [done|]. by intros [[? ?] _].
Qed.

(** [validate_user] on a dictionary: when [company] is missing or is a
    dictionary it returns, [True] exactly when [company.name], [name] and
    [email] are there; when [company] is anything else it raises
    [TypeError], whatever the other fields. *)
Theorem validate_user_dict fields w :
  match dict_lookup "company" fields with
  | Some (JDict inner) =>
      ∃ ok : bool, validate_user (JDict fields) w
            = (Ret ok, if ok then w else printed "User object is malformed" w)
        ∧ (ok = true ↔ is_Some (dict_lookup "name" inner)
                       ∧ is_Some (dict_lookup "name" fields)
                       ∧ is_Some (dict_lookup "email" fields))
  | None =>
      validate_user (JDict fields) w
      = (Ret false, printed "User object is malformed" w)
  | Some _ => validate_user (JDict fields) w = (Raise TypeError, w)
  end.
Proof.
  rewrite validate_user_cases.
  destruct (dict_lookup "company" fields) as [[| | | | | |inner]|]; try reflexivity.
  destruct (dict_lookup "name" inner) as [a|].
  - destruct (dict_lookup "name" fields) as [b|].
    + destruct (dict_lookup "email" fields) as [c|].
      * exists true. split; [done|]. split; eauto.
      * exists false. split; [done|]. split; [done|]. by intros (_ & _ & [? ?]).
    + exists false. split; [done|]. split; [done|]. by intros (_ & [? ?] & _).
  - exists false. split; [done|]. split; [done|]. by intros ([? ?] & _).
Qed.

Lemma dict_lookup_store_eq key v fields :
  dict_lookup key (dict_store key v fields) = Some v.
Proof.
  induction fields as [|[k x] rest IH]; simpl.
  - by rewrite String.eqb_refl.
  - destruct (String.eqb_spec k key) as [->|Hk]; simpl.
    + by rewrite String.eqb_refl.
    + destruct (String.eqb_spec k key); [done|]. exact IH.
Qed.

Lemma length_substring_prefix n s :
  n ≤ String.length s → String.length (substring 0 n s) = n.
Proof.
  revert s. induction n as [|n IH]; intros s Hn.
  - by destruct s.
  - destruct s as [|c s]; simpl in *; [lia|]. rewrite IH; lia.
Qed.

(** What [count_task] does with a task that has a string title and a
    flag. *)
Lemma count_task_string fields title completed t w :
  dict_lookup "title" fields = Some (JStr title) →
  dict_lookup "completed" fields = Some completed →
  count_task (JDict fields) t w
  = (Ret (if py_eq_bool completed false
          then Tally (cur_tasks t +:+ "- " +:+ shown_title title +:+ nl) (comp_tasks t)
                     (cur_total t + 1) (comp_total t)
          else if py_eq_bool completed true
          then Tally (cur_tasks t) (comp_tasks t +:+ "- " +:+ shown_title title +:+ nl)
                     (cur_total t) (comp_total t + 1)
          else t), w).
Proof.
  intros Ht Hc.
  unfold count_task, validate_todo, except_KeyError, mbind, M_bind, bind, lift, mret, M_ret,
    ret, getitem, shown_title.
  rewrite Ht, Hc. cbn [py_len].
  destruct (46 <? String.length title)%nat; cbn [clip_title setitem].
  - rewrite dict_lookup_store_ne by done. rewrite Hc, dict_lookup_store_eq.
    destruct (py_eq_bool completed false); [done|].
    destruct (py_eq_bool completed true); done.
  - rewrite Hc, Ht.
    destruct (py_eq_bool completed false); [done|].
    destruct (py_eq_bool completed true); done.
Qed.

(** A title of more than 46 characters is shown as its first 46 characters
    and three dots, 49 characters in all; a shorter one as it is. *)
Theorem count_task_clips_title fields title t w :
  dict_lookup "title" fields = Some (JStr title) →
  dict_lookup "completed" fields = Some (JBool false) →
  count_task (JDict fields) t w
  = (Ret (Tally (cur_tasks t +:+ "- " +:+ shown_title title +:+ nl) (comp_tasks t)
                (cur_total t + 1) (comp_total t)), w)
  ∧ (String.length title ≤ 46 → shown_title title = title)
  ∧ (46 < String.length title →
       shown_title title = substring 0 46 title +:+ "..."
       ∧ String.length (shown_title title) = 49).
Proof.
  intros Ht Hc. split; [|split].
  - by rewrite (count_task_string fields title (JBool false)).
  - intros Hl. unfold shown_title. by rewrite (proj2 (Nat.ltb_ge _ _) Hl).
  - intros Hl. unfold shown_title, str_prefix. rewrite (proj2 (Nat.ltb_lt _ _) Hl).
    split; [done|]. rewrite length_append, length_substring_prefix by lia. done.
Qed.

Lemma count_task_clips_title_witness :
  count_task (JDict [("title", JStr "write the quarterly summary for the planning committee"); ("completed", JBool false)]) no_tasks empty_world
  = (Ret (Tally (cur_tasks no_tasks +:+ "- " +:+ shown_title "write the quarterly summary for the planning committee" +:+ nl)
                (comp_tasks no_tasks) (cur_total no_tasks + 1) (comp_total no_tasks)),
     empty_world)
  ∧ (String.length "write the quarterly summary for the planning committee" ≤ 46 → shown_title "write the quarterly summary for the planning committee" = "write the quarterly summary for the planning committee")
  ∧ (46 < String.length "write the quarterly summary for the planning committee" →
       shown_title "write the quarterly summary for the planning committee" = substring 0 46 "write the quarterly summary for the planning committee" +:+ "..."
       ∧ String.length (shown_title "write the quarterly summary for the planning committee") = 49).
Proof.
  apply (count_task_clips_title [("title", JStr "write the quarterly summary for the planning committee"); ("completed", JBool false)]
           "write the quarterly summary for the planning committee" no_tasks empty_world); reflexivity.
Defined.

(** ** Counting the tasks of a page *)

Lemma py_eq_bool_exclusive c :
  py_eq_bool c false = true → py_eq_bool c true = false.
Proof.
  destruct c as [|b|z|[q| |]| | |]; simpl; try done.
  - by destruct b.
  - intros ->%Z.eqb_eq. done.
  - intros H%Qeq_bool_iff. destruct (Qeq_bool q 1) eqn:E; [|done].
    apply Qeq_bool_iff in E. rewrite H in E. discriminate.
Qed.

Lemma append_nil_r (s : string) : s +:+ "" = s.
Proof. induction s as [|c s IH]; simpl; [done | by rewrite IH]. Qed.

Lemma count_tasks_counts tasks t w :
  forallb well_titled tasks = true →
  for_each count_task tasks t w
  = (Ret (Tally (cur_tasks t +:+ lines_of (List.filter is_current tasks))
                (comp_tasks t +:+ lines_of (List.filter is_completed tasks))
                (cur_total t + length (List.filter is_current tasks))
                (comp_total t + length (List.filter is_completed tasks))),
     World (files w) (stdout w ++ malformed_lines tasks) (tick w)).
Proof.
  revert t w. induction tasks as [|task tasks IH]; intros t w.
  - intros _. simpl. rewrite !append_nil_r, !Nat.add_0_r, app_nil_r. by destruct t, w.
  - cbn [forallb]. intros [Ht Hts]%andb_true_iff.
    destruct task as [| | | | | |fields]; try discriminate.
    cbn [for_each]. unfold mbind, M_bind, bind.
    assert (Hskip :
      count_task (JDict fields) t w = (Ret t, printed "ToDo object is malformed" w) →
      flag_of (JDict fields) = None →
      (let (o, w'0) := count_task (JDict fields) t w in
       match o with
       | Ret a => for_each count_task tasks a w'0
       | Raise e => (Raise e, w'0)
       | Unmodelled => (Unmodelled, w'0)
       | OutOfFuel => (OutOfFuel, w'0)
       end)
      = (Ret (Tally
           (cur_tasks t +:+ lines_of (List.filter is_current (JDict fields :: tasks)))
           (comp_tasks t +:+ lines_of (List.filter is_completed (JDict fields :: tasks)))
           (cur_total t + length (List.filter is_current (JDict fields :: tasks)))
           (comp_total t + length (List.filter is_completed (JDict fields :: tasks)))),
         World (files w) (stdout w ++ malformed_lines (JDict fields :: tasks)) (tick w))).
    { intros Hrun Hflag. rewrite Hrun, (IH t _ Hts).
      unfold malformed_lines, lacks_key, is_current, is_completed. cbn [List.filter].
      rewrite Hflag. cbn [map printed files stdout tick]. by rewrite <- app_assoc. }
    pose proof (validate_todo_cases (JDict fields) w) as Hv. cbv beta iota in Hv.
    simpl in Ht.
    destruct (dict_lookup "title" fields) as [[| | | |title| |]|] eqn:Etitle; try discriminate.
    + destruct (dict_lookup "completed" fields) as [c|] eqn:Ec.
      * rewrite (count_task_string fields title c) by done.
        assert (Hflag : flag_of (JDict fields) = Some c).
        { unfold flag_of. by rewrite Etitle, Ec. }
        assert (Hline : line_of (JDict fields) = "- " +:+ shown_title title +:+ nl).
        { unfold line_of. by rewrite Etitle. }
        assert (Hml : malformed_lines (JDict fields :: tasks) = malformed_lines tasks).
        { unfold malformed_lines, lacks_key. cbn [List.filter]. by rewrite Hflag. }
        assert (Hcur : is_current (JDict fields) = py_eq_bool c false).
        { unfold is_current. by rewrite Hflag. }
        assert (Hcomp : is_completed (JDict fields) = py_eq_bool c true).
        { unfold is_completed. by rewrite Hflag. }
        rewrite Hml. cbn [List.filter]. rewrite Hcur, Hcomp.
        destruct (py_eq_bool c false) eqn:Efalse.
        -- rewrite (py_eq_bool_exclusive c Efalse), (IH _ w Hts).
           cbn [lines_of fold_right length cur_tasks comp_tasks cur_total comp_total].
           rewrite Hline. fold (lines_of (List.filter is_current tasks)).
           by rewrite !append_assoc, <- !Nat.add_assoc.
        -- destruct (py_eq_bool c true) eqn:Etrue.
           ++ rewrite (IH _ w Hts).
              cbn [lines_of fold_right length cur_tasks comp_tasks cur_total comp_total].
              rewrite Hline. fold (lines_of (List.filter is_completed tasks)).
              by rewrite !append_assoc, <- !Nat.add_assoc.
           ++ by rewrite (IH t w Hts).
      * apply Hskip.
        -- unfold count_task, mbind, M_bind, bind. by rewrite Hv.
        -- unfold flag_of. by rewrite Etitle, Ec.
    + apply Hskip.
      * unfold count_task, mbind, M_bind, bind. by rewrite Hv.
      * unfold flag_of. by rewrite Etitle.
Qed.

(** The tally of a page whose tasks are dictionaries with string titles:
    the lines and the numbers of the tasks that have both keys and a flag
    equal to [False], or to [True], in the order of the page; a task
    without one of the keys costs one line of output and adds nothing, as
    does, silently, a task with another flag. *)
Theorem count_page_counts tasks t w :
  forallb well_titled tasks = true →
  count_page (JList tasks) t w
  = (Ret (Tally (cur_tasks t +:+ lines_of (List.filter is_current tasks))
                (comp_tasks t +:+ lines_of (List.filter is_completed tasks))
                (cur_total t + length (List.filter is_current tasks))
                (comp_total t + length (List.filter is_completed tasks))),
     World (files w) (stdout w ++ malformed_lines tasks) (tick w)).
Proof.
  intros H. unfold count_page, py_iter, lift, mbind, M_bind, bind.
  by apply count_tasks_counts.
Qed.

Lemma count_page_counts_witness :
  count_page (JList mixed_page) no_tasks empty_world
  = (Ret (Tally (cur_tasks no_tasks +:+ lines_of (List.filter is_current mixed_page))
                (comp_tasks no_tasks +:+ lines_of (List.filter is_completed mixed_page))
                (cur_total no_tasks + length (List.filter is_current mixed_page))
                (comp_total no_tasks + length (List.filter is_completed mixed_page))),
     World (files empty_world) (stdout empty_world ++ malformed_lines mixed_page)
           (tick empty_world)).
Proof. apply (count_page_counts mixed_page no_tasks empty_world). reflexivity. Defined.

(** ** Records that the composer cannot handle *)

(** A task that has both keys passes [validate_todo] whatever the title
    is; when the title is no string, the loop body of [create_report]
    then raises [TypeError], from [len] or from a concatenation with a
    string. The one exception is a list or a dictionary of at most 46
    items as title of a task whose flag is neither [True] nor [False]:
    that task is skipped. (A dictionary of more than 46 items is left
    out: the exception of its slice depends on the version of Python.) *)
Theorem count_task_title_not_string fields title completed t w :
  dict_lookup "title" fields = Some title →
  (∀ s, title ≠ JStr s) →
  (∀ inner, title = JDict inner → length inner ≤ 46) →
  dict_lookup "completed" fields = Some completed →
  validate_todo (JDict fields) w = (Ret true, w)
  ∧ count_task (JDict fields) t w
    = (if short_container title && negb (py_eq_bool completed false)
          && negb (py_eq_bool completed true)
       then Ret t else Raise TypeError, w).
Proof.
  intros Ht Hs Hd Hc. split.
  - unfold validate_todo, except_KeyError, getitem, lift, mbind, M_bind, bind.
    by rewrite Ht, Hc.
  - unfold count_task, validate_todo, except_KeyError, mbind, M_bind, bind, lift, mret, M_ret,
      ret, getitem.
    rewrite Ht, Hc.
    destruct title as [| | | |s|items|inner]; try reflexivity.
    + by destruct (Hs s).
    + cbn [py_len short_container]. rewrite Nat.leb_antisym.
      destruct (46 <? length items)%nat; cbn [negb andb clip_title]; [done|].
      rewrite Hc, Ht.
      destruct (py_eq_bool completed false); [done|].
      destruct (py_eq_bool completed true); done.
    + cbn [py_len short_container]. rewrite Nat.leb_antisym.
      rewrite (proj2 (Nat.ltb_ge _ _) (Hd inner eq_refl)). cbn [negb andb].
      rewrite Hc, Ht.
      destruct (py_eq_bool completed false); [done|].
      destruct (py_eq_bool completed true); done.
Qed.

Lemma count_task_title_not_string_witness :
  validate_todo numbered_task empty_world = (Ret true, empty_world)
  ∧ count_task numbered_task no_tasks empty_world
    = (if short_container (JInt 7) && negb (py_eq_bool (JBool false) false)
          && negb (py_eq_bool (JBool false) true)
       then Ret no_tasks else Raise TypeError, empty_world).
Proof.
  apply (count_task_title_not_string
           [("title", JInt 7); ("completed", JBool false)] (JInt 7) (JBool false)
           no_tasks empty_world); [reflexivity | discriminate | discriminate | reflexivity].
Defined.

Lemma ask_run {A} (oracle : nat → A) w :
  ask oracle w = (Ret (oracle (tick w)), World (files w) (stdout w) (S (tick w))).
Proof. done. Qed.

(** The start of [create_report] for a user that passes the validation. *)
Lemma validated_fields fields w :
  validate_user (JDict fields) w = (Ret true, w) →
  ∃ inner company fullname email,
    dict_lookup "company" fields = Some (JDict inner)
    ∧ dict_lookup "name" inner = Some company
    ∧ dict_lookup "name" fields = Some fullname
    ∧ dict_lookup "email" fields = Some email.
Proof.
  rewrite validate_user_cases.
  destruct (dict_lookup "company" fields) as [[| | | | | |inner]|]; try done.
  destruct (dict_lookup "name" inner) as [a|] eqn:Ea; [|done].
  destruct (dict_lookup "name" fields) as [b|]; [|done].
  destruct (dict_lookup "email" fields) as [c|]; [|done].
  intros _. by exists inner, a, b, c.
Qed.

(** [validate_user] does not look at [id]: a record that passes it and
    has no [id] makes [create_report] raise [KeyError], after it has read
    the clock, and the loop body of the script lets that through. *)
Theorem create_report_without_id e fuel fields w :
  validate_user (JDict fields) w = (Ret true, w) →
  dict_lookup "id" fields = None →
  create_report e fuel (JDict fields) w
  = (Raise (KeyError "id"), World (files w) (stdout w) (S (tick w)))
  ∧ process_user e fuel (JDict fields) w
    = (Raise (KeyError "id"), World (files w) (stdout w) (S (tick w))).
Proof.
  intros Hv Hid.
  destruct (validated_fields fields w Hv) as (inner & a & b & c & Hco & Ha & Hb & Hc).
  assert (Hcr : create_report e fuel (JDict fields) w
                = (Raise (KeyError "id"), World (files w) (stdout w) (S (tick w)))).
  { unfold create_report, getitem, lift, mbind, M_bind, bind.
    cbv beta iota delta [mbind outcome_bind]. rewrite Hco, Ha, Hb, Hc, ask_run, Hid. done. }
  split; [done|].
  unfold process_user, mbind, M_bind, bind. rewrite Hv. cbn [negb]. by rewrite Hcr.
Qed.

Lemma create_report_without_id_witness :
  create_report (demo_env [] []) 3 idless_user empty_world
  = (Raise (KeyError "id"),
     World (files empty_world) (stdout empty_world) (S (tick empty_world)))
  ∧ process_user (demo_env [] []) 3 idless_user empty_world
    = (Raise (KeyError "id"),
       World (files empty_world) (stdout empty_world) (S (tick empty_world))).
Proof.
  apply (create_report_without_id (demo_env [] []) 3
           [("username", JStr "Ed"); ("name", JStr "Ed Poe");
            ("email", JStr "ed@poe.org"); ("company", JDict [("name", JStr "Raven")])]
           empty_world); reflexivity.
Defined.

(** A user whose first page of tasks is the empty list: [create_report]
    returns [None] after one reading of the clock and one request, and
    the script prints the user name and [doesn't have todos], with two
    spaces between them, and writes no file. *)
Theorem process_user_without_todos e fuel fields user_id name w :
  validate_user (JDict fields) w = (Ret true, w) →
  dict_lookup "id" fields = Some user_id →
  dict_lookup "username" fields = Some name →
  carries_end (http e (S (tick w)) (todos_request user_id first_page)) = true →
  create_report e (S fuel) (JDict fields) w
  = (Ret None, World (files w) (stdout w) (S (S (tick w))))
  ∧ process_user e (S fuel) (JDict fields) w
    = (Ret (), World (files w)
                     (stdout w ++ [py_str (repr e) name +:+ " " +:+ " doesn't have todos"])
                     (S (S (tick w)))).
Proof.
  intros Hv Hid Hname Hend.
  destruct (validated_fields fields w Hv) as (inner & a & b & c & Hco & Ha & Hb & Hc).
  assert (Hcr : create_report e (S fuel) (JDict fields) w
                = (Ret None, World (files w) (stdout w) (S (S (tick w))))).
  { unfold create_report, getitem, lift, mbind, M_bind, bind.
    cbv beta iota delta [mbind outcome_bind]. rewrite Hco, Ha, Hb, Hc, ask_run, Hid.
    unfold count_todos. cbn [for_pages]. unfold mbind, M_bind, bind.
    rewrite next_todos_run. cbn [tick files stdout].
    unfold get_todos. rewrite fetch_page_stop by done. reflexivity. }
  split; [done|].
  unfold process_user, mbind, M_bind, bind. rewrite Hv. cbn [negb]. rewrite Hcr.
  unfold lift, getitem. rewrite Hname. reflexivity.
Qed.

Lemma process_user_without_todos_witness :
  create_report (demo_env [ann_user] []) 3 ann_user empty_world
  = (Ret None, World (files empty_world) (stdout empty_world) (S (S (tick empty_world))))
  ∧ process_user (demo_env [ann_user] []) 3 ann_user empty_world
    = (Ret (), World (files empty_world)
                     (stdout empty_world
                      ++ [py_str (repr (demo_env [ann_user] [])) (JStr "Ann")
                          +:+ " " +:+ " doesn't have todos"])
                     (S (S (tick empty_world)))).
Proof.
  apply (process_user_without_todos (demo_env [ann_user] []) 2
           [("id", JInt 1); ("username", JStr "Ann"); ("name", JStr "Ann Lee");
            ("email", JStr "ann@acme.org"); ("company", JDict [("name", JStr "ACME")])]
           (JInt 1) (JStr "Ann") empty_world); reflexivity.
Defined.

(** ** What a save keeps *)

(** A text without carriage return is read as it is. *)
Lemma no_cr_read s : no_cr s = true → universal_newlines s = s.
Proof.
  unfold no_cr. induction s as [|c s IH]; [done|].
  cbn [list_ascii_of_string forallb universal_newlines].
  intros [Hc Hs]%andb_true_iff. apply negb_true_iff in Hc. rewrite Hc. by rewrite IH.
Qed.

(** [save_report] as the archive step and the write followed by what the
    [finally] block does with the directory they leave. *)
Lemma save_report_run fx today listdir report username w :
  ∃ out,
    save_report fx today listdir report username w
    = reconcile today listdir report username
        (World (written fx (report_path username) report (archived username (files w)))
               (stdout w ++ out) (tick w)).
Proof.
  destruct (archive_and_write_run fx report username w) as [out Hrun].
  exists out. unfold save_report, mbind, M_bind, bind. by rewrite Hrun.
Qed.

(** [save_report] with a write that goes through, for a report that is
    read back as it is written. *)
Lemma save_report_ok_run today listdir report username w :
  no_cr report = true →
  save_report WriteOk today listdir report username w
  = (Ret (), World (<[report_path username := report]> (archived username (files w)))
                   (stdout w) (tick w)).
Proof.
  intros Hcr.
  assert (Hrun : archive_and_write WriteOk report username w
                 = (Ret (), World (<[report_path username := report]>
                                     (archived username (files w))) (stdout w) (tick w))).
  { unfold archive_and_write, archived, date_of, mbind, M_bind, bind. rewrite isfile_run.
    destruct (files w !! report_path username) as [old|] eqn:E.
    - rewrite bool_decide_true by eauto.
      unfold get_date, read_file, os_rename, write_report, get_files, put_files, ret,
        mbind, M_bind, bind.
      rewrite E. cbn [files stdout tick]. rewrite E. reflexivity.
    - rewrite bool_decide_false by (by intros [? ?]).
      unfold write_report, get_files, put_files, ret, mbind, M_bind, bind. reflexivity. }
  unfold save_report, mbind, M_bind, bind. rewrite Hrun.
  rewrite reconcile_valid; [done|]. unfold verifies. cbn [files].
  rewrite lookup_insert_eq, (no_cr_read report Hcr). apply String.eqb_refl.
Qed.

(** When the write goes through, for a user name without path separator
    and a report without carriage return, [save_report] returns with the
    new report at [{username}.txt], the report that was there, if any, at
    the archival path built from the date that [get_date] finds in it, and
    every other file as it was; it prints nothing. *)
Theorem save_report_write_ok today listdir report username w :
  has_slash username = false →
  no_cr report = true →
  save_report WriteOk today listdir report username w
  = (Ret (),
     World (<[report_path username := report]>
              match files w !! report_path username with
              | Some old =>
                  <[archive_path username (find_date (universal_newlines old)) := old]>
                    (delete (report_path username) (files w))
              | None => files w
              end)
           (stdout w) (tick w)).
Proof. intros _ Hcr. rewrite save_report_ok_run by done. reflexivity. Qed.

Lemma save_report_write_ok_witness :
  save_report WriteOk noon plain_listdir "new report" "Ann" ann_world
  = (Ret (),
     World (<[report_path "Ann" := "new report"]>
              match files ann_world !! report_path "Ann" with
              | Some old =>
                  <[archive_path "Ann" (find_date (universal_newlines old)) := old]>
                    (delete (report_path "Ann") (files ann_world))
              | None => files ann_world
              end)
           (stdout ann_world) (tick ann_world)).
Proof.
  apply (save_report_write_ok noon plain_listdir "new report" "Ann" ann_world); reflexivity.
Defined.

(** A report with a carriage return is not read back as it was written:
    the check after a write that went through gives [False]. *)
Lemma save_report_carriage_return_example :
  validate_file "tasks/Ann.txt" ("line" +:+ String (ascii_of_nat 13) "end")
    (World {["tasks/Ann.txt" := "line" +:+ String (ascii_of_nat 13) "end"]} [] 0)
  = (Ret (Some false),
     World {["tasks/Ann.txt" := "line" +:+ String (ascii_of_nat 13) "end"]} [] 0).
Proof. reflexivity. Qed.

(** A text found off the current path after the archive step and the
    write was in the directory before them. *)
Lemma written_archived_old fx report username d q x :
  q ≠ report_path username →
  written fx (report_path username) report (archived username d) !! q = Some x →
  ∃ p, d !! p = Some x.
Proof.
  intros Hq. rewrite written_other by done. unfold archived.
  destruct (d !! report_path username) as [old|] eqn:E; [|eauto].
  destruct (decide (q = archive_path username (date_of old))) as [->|Hne].
  - rewrite lookup_insert_eq. intros [= <-]. eauto.
  - rewrite lookup_insert_ne by done. rewrite lookup_delete_ne by done. eauto.
Qed.

(** For a user name made of ordinary characters, dots and paired
    parentheses: when [save_report] returns, the file at the current path,
    if there is one, is read as the new report or is a text that was in
    the directory when [save_report] was called; what a failed write left
    behind is never kept. *)
Theorem save_report_current_text fx today listdir report username user w w' x :
  username_atoms 0 username = Some user →
  save_report fx today listdir report username w = (Ret (), w') →
  files w' !! report_path username = Some x →
  universal_newlines x = report ∨ ∃ p, files w !! p = Some x.
Proof.
  intros _.
  destruct (save_report_run fx today listdir report username w) as [out ->].
  set (w1 := World _ _ _).
  destruct (verifies (files w1) (report_path username) report) eqn:Hv.
  - rewrite reconcile_valid by done.
    intros [= <-] Hx. left.
    apply verifies_read in Hv as (stored & Hs & Hread). congruence.
  - rewrite (reconcile_invalid _ _ _ _ _ _ (validate_file_not_true _ _ _ Hv) eq_refl).
    destruct (find_last_report _ _ _) as [[best|]| | |]; try done.
    + destruct (delete _ _ !! ("tasks/" +:+ best)) as [data|] eqn:Ed; [|done].
      intros [= <-]. cbn [files]. rewrite lookup_insert_eq. intros [= <-]. right.
      destruct (decide ("tasks/" +:+ best = report_path username)) as [E|Hne].
      * rewrite E, lookup_delete_eq in Ed. done.
      * rewrite lookup_delete_ne in Ed by done.
        by apply (written_archived_old fx report username (files w) _ _ Hne).
    + intros [= <-]. cbn [files]. by rewrite lookup_delete_eq.
Qed.

Lemma save_report_current_text_witness :
  universal_newlines ann_report = "new report"
  ∨ ∃ p, files history_world !! p = Some ann_report.
Proof.
  apply (save_report_current_text (WriteRaised "# Rep") noon plain_listdir "new report"
           "Ann" (lits "Ann") history_world
           (World (<["tasks/old_Ann_2026-10-01T08:00.txt" := "report of October"]>
                     (<["tasks/old_Ann_2025-12-24T18:30.txt" := "report of December"]>
                        {["tasks/Ann.txt" := ann_report]}))
                  ["Error occured while writing to file tasks/Ann.txt"] 0) ann_report);
    vm_compute; reflexivity.
Defined.

(** For a user name made of ordinary characters, dots and paired
    parentheses, no text is lost: what the directory held before
    [save_report] it still holds afterwards, somewhere, the one exception
    being a text at the archival path that the current report is moved
    to. *)
Theorem save_report_keeps_texts fx today listdir report username user w w' p x :
  username_atoms 0 username = Some user →
  save_report fx today listdir report username w = (Ret (), w') →
  files w !! p = Some x →
  (∀ cur, files w !! report_path username = Some cur →
          p ≠ archive_path username (date_of cur)) →
  ∃ q, files w' !! q = Some x.
Proof.
  intros _ Hrun Hp Hnot.
  assert (H1 : ∃ q, q ≠ report_path username
                    ∧ written fx (report_path username) report
                        (archived username (files w)) !! q = Some x).
  { unfold archived. destruct (files w !! report_path username) as [cur|] eqn:E.
    - destruct (decide (p = report_path username)) as [->|Hne].
      + exists (archive_path username (date_of cur)).
        split; [apply not_eq_sym, report_path_not_archive|].
        rewrite written_other by apply not_eq_sym, report_path_not_archive.
        rewrite lookup_insert_eq. congruence.
      + exists p. split; [done|]. rewrite written_other by done.
        rewrite lookup_insert_ne by (apply not_eq_sym; eauto).
        by rewrite lookup_delete_ne.
    - exists p. assert (p ≠ report_path username) by congruence.
      split; [done|]. by rewrite written_other. }
  destruct H1 as (q & Hq & Hx).
  destruct (save_report_run fx today listdir report username w) as [out Hs].
  rewrite Hs in Hrun. clear Hs. revert Hrun. set (w1 := World _ _ _).
  destruct (verifies (files w1) (report_path username) report) eqn:Hv.
  - rewrite reconcile_valid by done.
    intros [= <-]. eauto.
  - rewrite (reconcile_invalid _ _ _ _ _ _ (validate_file_not_true _ _ _ Hv) eq_refl).
    assert (Hd : delete (report_path username) (files w1) !! q = Some x).
    { by rewrite lookup_delete_ne. }
    destruct (find_last_report _ _ _) as [[best|]| | |]; try done.
    + destruct (delete _ _ !! ("tasks/" +:+ best)) as [data|] eqn:Ed; [|done].
      intros [= <-]. cbn [files].
      destruct (decide (q = "tasks/" +:+ best)) as [->|Hne].
      * exists (report_path username). rewrite lookup_insert_eq. congruence.
      * exists q. rewrite lookup_insert_ne by done. by rewrite lookup_delete_ne.
    + intros [= <-]. eauto.
Qed.

Lemma save_report_keeps_texts_witness :
  ∃ q, files (World (<["tasks/old_Ann_2026-10-01T08:00.txt" := "report of October"]>
                       (<["tasks/old_Ann_2025-12-24T18:30.txt" := "report of December"]>
                          {["tasks/Ann.txt" := ann_report]}))
                    ["Error occured while writing to file tasks/Ann.txt"] 0) !! q
       = Some "report of December".
Proof.
  apply (save_report_keeps_texts (WriteRaised "# Rep") noon plain_listdir "new report"
           "Ann" (lits "Ann") history_world _ "tasks/old_Ann_2025-12-24T18:30.txt"
           "report of December").
  - reflexivity.
  - vm_compute. reflexivity.
  - vm_compute. reflexivity.
  - intros cur Hcur. vm_compute in Hcur. injection Hcur as <-. vm_compute. discriminate.
Defined.

(** ** The date of a report *)

(** What [re.search] returns is the rest of the text from the leftmost
    position where the pattern matches. *)
Lemma re_search_some p s m :
  re_search p s = Some m →
  ∃ pre, s = pre +:+ m ∧ re_match p m = true ∧ no_match_before p pre m = true.
Proof.
  induction s as [|c s IH]; simpl.
  - destruct (re_match p "") eqn:E; [|done]. intros [= <-]. by exists "".
  - destruct (re_match p (String c s)) eqn:E.
    + intros [= <-]. by exists "".
    + intros (pre & -> & Hm & Hpre)%IH. exists (String c pre). simpl.
      split; [done|]. split; [done|]. by rewrite E, Hpre.
Qed.

Lemma re_search_none p s :
  re_search p s = None → ∀ pre rest, s = pre +:+ rest → re_match p rest = false.
Proof.
  induction s as [|c s IH]; simpl.
  - destruct (re_match p "") eqn:E; [done|]. intros _ [|? ?] rest; simpl; [|done].
    by intros <-.
  - destruct (re_match p (String c s)) eqn:E; [done|].
    intros Hs [|c' pre] rest; simpl.
    + by intros <-.
    + intros [= <- ->]. by apply (IH Hs pre).
Qed.

(** The texts that the pattern of [get_date] matches. *)
Lemma date_re_exp_shape m :
  re_match date_re_exp m = true →
  ∃ dd c1 mm c2 yyyy hh mi post,
    m = dd +:+ String c1 (mm +:+ String c2 (yyyy +:+ " " +:+ hh +:+ ":" +:+ mi +:+ post))
    ∧ digits 2 dd = true ∧ digits 2 mm = true ∧ digits 4 yyyy = true
    ∧ digits 2 hh = true ∧ digits 2 mi = true
    ∧ c1 ≠ ascii_of_nat 10 ∧ c2 ≠ ascii_of_nat 10.
Proof.
  unfold date_re_exp.
  destruct m as [|d1 [|d2 [|c1 [|m1 [|m2 [|c2 [|y1 [|y2 [|y3 [|y4 [|s1 [|h1 [|h2 [|s2
    [|n1 [|n2 post]]]]]]]]]]]]]]]];
    cbn [re_match atom_matches]; rewrite ?andb_false_r; try discriminate.
  rewrite !andb_true_iff, !Ascii.eqb_eq, !negb_true_iff, !Ascii.eqb_neq.
  intros (Hd1 & Hd2 & Hc1 & Hm1 & Hm2 & Hc2 & Hy1 & Hy2 & Hy3 & Hy4 & <- & Hh1 & Hh2 & <-
          & Hn1 & Hn2 & _).
  exists (String d1 (String d2 EmptyString)), c1, (String m1 (String m2 EmptyString)), c2,
         (String y1 (String y2 (String y3 (String y4 EmptyString)))),
         (String h1 (String h2 EmptyString)), (String n1 (String n2 EmptyString)), post.
  split; [reflexivity|].
  repeat split; auto using digits_2_intro, digits_4_intro.
Qed.

Lemma find_date_at dd c1 mm c2 yyyy hh mi post :
  digits 2 dd = true → digits 2 mm = true → digits 4 yyyy = true →
  digits 2 hh = true → digits 2 mi = true →
  let m := dd +:+ String c1 (mm +:+ String c2
             (yyyy +:+ " " +:+ hh +:+ ":" +:+ mi +:+ post)) in
  date_format (substring 6 4 m) (substring 3 2 m) (substring 0 2 m)
              (substring 11 2 m) (substring 14 2 m)
  = stamp yyyy mm dd hh mi.
Proof.
  intros (d1 & d2 & -> & _)%digits_2_inv (m1 & m2 & -> & _)%digits_2_inv
         (y1 & y2 & y3 & y4 & -> & _)%digits_4_inv
         (h1 & h2 & -> & _)%digits_2_inv (n1 & n2 & -> & _)%digits_2_inv.
  unfold date_format, stamp. simpl. by rewrite !substring_0_0.
Qed.

(** [get_date] on a file that exists works on the text as it is read,
    where a carriage return, alone or before a line feed, has become a
    line feed: it returns 0 exactly when no part of that text has the
    form [DD?MM?YYYY HH:MM], each [?] being any one character but a line
    feed; otherwise it returns [YYYY-MM-DDTHH:MM] built from the digits of
    the leftmost such part. The file and the output are left as they
    are. *)
Theorem get_date_result path data w :
  files w !! path = Some data →
  ∃ r, get_date path w = (Ret r, w)
    ∧ match r with
      | DateZero =>
          ∀ pre rest, universal_newlines data = pre +:+ rest →
                      re_match date_re_exp rest = false
      | DateText s =>
          ∃ pre dd c1 mm c2 yyyy hh mi post,
            universal_newlines data = pre +:+ dated dd c1 mm c2 yyyy hh mi post
            ∧ no_match_before date_re_exp pre (dated dd c1 mm c2 yyyy hh mi post) = true
            ∧ digits 2 dd = true ∧ digits 2 mm = true ∧ digits 4 yyyy = true
            ∧ digits 2 hh = true ∧ digits 2 mi = true
            ∧ c1 ≠ ascii_of_nat 10 ∧ c2 ≠ ascii_of_nat 10
            ∧ s = stamp yyyy mm dd hh mi
      end.
Proof.
  intros Hf. exists (find_date (universal_newlines data)). split.
  { unfold get_date, read_file, ret, mbind, M_bind, bind. by rewrite Hf. }
  unfold find_date.
  destruct (re_search date_re_exp (universal_newlines data)) as [m|] eqn:E.
  - apply re_search_some in E as (pre & -> & Hm & Hpre).
    destruct (date_re_exp_shape m Hm)
      as (dd & c1 & mm & c2 & yyyy & hh & mi & post & -> & Hdd & Hmm & Hy & Hh & Hmi & H1 & H2).
    exists pre, dd, c1, mm, c2, yyyy, hh, mi, post.
    repeat (split; [done|]). by apply find_date_at.
  - by apply re_search_none.
Qed.

Lemma get_date_result_witness :
  ∃ r, get_date "tasks/Ann.txt" ann_world = (Ret r, ann_world)
    ∧ match r with
      | DateZero =>
          ∀ pre rest, universal_newlines ann_report = pre +:+ rest →
                      re_match date_re_exp rest = false
      | DateText s =>
          ∃ pre dd c1 mm c2 yyyy hh mi post,
            universal_newlines ann_report = pre +:+ dated dd c1 mm c2 yyyy hh mi post
            ∧ no_match_before date_re_exp pre (dated dd c1 mm c2 yyyy hh mi post) = true
            ∧ digits 2 dd = true ∧ digits 2 mm = true ∧ digits 4 yyyy = true
            ∧ digits 2 hh = true ∧ digits 2 mi = true
            ∧ c1 ≠ ascii_of_nat 10 ∧ c2 ≠ ascii_of_nat 10
            ∧ s = stamp yyyy mm dd hh mi
      end.
Proof.
  apply (get_date_result "tasks/Ann.txt" ann_report ann_world). vm_compute. reflexivity.
Defined.

(** A date whose parts are separated by carriage returns is not found:
    the file is read with line feeds in their place. *)
Lemma get_date_carriage_return_example :
  get_date "tasks/Ann.txt"
    (World {["tasks/Ann.txt" := "02" +:+ String (ascii_of_nat 13)
                                 ("11" +:+ String (ascii_of_nat 13) "2026 09:15")]} [] 0)
  = (Ret DateZero,
     World {["tasks/Ann.txt" := "02" +:+ String (ascii_of_nat 13)
                                 ("11" +:+ String (ascii_of_nat 13) "2026 09:15")]} [] 0).
Proof. reflexivity. Qed.

(** A match in the text as it is read is a match in the text as it is
    stored: reading only puts line feeds where carriage returns were. *)
Lemma re_match_read p s :
  never_lf p = true →
  re_match p (universal_newlines s) = true → re_match p s = true.
Proof.
  revert s. induction p as [|a p IH]; intros s Hp; [done|].
  cbn [never_lf forallb] in Hp. apply andb_true_iff in Hp as [Ha Hp].
  apply negb_true_iff in Ha.
  destruct s as [|c s]; [done|]. cbn [universal_newlines].
  destruct (Ascii.eqb c (ascii_of_nat 13)) eqn:Ec.
  - destruct s as [|c' s']; [|destruct (Ascii.eqb c' (ascii_of_nat 10))];
      cbn [re_match]; by rewrite Ha.
  - cbn [re_match]. intros [Hc Hm]%andb_true_iff. rewrite Hc. by apply IH.
Qed.

Lemma universal_newlines_cons c s :
  Ascii.eqb c (ascii_of_nat 13) = false →
  universal_newlines (String c s) = String c (universal_newlines s).
Proof. intros H. cbn [universal_newlines]. by rewrite H. Qed.

(** The leftmost match of a pattern is not moved by the reading when it
    is read as a match. *)
Lemma re_search_read p pre c m :
  never_lf p = true →
  c ≠ ascii_of_nat 10 →
  re_match p (universal_newlines (String c m)) = true →
  no_match_before p pre (String c m) = true →
  re_search p (universal_newlines (pre +:+ String c m))
  = Some (universal_newlines (String c m)).
Proof.
  intros Hp Hc Hm.
  assert (Hall : ∀ n pre, String.length pre ≤ n →
            no_match_before p pre (String c m) = true →
            re_search p (universal_newlines (pre +:+ String c m))
            = Some (universal_newlines (String c m))).
  { induction n as [|n IH]; intros pre' Hn Hpre.
    - destruct pre'; [|simpl in Hn; lia]. by apply re_search_here.
    - destruct pre' as [|a pre']; [by apply re_search_here|].
      cbn [no_match_before] in Hpre. apply andb_true_iff in Hpre as [Hno Hpre].
      apply negb_true_iff in Hno.
      assert (Hread : re_match p (universal_newlines (String a pre' +:+ String c m)) = false).
      { destruct (re_match p (universal_newlines (String a pre' +:+ String c m))) eqn:E;
          [|done].
        apply re_match_read in E; [|done]. by rewrite E in Hno. }
      revert Hread.
      change (String a pre' +:+ String c m) with (String a (pre' +:+ String c m)).
      cbn [universal_newlines]. simpl in Hn.
      destruct (Ascii.eqb a (ascii_of_nat 13)).
      + destruct pre' as [|a' pre''].
        * change ("" +:+ String c m) with (String c m). cbv iota.
          apply Ascii.eqb_neq in Hc. rewrite Hc. intros Hread.
          cbn [re_search]. rewrite Hread. by apply re_search_here.
        * change (String a' pre'' +:+ String c m) with (String a' (pre'' +:+ String c m)).
          cbv iota. destruct (Ascii.eqb a' (ascii_of_nat 10)) eqn:Ea; intros Hread;
            cbn [re_search]; rewrite Hread.
          -- apply IH; [simpl in Hn; lia|].
             cbn [no_match_before] in Hpre. by apply andb_true_iff in Hpre as [_ Hpre].
          -- apply (IH (String a' pre'')); [simpl in *; lia|done].
      + intros Hread. cbn [re_search]. rewrite Hread. apply IH; [lia|done]. }
  intros Hpre. by apply (Hall (String.length pre)).
Qed.

Lemma digit_not_cr c : is_digit c = true → Ascii.eqb c (ascii_of_nat 13) = false.
Proof.
  unfold is_digit. intros [H1 H2]%andb_true_iff.
  apply Ascii.eqb_neq. intros ->. vm_compute in H1. done.
Qed.

Lemma header_time_dated dd mm yyyy hh mi post :
  header_time dd mm yyyy hh mi +:+ post = dated dd "." mm "." yyyy hh mi post.
Proof. unfold header_time, dated. rewrite !append_assoc. reflexivity. Qed.

(** A date whose separators are no carriage returns is read as it is
    stored. *)
Lemma dated_read dd c1 mm c2 yyyy hh mi post :
  digits 2 dd = true → digits 2 mm = true → digits 4 yyyy = true →
  digits 2 hh = true → digits 2 mi = true →
  c1 ≠ ascii_of_nat 13 → c2 ≠ ascii_of_nat 13 →
  universal_newlines (dated dd c1 mm c2 yyyy hh mi post)
  = dated dd c1 mm c2 yyyy hh mi (universal_newlines post).
Proof.
  intros (d1 & d2 & -> & Hd1 & Hd2)%digits_2_inv (m1 & m2 & -> & Hm1 & Hm2)%digits_2_inv
         (y1 & y2 & y3 & y4 & -> & Hy1 & Hy2 & Hy3 & Hy4)%digits_4_inv
         (h1 & h2 & -> & Hh1 & Hh2)%digits_2_inv (n1 & n2 & -> & Hn1 & Hn2)%digits_2_inv
         Hc1%Ascii.eqb_neq Hc2%Ascii.eqb_neq.
  unfold dated. cbn [String.append].
  by rewrite !universal_newlines_cons by (first [by apply digit_not_cr | done]).
Qed.

Lemma dated_matches dd c1 mm c2 yyyy hh mi post :
  digits 2 dd = true → digits 2 mm = true → digits 4 yyyy = true →
  digits 2 hh = true → digits 2 mi = true →
  c1 ≠ ascii_of_nat 10 → c2 ≠ ascii_of_nat 10 →
  re_match date_re_exp (dated dd c1 mm c2 yyyy hh mi post) = true.
Proof.
  intros (d1 & d2 & -> & Hd1 & Hd2)%digits_2_inv (m1 & m2 & -> & Hm1 & Hm2)%digits_2_inv
         (y1 & y2 & y3 & y4 & -> & Hy1 & Hy2 & Hy3 & Hy4)%digits_4_inv
         (h1 & h2 & -> & Hh1 & Hh2)%digits_2_inv (n1 & n2 & -> & Hn1 & Hn2)%digits_2_inv
         Hc1%Ascii.eqb_neq Hc2%Ascii.eqb_neq.
  unfold dated, date_re_exp. simpl.
  by rewrite Hd1, Hd2, Hm1, Hm2, Hy1, Hy2, Hy3, Hy4, Hh1, Hh2, Hn1, Hn2, Hc1, Hc2.
Qed.

(** Reading loses no date and makes none: when the separators of the
    leftmost date in the stored text are no carriage returns, the date
    found in the text as it is read is that date. *)
Lemma find_date_read pre post dd c1 mm c2 yyyy hh mi :
  digits 2 dd = true → digits 2 mm = true → digits 4 yyyy = true →
  digits 2 hh = true → digits 2 mi = true →
  c1 ≠ ascii_of_nat 10 → c2 ≠ ascii_of_nat 10 →
  c1 ≠ ascii_of_nat 13 → c2 ≠ ascii_of_nat 13 →
  no_match_before date_re_exp pre (dated dd c1 mm c2 yyyy hh mi post) = true →
  date_of (pre +:+ dated dd c1 mm c2 yyyy hh mi post)
  = DateText (stamp yyyy mm dd hh mi).
Proof.
  intros Hdd Hmm Hyy Hhh Hmi Hl1 Hl2 Hr1 Hr2 Hpre.
  pose proof (dated_read dd c1 mm c2 yyyy hh mi post Hdd Hmm Hyy Hhh Hmi Hr1 Hr2) as Hread.
  pose proof (dated_matches dd c1 mm c2 yyyy hh mi (universal_newlines post)
                Hdd Hmm Hyy Hhh Hmi Hl1 Hl2) as Hm.
  assert (Hs : re_search date_re_exp
                 (universal_newlines (pre +:+ dated dd c1 mm c2 yyyy hh mi post))
               = Some (dated dd c1 mm c2 yyyy hh mi (universal_newlines post))).
  { rewrite <- Hread in Hm |- *.
    destruct (digits_2_inv dd Hdd) as (d1 & d2 & -> & Hd1 & _).
    revert Hm Hpre. unfold dated.
    change (String d1 (String d2 "") +:+ ?s) with (String d1 (String d2 s)).
    intros Hm Hpre. apply re_search_read; [done| |done..].
    intros ->. vm_compute in Hd1. done. }
  unfold date_of, find_date. rewrite Hs. f_equal. by apply find_date_at.
Qed.

(** [get_date] finds in a file the date that the file holds: when the
    leftmost text of the form [DD?MM?YYYY HH:MM] in the content as it is
    stored has separators that are no carriage returns, [get_date] returns
    [YYYY-MM-DDTHH:MM] built from its digits, wherever carriage returns
    stand in the rest of the content. The translation of the line ends
    hides no such date and makes none before it. *)
Theorem get_date_stored_date path pre post dd c1 mm c2 yyyy hh mi w :
  digits 2 dd = true → digits 2 mm = true → digits 4 yyyy = true →
  digits 2 hh = true → digits 2 mi = true →
  c1 ≠ ascii_of_nat 10 → c2 ≠ ascii_of_nat 10 →
  c1 ≠ ascii_of_nat 13 → c2 ≠ ascii_of_nat 13 →
  no_match_before date_re_exp pre (dated dd c1 mm c2 yyyy hh mi post) = true →
  files w !! path = Some (pre +:+ dated dd c1 mm c2 yyyy hh mi post) →
  get_date path w = (Ret (DateText (stamp yyyy mm dd hh mi)), w).
Proof.
  intros Hdd Hmm Hyy Hhh Hmi Hl1 Hl2 Hr1 Hr2 Hpre Hf.
  unfold get_date, read_file, ret, mbind, M_bind, bind. rewrite Hf.
  do 2 f_equal. by apply find_date_read.
Qed.

Lemma get_date_stored_date_witness :
  get_date "tasks/Ann.txt" windows_world
  = (Ret (DateText (stamp "2026" "11" "02" "09" "15")), windows_world).
Proof.
  apply (get_date_stored_date "tasks/Ann.txt" windows_pre windows_post
           "02" "." "11" "." "2026" "09" "15" windows_world);
    try reflexivity; try discriminate.
Defined.

(** ** A failed save undone *)

(** The directory that the search of the [finally] block lists after a
    write that failed. *)
Lemma failed_write_directory fx report username d :
  write_fails fx report = true →
  verifies (written fx (report_path username) report (archived username d))
           (report_path username) report = false
  ∧ delete (report_path username)
      (written fx (report_path username) report (archived username d))
    = archived username d.
Proof.
  pose proof (archived_report_path username d) as Hnone.
  unfold verifies. destruct fx as [|landed|]; simpl.
  - intros Hl%negb_true_iff. rewrite lookup_insert_eq. split; [done|].
    rewrite delete_insert_eq. by apply delete_id.
  - intros Hl%negb_true_iff. rewrite lookup_insert_eq. split; [done|].
    rewrite delete_insert_eq. by apply delete_id.
  - intros _. split; [by rewrite Hnone|]. by apply delete_id.
Qed.

Lemma tasks_inj a b : "tasks/" +:+ a = "tasks/" +:+ b → a = b.
Proof. by intros [= ?]. Qed.


(** A date that [get_date] returns, followed by [.txt], is what the
    pattern of [get_last_report] expects after the user name. *)
Lemma find_date_stamp data s :
  find_date data = DateText s →
  ∃ yyyy mm dd hh mi,
    s = stamp yyyy mm dd hh mi
    ∧ digits 4 yyyy = true ∧ digits 2 mm = true ∧ digits 2 dd = true
    ∧ digits 2 hh = true ∧ digits 2 mi = true.
Proof.
  unfold find_date. destruct (re_search date_re_exp data) as [m|] eqn:E; [|done].
  apply re_search_some in E as (pre & -> & Hm & Hpre).
  destruct (date_re_exp_shape m Hm)
    as (dd & c1 & mm & c2 & yyyy & hh & mi & post & -> & Hdd & Hmm & Hy & Hh & Hmi & H1 & H2).
  intros [= <-]. exists yyyy, mm, dd, hh, mi. split; [by apply find_date_at|done].
Qed.

Lemma stamp_matches yyyy mm dd hh mi rest :
  digits 4 yyyy = true → digits 2 mm = true → digits 2 dd = true →
  digits 2 hh = true → digits 2 mi = true →
  re_match (Lit "_" :: stamp_re) ("_" +:+ stamp yyyy mm dd hh mi +:+ ".txt" +:+ rest) = true.
Proof.
  intros (y1 & y2 & y3 & y4 & -> & Hy1 & Hy2 & Hy3 & Hy4)%digits_4_inv
         (m1 & m2 & -> & Hm1 & Hm2)%digits_2_inv (d1 & d2 & -> & Hd1 & Hd2)%digits_2_inv
         (h1 & h2 & -> & Hh1 & Hh2)%digits_2_inv (n1 & n2 & -> & Hn1 & Hn2)%digits_2_inv.
  unfold stamp, stamp_re. simpl.
  by rewrite Hy1, Hy2, Hy3, Hy4, Hm1, Hm2, Hd1, Hd2, Hh1, Hh2, Hn1, Hn2.
Qed.

(** The name under which [save_report] archives a report with a date is
    one that the search for the same user matches, when the user name has
    no operator but the dot. *)
Lemma archive_name_matches username user data s :
  is_simple username = true →
  username_atoms 0 username = Some user →
  find_date data = DateText s →
  re_match (last_report_re_exp user) (create_filename username (Some (DateText s))) = true.
Proof.
  intros (user' & Hu' & Hm)%username_atoms_simple Hu
         (yyyy & mm & dd & hh & mi & -> & Hy & Hmm & Hdd & Hh & Hmi)%find_date_stamp.
  assert (user' = user) as -> by congruence.
  rewrite last_report_re_exp_split. apply re_match_lits.
  exists (username +:+ "_" +:+ stamp yyyy mm dd hh mi +:+ ".txt").
  split; [reflexivity|]. rewrite Hm.
  pose proof (stamp_matches yyyy mm dd hh mi "" Hy Hmm Hdd Hh Hmi) as H.
  by rewrite !append_nil_r in H.
Qed.

(** The name given to an archived report without a date is one that the
    search does not match. *)
Lemma zero_name_not_matched username user :
  is_simple username = true →
  username_atoms 0 username = Some user →
  re_match (last_report_re_exp user) (create_filename username (Some DateZero)) = false.
Proof.
  intros (user' & Hu' & Hm)%username_atoms_simple Hu.
  assert (user' = user) as -> by congruence.
  destruct (re_match _ _) eqn:E; [|done].
  rewrite last_report_re_exp_split in E.
  apply re_match_lits in E as (s' & Hs & Hn).
  unfold create_filename, date_text in Hs. apply (inj (String.append "old_")) in Hs.
  rewrite <- Hs, Hm in Hn. done.
Qed.



(** ** Archives that the search cannot use *)

Lemma archive_path_dated_not_zero username data s :
  find_date data = DateText s →
  archive_path username (DateText s) ≠ archive_path username DateZero.
Proof.
  intros (yyyy & mm & dd & hh & mi & -> & (y1 & y2 & y3 & y4 & -> & _)%digits_4_inv & _)%find_date_stamp.
  unfold archive_path, create_filename, date_text.
  intros H. apply tasks_inj in H. apply (inj (String.append "old_")) in H.
  apply (inj (String.append username)) in H. apply (inj (String.append "_")) in H.
  unfold stamp in H. simpl in H. discriminate.
Qed.

(** The dateless archive after the archive step. *)
Lemma archived_zero username d :
  archived username d !! archive_path username DateZero
  = match d !! report_path username with
    | Some cur =>
        match date_of cur with
        | DateZero => Some cur
        | DateText _ => d !! archive_path username DateZero
        end
    | None => d !! archive_path username DateZero
    end.
Proof.
  unfold archived. destruct (d !! report_path username) as [cur|] eqn:E; [|done].
  destruct (date_of cur) as [s|] eqn:Es.
  - rewrite lookup_insert_ne
      by by apply (archive_path_dated_not_zero username (universal_newlines cur)).
    rewrite lookup_delete_ne by apply report_path_not_archive. done.
  - by rewrite lookup_insert_eq.
Qed.

(** The archive [old_{username}_0.txt] is never taken back: after
    [save_report], whatever the fate of the write, it holds the current
    report when that had no date and was archived there, and otherwise
    what it held before. *)
Theorem save_report_keeps_dateless_archive fx today listdir report username w w' :
  is_simple username = true →
  save_report fx today listdir report username w = (Ret (), w') →
  files w' !! archive_path username DateZero
  = match files w !! report_path username with
    | Some cur =>
        match date_of cur with
        | DateZero => Some cur
        | DateText _ => files w !! archive_path username DateZero
        end
    | None => files w !! archive_path username DateZero
    end.
Proof.
  intros Hs. rewrite <- archived_zero.
  pose proof (report_path_not_archive username DateZero) as Hne.
  destruct (save_report_run fx today listdir report username w) as [out ->].
  set (w1 := World _ _ _).
  assert (H1 : files w1 !! archive_path username DateZero
               = archived username (files w) !! archive_path username DateZero).
  { cbn [w1 files]. by rewrite written_other by done. }
  destruct (verifies (files w1) (report_path username) report) eqn:Hv.
  - rewrite reconcile_valid by done. by intros [= <-].
  - rewrite (reconcile_invalid _ _ _ _ _ _ (validate_file_not_true _ _ _ Hv) eq_refl).
    pose proof (find_last_report_never_zero today
                  (listdir (delete (report_path username) (files w1))) username Hs) as Hz.
    destruct (find_last_report _ _ _) as [[best|]| | |]; try done.
    + destruct (delete _ _ !! ("tasks/" +:+ best)) as [data|] eqn:Ed; [|done].
      intros [= <-]. cbn [files]. rewrite lookup_insert_ne by done.
      rewrite lookup_delete_ne by (intros H; apply Hz; by rewrite (tasks_inj _ _ H)).
      by rewrite lookup_delete_ne.
    + intros [= <-]. cbn [files]. by rewrite lookup_delete_ne.
Qed.

Lemma save_report_keeps_dateless_archive_witness :
  files (World {["tasks/old_Ann_0.txt" := "notes"]}
               ["Error occured while writing to file tasks/Ann.txt"] 0)
    !! archive_path "Ann" DateZero
  = match files dateless_world !! report_path "Ann" with
    | Some cur =>
        match date_of cur with
        | DateZero => Some cur
        | DateText _ => files dateless_world !! archive_path "Ann" DateZero
        end
    | None => files dateless_world !! archive_path "Ann" DateZero
    end.
Proof.
  apply (save_report_keeps_dateless_archive OpenRaised noon plain_listdir "new report"
           "Ann" dateless_world).
  - reflexivity.
  - vm_compute. reflexivity.
Defined.

(** One step of the search returns or raises [ValueError]. *)
Lemma scan_name_outcome user today n st :
  (∃ st', scan_name user today n st = Ret st')
  ∨ scan_name user today n st = Raise ValueError.
Proof.
  unfold scan_name. destruct (re_match _ _); [|eauto]. cbv zeta.
  destruct (make_datetime _ _ _ _ _) as [t| | |] eqn:E.
  - left. cbv beta iota delta [mbind outcome_bind].
    destruct st as [[m|] b]; cbn [fst]; destruct (_ <? _)%Z; eauto.
  - right. unfold make_datetime in E. destruct (_ && _) in E; [done|].
    by injection E as <-.
  - unfold make_datetime in E. by destruct (_ && _) in E.
  - unfold make_datetime in E. by destruct (_ && _) in E.
Qed.





(** ** Sanitized names and the clock *)

(** A sanitized name read as a pattern: the parentheses of [(f_slash)]
    group and match nothing, so the pattern cannot match the name itself
    from the first replaced separator on. *)
Lemma sanitized_atoms name :
  is_simple name = true →
  ∃ user, username_atoms 0 (replace_char "/" "(f_slash)" name) = Some user
    ∧ (has_slash name = true →
       ∀ p s, re_match (user ++ p) (replace_char "/" "(f_slash)" name +:+ s) = false).
Proof.
  unfold is_simple, has_slash.
  induction name as [|c u IH]; cbn [list_ascii_of_string forallb existsb].
  - intros _. exists []. done.
  - intros [Hc Hu]%andb_true_iff. destruct (IH Hu) as (user & Hua & Hm).
    apply andb_true_iff in Hc as [Hc Hop]. apply andb_true_iff in Hc as [Ho Hcl].
    apply negb_true_iff in Ho, Hcl, Hop.
    cbn [replace_char]. rewrite (Ascii.eqb_sym c "/").
    destruct (Ascii.eqb "/" c) eqn:Hsl.
    + apply Ascii.eqb_eq in Hsl as <-.
      exists (lits "f_slash" ++ user). split.
      * simpl. by rewrite Hua.
      * intros _ p s. reflexivity.
    + cbn [username_atoms]. rewrite Ho, Hcl, Hop, Hua. cbn [orb].
      destruct (Ascii.eqb c ".") eqn:Hdot.
      * exists (AnyChar :: user). split; [done|]. intros Hs p s.
        simpl. rewrite (Hm Hs). apply andb_false_r.
      * exists (Lit c :: user). split; [done|]. intros Hs p s.
        simpl. rewrite (Hm Hs). apply andb_false_r.
Qed.

(** A user whose name holds a path separator never gets an archived
    report back: the name that the orchestrator passes to [save_report]
    holds [(f_slash)], and the pattern that [get_last_report] builds from
    it matches none of the archival names that [create_filename] builds
    from it, whatever the date; so the search never returns one. *)
Theorem sanitized_name_archives_never_found name :
  is_simple name = true →
  has_slash name = true →
  ∃ username user,
    sanitize (JStr name) = Ret username
    ∧ username_atoms 0 username = Some user
    ∧ (∀ date, re_match (last_report_re_exp user)
                 (create_filename username (Some date)) = false)
    ∧ ∀ today names date,
        find_last_report today names username
        ≠ Ret (Some (create_filename username (Some date))).
Proof.
  intros Hs Hsl. destruct (sanitized_atoms name Hs) as (user & Hu & Hm).
  specialize (Hm Hsl).
  assert (Hno : ∀ date, re_match (last_report_re_exp user)
                          (create_filename (replace_char "/" "(f_slash)" name) (Some date))
                        = false).
  { intros date. destruct (re_match _ _) eqn:E; [|done].
    rewrite last_report_re_exp_split in E.
    apply re_match_lits in E as (s' & Hs' & Hn).
    unfold create_filename in Hs'. apply (inj (String.append "old_")) in Hs'.
    rewrite <- Hs', Hm in Hn. done. }
  exists (replace_char "/" "(f_slash)" name), user.
  split; [reflexivity|]. split; [done|]. split; [done|].
  intros today names date. unfold find_last_report. rewrite Hu.
  destruct (scan_names user today names (None, None)) as [st| | |] eqn:E; try done.
  cbv beta iota delta [mbind outcome_bind]. intros [= H].
  apply scan_names_matches in E as [E | (n & E & _ & Hn)]; [by rewrite H in E|].
  rewrite H in E. injection E as <-.
  exact (eq_true_false_abs _ Hn (Hno date)).
Qed.

Lemma sanitized_name_archives_never_found_witness :
  ∃ username user,
    sanitize (JStr "a/b") = Ret username
    ∧ username_atoms 0 username = Some user
    ∧ (∀ date, re_match (last_report_re_exp user)
                 (create_filename username (Some date)) = false)
    ∧ ∀ today names date,
        find_last_report today names username
        ≠ Ret (Some (create_filename username (Some date))).
Proof.
  apply (sanitized_name_archives_never_found "a/b"); reflexivity.
Defined.

Lemma scan_name_same_choice user today1 today2 n st1 st2 :
  same_choice today1 today2 st1 st2 →
  same_outcome today1 today2 (scan_name user today1 n st1) (scan_name user today2 n st2).
Proof.
  intros [Hb Hm]. unfold scan_name. destruct (re_match _ _); [|by split].
  cbv zeta. destruct (make_datetime _ _ _ _ _) as [t| | |]; try done.
  cbv beta iota delta [mbind outcome_bind]. unfold datetime_sub.
  destruct st1 as [[m1|] b1], st2 as [[m2|] b2]; cbn [fst snd] in *; try done.
  - assert ((to_microseconds today1 - to_microseconds t <? m1)%Z
            = (to_microseconds today2 - to_microseconds t <? m2)%Z) as ->.
    { destruct (Z.ltb_spec (to_microseconds today1 - to_microseconds t) m1),
               (Z.ltb_spec (to_microseconds today2 - to_microseconds t) m2); lia || done. }
    destruct (_ <? _)%Z; split; cbn [fst snd]; lia || done.
  - rewrite !Z.ltb_irrefl. split; cbn [fst snd]; lia || done.
Qed.

Lemma scan_names_same_choice user today1 today2 names st1 st2 :
  same_choice today1 today2 st1 st2 →
  same_outcome today1 today2 (scan_names user today1 names st1)
                             (scan_names user today2 names st2).
Proof.
  revert st1 st2. induction names as [|n names IH]; intros st1 st2 H; [done|].
  cbn [scan_names]. pose proof (scan_name_same_choice user today1 today2 n st1 st2 H) as Hn.
  destruct (scan_name user today1 n st1) as [s1|e1| |],
           (scan_name user today2 n st2) as [s2|e2| |]; try done.
  cbv beta iota delta [mbind outcome_bind]. by apply IH.
Qed.

(** The search does not depend on the time at which it runs. *)
Lemma find_last_report_ignores_now today1 today2 names username :
  find_last_report today1 names username = find_last_report today2 names username.
Proof.
  unfold find_last_report. destruct (username_atoms 0 username) as [user|]; [|done].
  pose proof (scan_names_same_choice user today1 today2 names (None, None) (None, None)) as H.
  destruct (scan_names user today1 names _) as [s1|e1| |],
           (scan_names user today2 names _) as [s2|e2| |];
    try (by exfalso; apply H; split); try done.
  - destruct H as [H _]; [by split|]. cbv beta iota delta [mbind outcome_bind]. by rewrite H.
  - by rewrite (H (conj eq_refl I)).
Qed.

(** The search returns or raises [ValueError]. *)
Lemma scan_names_outcome user today names st :
  (∃ st', scan_names user today names st = Ret st')
  ∨ scan_names user today names st = Raise ValueError.
Proof.
  revert st. induction names as [|n names IH]; intros st; [by left; exists st|].
  cbn [scan_names].
  destruct (scan_name_outcome user today n st) as [[st' ->]| ->]; [|by right].
  cbv beta iota delta [mbind outcome_bind]. apply IH.
Qed.

(** For a user name made of ordinary characters, dots and paired
    parentheses, [save_report] reads the clock and makes no use of it:
    with any two times it ends in the same way and with the same
    directory. It returns, or it raises the [ValueError] of a date that
    does not exist or the [FileNotFoundError] of a listed name that is no
    file. Which archived report comes back after a failed write is
    decided by the dates in the names alone, so the latest date wins even
    when it lies in the future. *)
Theorem save_report_ignores_now fx today1 today2 listdir report username user w :
  username_atoms 0 username = Some user →
  ∃ o w',
    save_report fx today1 listdir report username w = (o, w')
    ∧ save_report fx today2 listdir report username w = (o, w')
    ∧ (o = Ret () ∨ o = Raise ValueError ∨ o = Raise FileNotFoundError).
Proof.
  intros Hu.
  destruct (archive_and_write_run fx report username w) as [out Hrun].
  unfold save_report, mbind, M_bind, bind. rewrite Hrun.
  set (w1 := World _ _ _).
  destruct (verifies (files w1) (report_path username) report) eqn:Hv.
  - rewrite !reconcile_valid by done. exists (Ret ()), w1. auto.
  - rewrite !(reconcile_invalid _ _ _ _ _ _ (validate_file_not_true _ _ _ Hv) eq_refl).
    rewrite (find_last_report_ignores_now today1 today2).
    unfold find_last_report. rewrite Hu.
    destruct (scan_names_outcome user today2
                (listdir (delete (report_path username) (files w1))) (None, None))
      as [[st ->]| ->]; cbv beta iota delta [mbind outcome_bind].
    + destruct st.2 as [best|]; [|eauto 10].
      destruct (delete _ _ !! ("tasks/" +:+ best)); eauto 10.
    + eauto 10.
Qed.

Lemma save_report_ignores_now_witness :
  ∃ o w',
    save_report OpenRaised noon plain_listdir "new report" "Ann" history_world = (o, w')
    ∧ save_report OpenRaised (Datetime 1999 1 1 0 0 0 0) plain_listdir "new report" "Ann"
        history_world = (o, w')
    ∧ (o = Ret () ∨ o = Raise ValueError ∨ o = Raise FileNotFoundError).
Proof.
  apply (save_report_ignores_now OpenRaised noon (Datetime 1999 1 1 0 0 0 0) plain_listdir
           "new report" "Ann" (lits "Ann") history_world).
  reflexivity.
Defined.

(** ** The search for the last report *)

Lemma scan_name_found_first user today seen n st :
  found_first user today seen st →
  (re_match (last_report_re_exp user) n = true → ∃ t, name_date user n = Ret t) →
  ∃ st', scan_name user today n st = Ret st' ∧ found_first user today (seen ++ [n]) st'.
Proof.
  intros Hst Hdate. unfold scan_name.
  destruct (re_match (last_report_re_exp user) n) eqn:Hm.
  - destruct (Hdate eq_refl) as [t Ht]. cbv zeta.
    assert (Hnt : name_time user n = to_microseconds t) by (unfold name_time; by rewrite Ht).
    unfold name_date in Ht. rewrite Ht. cbv beta iota delta [mbind outcome_bind].
    unfold datetime_sub. rewrite <- Hnt.
    destruct st as [[m|] [best|]]; try done; cbn [fst].
    + destruct Hst as (before & after & -> & Hb & -> & Hbefore & Hafter).
      destruct (Z.ltb_spec (to_microseconds today - name_time user n)
                           (to_microseconds today - name_time user best)) as [Hlt|Hge].
      * eexists. split; [reflexivity|].
        exists (before ++ best :: after), []. split; [done|]. split; [done|].
        split; [done|]. split; [|by intros ? ?%elem_of_nil].
        intros x [Hx|Hx]%elem_of_app Hxm.
        -- specialize (Hbefore x Hx Hxm). lia.
        -- apply elem_of_cons in Hx as [->|Hx]; [lia|].
           specialize (Hafter x Hx Hxm). lia.
      * eexists. split; [reflexivity|].
        exists before, (after ++ [n]). split; [by rewrite <- app_assoc|].
        split; [done|]. split; [done|]. split; [done|].
        intros x [Hx|Hx]%elem_of_app Hxm; [by apply Hafter|].
        apply list_elem_of_singleton in Hx as ->. lia.
    + rewrite Z.ltb_irrefl. eexists. split; [reflexivity|].
      exists seen, []. split; [done|]. split; [done|]. split; [done|].
      split; [|by intros ? ?%elem_of_nil].
      intros x Hx Hxm. by rewrite (Hst x Hx) in Hxm.
  - exists st. split; [done|].
    destruct st as [[m|] [best|]]; try done.
    + destruct Hst as (before & after & -> & Hb & -> & Hbefore & Hafter).
      exists before, (after ++ [n]). split; [by rewrite <- app_assoc|].
      split; [done|]. split; [done|]. split; [done|].
      intros x [Hx|Hx]%elem_of_app Hxm; [by apply Hafter|].
      apply list_elem_of_singleton in Hx as ->. by rewrite Hm in Hxm.
    + intros x [Hx|Hx]%elem_of_app; [by apply Hst|].
      by apply list_elem_of_singleton in Hx as ->.
Qed.

Lemma scan_names_found_first user today seen names st :
  found_first user today seen st →
  dates_exist user names →
  ∃ st', scan_names user today names st = Ret st'
         ∧ found_first user today (seen ++ names) st'.
Proof.
  revert seen st. induction names as [|n names IH]; intros seen st Hst Hd.
  - exists st. by rewrite app_nil_r.
  - cbn [scan_names].
    destruct (scan_name_found_first user today seen n st Hst) as (st1 & -> & H1).
    { intros Hm. apply Hd; [by left|done]. }
    cbv beta iota delta [mbind outcome_bind].
    destruct (IH (seen ++ [n]) st1 H1) as (st' & Hrun & H').
    { intros x Hx. apply Hd. by right. }
    exists st'. split; [done|]. by rewrite <- app_assoc in H'.
Qed.

(** [get_last_report] when every matched name carries a date that exists:
    it returns [None] exactly when the pattern matches no name of the
    listing, and otherwise the matched name with the latest date, the
    first one in the order of the listing when several names carry that
    date. It changes nothing. *)
Theorem get_last_report_latest today listdir username user w :
  username_atoms 0 username = Some user →
  dates_exist user (listdir (files w)) →
  ∃ r, get_last_report today listdir username w = (Ret r, w)
    ∧ match r with
      | Some best =>
          ∃ before after,
            listdir (files w) = before ++ best :: after
            ∧ re_match (last_report_re_exp user) best = true
            ∧ (∀ n, n ∈ before → re_match (last_report_re_exp user) n = true →
                    (name_time user n < name_time user best)%Z)
            ∧ (∀ n, n ∈ after → re_match (last_report_re_exp user) n = true →
                    (name_time user n ≤ name_time user best)%Z)
      | None =>
          ∀ n, n ∈ listdir (files w) → re_match (last_report_re_exp user) n = false
      end.
Proof.
  intros Hu Hd.
  destruct (scan_names_found_first user today [] (listdir (files w)) (None, None))
    as (st & Hrun & Hst); [by intros ? ?%elem_of_nil|done|].
  exists st.2. split.
  - unfold get_last_report, get_files, lift, find_last_report, mbind, M_bind, bind.
    rewrite Hu, Hrun. reflexivity.
  - rewrite app_nil_l in Hst. destruct st as [[m|] [best|]]; try done. cbn [snd].
    destruct Hst as (before & after & ? & ? & _ & ? & ?). by exists before, after.
Qed.

Lemma get_last_report_latest_witness :
  ∃ r, get_last_report noon plain_listdir "Ann" history_world = (Ret r, history_world)
    ∧ match r with
      | Some best =>
          ∃ before after,
            plain_listdir (files history_world) = before ++ best :: after
            ∧ re_match (last_report_re_exp (lits "Ann")) best = true
            ∧ (∀ n, n ∈ before → re_match (last_report_re_exp (lits "Ann")) n = true →
                    (name_time (lits "Ann") n < name_time (lits "Ann") best)%Z)
            ∧ (∀ n, n ∈ after → re_match (last_report_re_exp (lits "Ann")) n = true →
                    (name_time (lits "Ann") n ≤ name_time (lits "Ann") best)%Z)
      | None =>
          ∀ n, n ∈ plain_listdir (files history_world) →
               re_match (last_report_re_exp (lits "Ann")) n = false
      end.
Proof.
  apply (get_last_report_latest noon plain_listdir "Ann" (lits "Ann") history_world).
  - reflexivity.
  - assert (E : plain_listdir (files history_world)
                = ["old_Ann_2025-12-24T18:30.txt"; "old_Ann_2026-10-01T08:00.txt"; "Ann.txt"])
      by (vm_compute; reflexivity).
    rewrite E. intros n Hn Hm.
    apply elem_of_cons in Hn as [->|Hn]; [|apply elem_of_cons in Hn as [->|Hn]];
      [| |apply list_elem_of_singleton in Hn as ->].
    + exists (Datetime 2025 12 24 18 30 0 0). vm_compute. reflexivity.
    + exists (Datetime 2026 10 1 8 0 0 0). vm_compute. reflexivity.
    + vm_compute in Hm. discriminate.
Defined.

(** ** The report of a user *)

Lemma lines_of_app l1 l2 : lines_of (l1 ++ l2) = lines_of l1 +:+ lines_of l2.
Proof.
  induction l1 as [|x l1 IH]; [done|]. cbn [app lines_of fold_right].
  fold (lines_of (l1 ++ l2)). fold (lines_of l1). by rewrite IH, append_assoc.
Qed.

Lemma malformed_lines_app l1 l2 :
  malformed_lines (l1 ++ l2) = malformed_lines l1 ++ malformed_lines l2.
Proof. unfold malformed_lines. by rewrite List.filter_app, map_app. Qed.

Lemma count_page_list tasks t w :
  count_page (JList tasks) t w = for_each count_task tasks t w.
Proof. done. Qed.

(** The loop of [create_report] over the pages that are served. *)
Lemma count_todos_served e user_id pages fuel page_num t w :
  pages_served e (todos_request user_id) (tick w) page_num pages →
  forallb well_titled (concat pages) = true →
  for_pages (length pages + fuel) (next_todos e user_id) count_page page_num t w
  = for_pages fuel (next_todos e user_id) count_page (page_num + length pages)
      (Tally (cur_tasks t +:+ lines_of (List.filter is_current (concat pages)))
             (comp_tasks t +:+ lines_of (List.filter is_completed (concat pages)))
             (cur_total t + length (List.filter is_current (concat pages)))
             (comp_total t + length (List.filter is_completed (concat pages))))
      (World (files w) (stdout w ++ malformed_lines (concat pages))
             (tick w + length pages)).
Proof.
  revert page_num t w. induction pages as [|tasks pages IH]; intros page_num t w Hs Hw.
  - simpl. rewrite !append_nil_r, !Nat.add_0_r, app_nil_r. by destruct t, w.
  - destruct Hs as (Hne & Herr & Hbody & Hrest).
    cbn [concat] in Hw. rewrite forallb_app in Hw. apply andb_true_iff in Hw as [Hw1 Hw2].
    cbn [length Nat.add for_pages]. unfold mbind, M_bind, bind. rewrite next_todos_run.
    unfold get_todos. rewrite fetch_page_yield.
    2:{ unfold carries_page. rewrite Herr, Hbody. by destruct tasks. }
    unfold json_of. rewrite Hbody. cbn [default from_option id].
    rewrite count_page_list, count_tasks_counts by done.
    rewrite Nat.add_1_r, (IH (S page_num)); [|exact Hrest|done].
    cbn [files stdout tick cur_tasks comp_tasks cur_total comp_total concat].
    rewrite !List.filter_app, !lines_of_app, !length_app, malformed_lines_app.
    rewrite !append_assoc, <- !app_assoc, <- !Nat.add_assoc, !Nat.add_succ_r.
    reflexivity.
Qed.

(** The two loops of [create_report] over the pages of a user. *)
Lemma count_todos_pages e user_id pages fuel t w :
  serves_todos e user_id (tick w) pages →
  forallb well_titled (concat pages) = true →
  length pages < fuel →
  for_pages fuel (next_todos e user_id) count_page first_page t w
  = (Ret (Tally (cur_tasks t +:+ lines_of (List.filter is_current (concat pages)))
                (comp_tasks t +:+ lines_of (List.filter is_completed (concat pages)))
                (cur_total t + length (List.filter is_current (concat pages)))
                (comp_total t + length (List.filter is_completed (concat pages)))),
     World (files w) (stdout w ++ malformed_lines (concat pages))
           (tick w + S (length pages))).
Proof.
  intros [Hs Hend] Hw Hf.
  replace fuel with (length pages + S (fuel - length pages - 1)) by lia.
  rewrite count_todos_served by done.
  cbn [for_pages]. unfold mbind, M_bind, bind. rewrite next_todos_run.
  unfold get_todos. rewrite fetch_page_stop by exact Hend.
  cbn [files stdout tick]. by rewrite Nat.add_succ_r.
Qed.

(** [create_report] for a user with all the fields it reads. *)
Lemma create_report_run e fuel fields inner company fullname email user_id pages w :
  dict_lookup "company" fields = Some (JDict inner) →
  dict_lookup "name" inner = Some company →
  dict_lookup "name" fields = Some fullname →
  dict_lookup "email" fields = Some email →
  dict_lookup "id" fields = Some user_id →
  serves_todos e user_id (S (tick w)) pages →
  forallb well_titled (concat pages) = true →
  length pages < fuel →
  create_report e fuel (JDict fields) w
  = (Ret (report_of (py_str (repr e) company) (py_str (repr e) fullname)
                    (py_str (repr e) email) (strftime (now e (tick w))) (concat pages)),
     World (files w) (stdout w ++ malformed_lines (concat pages))
           (tick w + 2 + length pages)).
Proof.
  intros Hc Hcn Hn He Hid Hs Hw Hf.
  unfold create_report, count_todos, lift, getitem, mbind, M_bind, bind.
  rewrite Hc. cbv beta iota delta [mbind outcome_bind]. rewrite Hcn, Hn, He, ask_run, Hid.
  rewrite (count_todos_pages e user_id pages fuel no_tasks
             (World (files w) (stdout w) (S (tick w)))) by done.
  cbn [files stdout tick]. unfold report_of, render, total_tasks, no_tasks.
  cbn [cur_tasks comp_tasks cur_total comp_total Nat.add].
  replace (S (tick w + S (length pages))) with (tick w + 2 + length pages) by lia.
  destruct (_ =? 0)%nat; reflexivity.
Qed.

(** [create_report] for a user that passed [validate_user] and has an
    [id], whose tasks come in pages of dictionaries with string titles:
    after one reading of the clock and one request for every page and one
    more, it returns the header with the company, the name, the address
    and that time, the three totals, and the lines of the current and of
    the completed tasks in the order of the pages; or [None] when no task
    has a flag equal to [True] or [False]. The files stay as they are. *)
Theorem create_report_renders e fuel fields user_id pages w :
  validate_user (JDict fields) w = (Ret true, w) →
  dict_lookup "id" fields = Some user_id →
  serves_todos e user_id (S (tick w)) pages →
  forallb well_titled (concat pages) = true →
  length pages < fuel →
  ∃ company fullname email,
    (c ← getitem (JDict fields) "company"; getitem c "name") = Ret company
    ∧ getitem (JDict fields) "name" = Ret fullname
    ∧ getitem (JDict fields) "email" = Ret email
    ∧ create_report e fuel (JDict fields) w
      = (Ret (report_of (py_str (repr e) company) (py_str (repr e) fullname)
                        (py_str (repr e) email) (strftime (now e (tick w)))
                        (concat pages)),
         World (files w) (stdout w ++ malformed_lines (concat pages))
               (tick w + 2 + length pages)).
Proof.
  intros (inner & company & fullname & email & Hc & Hcn & Hn & He)%validated_fields
         Hid Hs Hw Hf.
  exists company, fullname, email. unfold getitem. rewrite Hc, Hn, He.
  cbv beta iota delta [mbind outcome_bind]. rewrite Hcn.
  repeat (split; [done|]).
  by apply (create_report_run e fuel fields inner company fullname email user_id).
Qed.

Lemma create_report_renders_witness :
  ∃ company fullname email,
    (c ← getitem ann_user "company"; getitem c "name") = Ret company
    ∧ getitem ann_user "name" = Ret fullname
    ∧ getitem ann_user "email" = Ret email
    ∧ create_report (demo_env [ann_user] [plan_task]) 2 ann_user empty_world
      = (Ret (report_of (py_str (repr (demo_env [ann_user] [plan_task])) company)
                        (py_str (repr (demo_env [ann_user] [plan_task])) fullname)
                        (py_str (repr (demo_env [ann_user] [plan_task])) email)
                        (strftime (now (demo_env [ann_user] [plan_task]) (tick empty_world)))
                        (concat [[plan_task]])),
         World (files empty_world)
               (stdout empty_world ++ malformed_lines (concat [[plan_task]]))
               (tick empty_world + 2 + length [[plan_task]])).
Proof.
  apply (create_report_renders (demo_env [ann_user] [plan_task]) 2 _ (JInt 1)
           [[plan_task]] empty_world); try reflexivity.
  - repeat split; done.
  - simpl. lia.
Defined.

(** The loop body of the script for a user with all the fields, a string
    [username] and at least one task that counts, when the report holds
    no carriage return and the write goes through: the report of
    [create_report] ends at [tasks/{username}.txt], with every [/] of the
    name replaced by [(f_slash)], the report that was there is archived,
    and nothing is printed but the lines about malformed tasks. *)
Theorem process_user_saves_report e fuel fields inner company fullname email user_id name
    pages report w :
  dict_lookup "company" fields = Some (JDict inner) →
  dict_lookup "name" inner = Some company →
  dict_lookup "name" fields = Some fullname →
  dict_lookup "email" fields = Some email →
  dict_lookup "id" fields = Some user_id →
  dict_lookup "username" fields = Some (JStr name) →
  serves_todos e user_id (S (tick w)) pages →
  forallb well_titled (concat pages) = true →
  length pages < fuel →
  report_of (py_str (repr e) company) (py_str (repr e) fullname) (py_str (repr e) email)
            (strftime (now e (tick w))) (concat pages) = Some report →
  no_cr report = true →
  write_fate e (tick w + 2 + length pages) = WriteOk →
  let username := replace_char "/" "(f_slash)" name in
  process_user e fuel (JDict fields) w
  = (Ret (),
     World (<[report_path username := report]> (archived username (files w)))
           (stdout w ++ malformed_lines (concat pages))
           (tick w + 4 + length pages)).
Proof.
  intros Hc Hcn Hn He Hid Hu Hs Hw Hf Hr Hcr Hfx username.
  unfold process_user, mbind, M_bind, bind.
  rewrite validate_user_cases, Hc, Hcn, Hn, He. cbn [negb].
  rewrite (create_report_run e fuel fields inner company fullname email user_id pages w)
    by done.
  rewrite Hr. unfold lift, getitem. rewrite Hu. cbn [sanitize].
  rewrite !ask_run. cbn [files stdout tick]. rewrite Hfx, save_report_ok_run by done.
  cbn [files stdout tick]. do 2 f_equal. lia.
Qed.

Lemma process_user_saves_report_witness :
  let username := replace_char "/" "(f_slash)" "Ann" in
  process_user (demo_env [ann_user] [plan_task]) 2 ann_user ann_world
  = (Ret (),
     World (<[report_path username :=
                HEADER "ACME" "Ann Lee" "ann@acme.org" "03.11.2026 12:30"
                +:+ TOTAL_TASKS 1 +:+ TOTAL_CURRENT_TASKS 0
                +:+ TOTAL_COMPLETED_TASKS 1 +:+ "- plan" +:+ nl]>
              (archived username (files ann_world)))
           (stdout ann_world ++ malformed_lines (concat [[plan_task]]))
           (tick ann_world + 4 + length [[plan_task]])).
Proof.
  apply (process_user_saves_report (demo_env [ann_user] [plan_task]) 2 _
           [("name", JStr "ACME")] (JStr "ACME") (JStr "Ann Lee") (JStr "ann@acme.org")
           (JInt 1) "Ann" [[plan_task]] _ ann_world); try reflexivity.
  - repeat split; done.
  - simpl. lia.
Defined.

(** ** The script over pages of users *)

Lemma fetch_page_undecodable get req page_num :
  error_status (get (req page_num)) = false →
  body (get (req page_num)) = None →
  fetch_page get req page_num = Raise JSONDecodeError.
Proof.
  unfold error_status, fetch_page, raise_for_status, response_json.
  intros -> ->. by destruct (negb _).
Qed.

(** A response that is no error by its status and does not decode as
    JSON ends either fetcher with [JSONDecodeError], after the pages that
    came before it. *)
Theorem fetcher_undecodable_page get next req n fuel :
  (next = get_users get ∧ req = users_request)
  ∨ (∃ user_id, next = get_todos get user_id ∧ req = todos_request user_id) →
  n < fuel →
  forallb (λ k, carries_page (get (req k))) (seq 1 n) = true →
  error_status (get (req (1 + n))) = false →
  body (get (req (1 + n))) = None →
  drain fuel next first_page
  = (map (λ k, json_of (get (req k))) (seq 1 n), Raise JSONDecodeError).
Proof.
  intros Hnext Hf Hp He Hb.
  assert (next = fetch_page get req) as ->.
  { by destruct Hnext as [[-> ->] | (user_id & -> & ->)]. }
  replace fuel with (n + S (fuel - n - 1)) by lia.
  rewrite drain_yields by done. cbn [drain].
  rewrite fetch_page_undecodable by done. by rewrite app_nil_r.
Qed.

Lemma fetcher_undecodable_page_witness :
  drain 3 (get_users (λ req, if (page_of req <=? 1)%Z
                             then Response 200 (Some (JList [ann_user]))
                             else Response 200 None)) first_page
  = (map (λ k, json_of ((λ req, if (page_of req <=? 1)%Z
                                then Response 200 (Some (JList [ann_user]))
                                else Response 200 None) (users_request k))) (seq 1 1),
     Raise JSONDecodeError).
Proof.
  apply (fetcher_undecodable_page _ _ users_request 1 3).
  - left. split; reflexivity.
  - lia.
  - reflexivity.
  - reflexivity.
  - reflexivity.
Defined.

Lemma next_users_run e page_num w :
  next_users e page_num w
  = (get_users (http e (tick w)) page_num, World (files w) (stdout w) (S (tick w))).
Proof. unfold next_users, ask, lift, mbind, M_bind, bind. done. Qed.

(** The loop over a page of records that are all turned down. *)
Lemma process_users_skipped e fuel users w :
  forallb malformed_named users = true →
  for_each (λ user _, process_user e fuel user) users () w
  = (Ret (), World (files w) (stdout w ++ skip_lines e users) (tick w)).
Proof.
  revert w. induction users as [|user users IH]; intros w.
  - intros _. simpl. rewrite app_nil_r. by destruct w.
  - cbn [forallb]. intros [Hu Hus]%andb_true_iff.
    destruct user as [| | | | | |fields]; try discriminate.
    cbn [for_each]. unfold mbind, M_bind, bind.
    simpl in Hu. destruct (dict_lookup "username" fields) as [name|] eqn:En; [|done].
    assert (Hv : validate_user (JDict fields) w
                 = (Ret false, printed "User object is malformed" w)).
    { rewrite validate_user_cases.
      destruct (dict_lookup "company" fields) as [[| | | | | |inner]|]; try done.
      destruct (dict_lookup "name" inner); [|done].
      destruct (dict_lookup "name" fields); [|done].
      by destruct (dict_lookup "email" fields). }
    rewrite (process_user_skips_malformed e fuel (JDict fields) name w _ Hv)
      by (unfold getitem; by rewrite En).
    rewrite (IH _ Hus). cbn [skip_lines flat_map getitem]. rewrite En.
    cbn [printed files stdout tick]. by rewrite <- !app_assoc.
Qed.

(** The loop of the script over the pages that are served. *)
Lemma main_served e fuel' pages fuel page_num w :
  pages_served e users_request (tick w) page_num pages →
  forallb malformed_named (concat pages) = true →
  for_pages (length pages + fuel) (next_users e) (process_page e fuel') page_num () w
  = for_pages fuel (next_users e) (process_page e fuel') (page_num + length pages) ()
      (World (files w) (stdout w ++ skip_lines e (concat pages)) (tick w + length pages)).
Proof.
  revert page_num w. induction pages as [|users pages IH]; intros page_num w Hs Hw.
  - simpl. rewrite !Nat.add_0_r, app_nil_r. by destruct w.
  - destruct Hs as (Hne & Herr & Hbody & Hrest).
    cbn [concat] in Hw. rewrite forallb_app in Hw. apply andb_true_iff in Hw as [Hw1 Hw2].
    cbn [length Nat.add for_pages]. unfold mbind, M_bind, bind. rewrite next_users_run.
    unfold get_users. rewrite fetch_page_yield.
    2:{ unfold carries_page. rewrite Herr, Hbody. by destruct users. }
    unfold json_of. rewrite Hbody. cbn [default from_option id].
    unfold process_page at 1, py_iter, lift. unfold mbind at 1, M_bind, bind at 1.
    rewrite process_users_skipped by done.
    rewrite Nat.add_1_r, (IH (S page_num)); [|exact Hrest|done].
    cbn [files stdout tick concat]. unfold skip_lines. rewrite flat_map_app.
    by rewrite <- !app_assoc, !Nat.add_succ_r.
Qed.

(** The script on pages of records that all have a [username] and fail
    [validate_user] without raising: every record costs two lines of
    output and the loop goes on to the next record and the next page;
    the run ends when the server answers with the empty list, and it ends
    with the exception of the fetcher when the server answers with an
    error status or with a body that does not decode. No file is touched. *)
Theorem main_skips_malformed_users e fuel pages w :
  pages_served e users_request (tick w) first_page pages →
  forallb malformed_named (concat pages) = true →
  length pages < fuel →
  let last := last_response e users_request (tick w) pages in
  let w' := World (files w) (stdout w ++ skip_lines e (concat pages))
                  (tick w + S (length pages)) in
  (carries_end last = true → main e fuel w = (Ret (), w'))
  ∧ (error_status last = true →
     main e fuel w = (Raise (HTTPError (status_code last)), w'))
  ∧ (error_status last = false → body last = None →
     main e fuel w = (Raise JSONDecodeError, w')).
Proof.
  intros Hs Hw Hf. cbn zeta. unfold main, last_response.
  replace fuel with (length pages + S (fuel - length pages - 1)) at 1 3 5 by lia.
  rewrite !main_served by done.
  cbn [for_pages]. unfold mbind, M_bind, bind. rewrite next_users_run.
  unfold get_users. cbn [files stdout tick]. rewrite Nat.add_succ_r.
  split; [|split].
  - intros Hend. by rewrite fetch_page_stop.
  - intros Herr. by rewrite fetch_page_error.
  - intros Herr Hbody. by rewrite fetch_page_undecodable.
Qed.

Lemma main_skips_malformed_users_witness :
  let pages := [[unnamed_company_user]; [unnamed_company_user]] in
  let last := last_response failing_env users_request (tick empty_world) pages in
  let w' := World (files empty_world)
                  (stdout empty_world ++ skip_lines failing_env (concat pages))
                  (tick empty_world + S (length pages)) in
  (carries_end last = true → main failing_env 5 empty_world = (Ret (), w'))
  ∧ (error_status last = true →
     main failing_env 5 empty_world = (Raise (HTTPError (status_code last)), w'))
  ∧ (error_status last = false → body last = None →
     main failing_env 5 empty_world = (Raise JSONDecodeError, w')).
Proof.
  apply (main_skips_malformed_users failing_env 5
           [[unnamed_company_user]; [unnamed_company_user]] empty_world).
  - repeat split; done.
  - reflexivity.
  - simpl. lia.
Defined.

(** ** From the report to the archive and back *)

Lemma pad2_round_trip z :
  (0 ≤ z < 100)%Z → digits 2 (pad2 z) = true ∧ int_of_digits (pad2 z) = z.
Proof.
  intros Hz.
  assert (H : forallb two_digits_ok (seq 0 100) = true) by (vm_compute; reflexivity).
  rewrite forallb_forall in H. specialize (H (Z.to_nat z)).
  unfold two_digits_ok in H. rewrite Z2Nat.id in H by lia.
  apply andb_true_iff in H as [H1 H2]; [|apply in_seq; lia].
  split; [done | lia].
Qed.

(** [int] reads what [str] writes. *)
Lemma int_of_digits_from_uint d acc :
  int_of_digits_from (Z.of_nat acc) (NilEmpty.string_of_uint d)
  = Z.of_nat (Nat.of_uint_acc d acc).
Proof.
  revert acc. induction d as [|d IH|d IH|d IH|d IH|d IH|d IH|d IH|d IH|d IH|d IH];
    intros acc; [done|..];
    cbn [NilEmpty.string_of_uint int_of_digits_from Nat.of_uint_acc];
    rewrite <- IH; f_equal; rewrite Nat.tail_mul_spec; unfold digit_value;
    match goal with
    | |- context [nat_of_ascii ?c] =>
        let v := eval cbv in (nat_of_ascii c) in change (nat_of_ascii c) with v
    end; lia.
Qed.

Lemma string_of_uint_digits d :
  forallb is_digit (list_ascii_of_string (NilEmpty.string_of_uint d)) = true.
Proof. induction d; simpl; done. Qed.

Lemma string_of_uint_length d :
  String.length (NilEmpty.string_of_uint d) = Decimal.nb_digits d.
Proof. induction d; simpl; by f_equal. Qed.

(** A number of [k] digits is less than [10 ^ k], and at least
    [10 ^ (k - 1)] times its first digit. *)
Lemma of_uint_acc_bounds d acc :
  (Z.of_nat acc * 10 ^ Z.of_nat (Decimal.nb_digits d) ≤ Z.of_nat (Nat.of_uint_acc d acc)
   < (Z.of_nat acc + 1) * 10 ^ Z.of_nat (Decimal.nb_digits d))%Z.
Proof.
  revert acc. induction d as [|d IH|d IH|d IH|d IH|d IH|d IH|d IH|d IH|d IH|d IH];
    intros acc; [simpl; lia|..];
    cbn [Nat.of_uint_acc Decimal.nb_digits]; rewrite Nat2Z.inj_succ, Z.pow_succ_r by lia;
    match goal with
    | |- context [Nat.of_uint_acc d ?a] => specialize (IH a); revert IH
    end;
    rewrite Nat.tail_mul_spec;
    generalize (Nat.of_uint_acc d); intros f;
    assert (0 < 10 ^ Z.of_nat (Decimal.nb_digits d))%Z by (apply Z.pow_pos_nonneg; lia);
    generalize dependent (10 ^ Z.of_nat (Decimal.nb_digits d))%Z; intros p Hp; nia.
Qed.

Lemma year_four_digits n :
  (1000 ≤ Z.of_nat n ≤ 9999)%Z → Decimal.nb_digits (Nat.to_uint n) = 4.
Proof.
  intros Hn.
  pose proof (DecimalNat.Unsigned.of_to n) as Hof.
  pose proof (DecimalNat.Unsigned.to_of (Nat.to_uint n)) as Hnorm. rewrite Hof in Hnorm.
  set (d := Nat.to_uint n) in *. unfold Nat.of_uint in Hof.
  pose proof (of_uint_acc_bounds d 0) as Hb. rewrite Hof in Hb.
  assert (Hk : 4 ≤ Decimal.nb_digits d).
  { destruct (Decimal.nb_digits d) as [|[|[|[|k]]]]; simpl in Hb; lia. }
  destruct (decide (Decimal.nb_digits d = 4)) as [|Hne]; [done|exfalso].
  assert (Hfirst : ∀ r a, 4 ≤ Decimal.nb_digits r → 1 ≤ a → Nat.of_uint_acc r a = n → False).
  { intros r a Hr Ha Hra. pose proof (of_uint_acc_bounds r a) as [Hlow _].
    rewrite Hra in Hlow.
    assert (10 ^ 4 ≤ 10 ^ Z.of_nat (Decimal.nb_digits r))%Z by (apply Z.pow_le_mono_r; lia).
    nia. }
  destruct d as [|r|r|r|r|r|r|r|r|r|r]; cbn [Decimal.nb_digits] in Hk, Hne;
    cbn [Nat.of_uint_acc] in Hof; rewrite ?Nat.tail_mul_spec in Hof;
    [lia| |eapply (Hfirst r); [lia| |exact Hof]; lia..].
  rewrite DecimalFacts.unorm_D0 in Hnorm.
  assert (r ≠ Decimal.Nil) by (intros ->; simpl in Hk; lia).
  pose proof (DecimalFacts.nb_digits_unorm r ltac:(done)) as Hle. rewrite <- Hnorm in Hle.
  simpl in Hle. lia.
Qed.

Lemma year_round_trip y :
  (1000 ≤ y ≤ 9999)%Z → digits 4 (str_of_Z y) = true ∧ int_of_digits (str_of_Z y) = y.
Proof.
  intros Hy. unfold str_of_Z, str_of_nat, digits, int_of_digits.
  rewrite string_of_uint_length, year_four_digits by lia.
  rewrite string_of_uint_digits. split; [done|].
  rewrite (int_of_digits_from_uint _ 0). fold (Nat.of_uint (Nat.to_uint (Z.to_nat y))).
  rewrite DecimalNat.Unsigned.of_to. lia.
Qed.

Lemma substring_skip a b n m :
  substring (String.length a + n) m (a +:+ b) = substring n m b.
Proof. induction a as [|c a IH]; [done|]. simpl. exact IH. Qed.

Lemma username_atoms_simple_length username user :
  is_simple username = true →
  username_atoms 0 username = Some user →
  length user = String.length username.
Proof.
  unfold is_simple. revert user.
  induction username as [|c u IH]; intros user; cbn [list_ascii_of_string forallb].
  - by intros _ [= <-].
  - intros [Hc Hu]%andb_true_iff.
    apply andb_true_iff in Hc as [Hc Hop]. apply andb_true_iff in Hc as [Ho Hcl].
    apply negb_true_iff in Ho, Hcl, Hop.
    cbn [username_atoms]. rewrite Ho, Hcl, Hop.
    destruct (username_atoms 0 u) as [user'|]; [|by destruct (Ascii.eqb c ".")].
    specialize (IH user' Hu eq_refl).
    destruct (Ascii.eqb c "."); intros [= <-]; simpl; by rewrite IH.
Qed.

(** The date that [get_last_report] reads in an archival name. *)
Lemma name_date_archive username user yyyy mm dd hh mi rest :
  is_simple username = true →
  username_atoms 0 username = Some user →
  digits 4 yyyy = true → digits 2 mm = true → digits 2 dd = true →
  digits 2 hh = true → digits 2 mi = true →
  name_date user ("old_" +:+ username +:+ "_" +:+ stamp yyyy mm dd hh mi +:+ rest)
  = make_datetime (int_of_digits yyyy) (int_of_digits mm) (int_of_digits dd)
                  (int_of_digits hh) (int_of_digits mi).
Proof.
  intros Hs Hu (y1 & y2 & y3 & y4 & -> & _)%digits_4_inv
         (m1 & m2 & -> & _)%digits_2_inv (d1 & d2 & -> & _)%digits_2_inv
         (h1 & h2 & -> & _)%digits_2_inv (n1 & n2 & -> & _)%digits_2_inv.
  unfold name_date, year_offset. cbv zeta.
  rewrite (username_atoms_simple_length username user Hs Hu).
  assert (Hsub : ∀ n m s,
    substring (4 + String.length username + 1 + n) m ("old_" +:+ username +:+ "_" +:+ s)
    = substring n m s).
  { intros n m s. rewrite <- (append_assoc username "_" s), <- (append_assoc "old_").
    rewrite <- (substring_skip ("old_" +:+ username +:+ "_") s n m).
    f_equal. rewrite !length_append. simpl. lia. }
  rewrite <- (Nat.add_0_r (4 + String.length username + 1)) at 1.
  rewrite !Hsub. unfold stamp. simpl. by rewrite !substring_0_0.
Qed.

(** From the report to the search and back: a report that [create_report]
    made at the time [t] is archived by [save_report] under a name that
    [get_last_report] matches and in which it reads [t] to the minute,
    provided that company, name and address hold nothing that looks like
    a time. The year must have four digits. The date is the same in the
    report as it is stored and as it is read, whatever carriage returns
    the report holds. *)
Theorem archive_date_round_trip username user t company fullname email rest :
  is_simple username = true →
  username_atoms 0 username = Some user →
  (1000 ≤ year t)%Z →
  make_datetime (year t) (month t) (day t) (hour t) (minute t) = Ret (minute_of t) →
  no_match_before date_re_exp (header_before company fullname email)
                  (strftime t +:+ nl +:+ rest) = true →
  let report := HEADER company fullname email (strftime t) +:+ rest in
  let name := create_filename username (Some (find_date report)) in
  find_date report
  = DateText (stamp (str_of_Z (year t)) (pad2 (month t)) (pad2 (day t))
                    (pad2 (hour t)) (pad2 (minute t)))
  ∧ re_match (last_report_re_exp user) name = true
  ∧ name_date user name = Ret (minute_of t)
  ∧ date_of report = find_date report.
Proof.
  intros Hs Hu Hy Hvalid Hpre. cbn zeta.
  assert (Hr : (1 ≤ year t ≤ 9999 ∧ 1 ≤ month t ≤ 12 ∧ 1 ≤ day t ≤ 31
                ∧ 0 ≤ hour t ≤ 23 ∧ 0 ≤ minute t ≤ 59)%Z).
  { unfold make_datetime in Hvalid.
    destruct (_ && _) eqn:E in Hvalid; [|done].
    repeat (apply andb_true_iff in E as [E ?]).
    assert (days_in_month (year t) (month t) ≤ 31)%Z.
    { unfold days_in_month. destruct (month t =? 2)%Z; [destruct (is_leap _); lia|].
      destruct (_ || _); lia. }
    lia. }
  destruct (year_round_trip (year t)) as [Dy Iy]; [lia|].
  destruct (pad2_round_trip (month t)) as [Dm Im]; [lia|].
  destruct (pad2_round_trip (day t)) as [Dd Id]; [lia|].
  destruct (pad2_round_trip (hour t)) as [Dh Ih]; [lia|].
  destruct (pad2_round_trip (minute t)) as [Dmi Imi]; [lia|].
  assert (Hreport : HEADER company fullname email (strftime t) +:+ rest
                    = header_before company fullname email
                      +:+ header_time (pad2 (day t)) (pad2 (month t)) (str_of_Z (year t))
                                      (pad2 (hour t)) (pad2 (minute t))
                      +:+ nl +:+ rest).
  { unfold HEADER, header_before, strftime, header_time. by rewrite !append_assoc. }
  assert (Hdate : find_date (HEADER company fullname email (strftime t) +:+ rest)
                  = DateText (stamp (str_of_Z (year t)) (pad2 (month t)) (pad2 (day t))
                                    (pad2 (hour t)) (pad2 (minute t)))).
  { rewrite Hreport. by apply find_date_first. }
  split; [done|]. split; [|split].
  - rewrite Hdate. eapply archive_name_matches; [done..|exact Hdate].
  - rewrite Hdate. unfold create_filename, date_text.
    rewrite name_date_archive by done. by rewrite Iy, Im, Id, Ih, Imi.
  - rewrite Hdate, Hreport, header_time_dated.
    apply find_date_read; try done. by rewrite <- header_time_dated.
Qed.

Lemma archive_date_round_trip_witness :
  let report := HEADER "ACME" "Ann Lee" "ann@acme.org" (strftime noon) +:+ "Total tasks: 0" in
  let name := create_filename "Ann" (Some (find_date report)) in
  find_date report
  = DateText (stamp (str_of_Z (year noon)) (pad2 (month noon)) (pad2 (day noon))
                    (pad2 (hour noon)) (pad2 (minute noon)))
  ∧ re_match (last_report_re_exp (lits "Ann")) name = true
  ∧ name_date (lits "Ann") name = Ret (minute_of noon)
  ∧ date_of report = find_date report.
Proof.
  apply (archive_date_round_trip "Ann" (lits "Ann") noon "ACME" "Ann Lee" "ann@acme.org"
           "Total tasks: 0").
  - reflexivity.
  - reflexivity.
  - vm_compute. discriminate.
  - reflexivity.
  - vm_compute. reflexivity.
Defined.

(** ** Failures of the server and of the write *)

(** When the server fails while the tasks of a user are fetched, with an
    error status or with a body that does not decode, [create_report]
    raises the exception of the fetcher, the tasks counted so far are
    dropped, and the loop body of the script lets the exception through:
    no report is written for the user, and no file is touched. *)
Theorem create_report_fetch_fails e fuel fields user_id pages w :
  validate_user (JDict fields) w = (Ret true, w) →
  dict_lookup "id" fields = Some user_id →
  pages_served e (todos_request user_id) (S (tick w)) first_page pages →
  forallb well_titled (concat pages) = true →
  length pages < fuel →
  let last := last_response e (todos_request user_id) (S (tick w)) pages in
  let w' := World (files w) (stdout w ++ malformed_lines (concat pages))
                  (tick w + 2 + length pages) in
  (error_status last = true →
   create_report e fuel (JDict fields) w = (Raise (HTTPError (status_code last)), w')
   ∧ process_user e fuel (JDict fields) w = (Raise (HTTPError (status_code last)), w'))
  ∧ (error_status last = false → body last = None →
     create_report e fuel (JDict fields) w = (Raise JSONDecodeError, w')
     ∧ process_user e fuel (JDict fields) w = (Raise JSONDecodeError, w')).
Proof.
  intros Hv Hid Hs Hw Hf. cbn zeta.
  destruct (validated_fields fields w Hv)
    as (inner & company & fullname & email & Hc & Hcn & Hn & He).
  assert (Hrun : ∀ exn,
    fetch_page (http e (S (tick w) + length pages)) (todos_request user_id)
               (first_page + length pages) = Raise exn →
    create_report e fuel (JDict fields) w
    = (Raise exn, World (files w) (stdout w ++ malformed_lines (concat pages))
                        (tick w + 2 + length pages))).
  { intros exn Hexn.
    unfold create_report, count_todos, lift, getitem, mbind, M_bind, bind.
    rewrite Hc. cbv beta iota delta [mbind outcome_bind]. rewrite Hcn, Hn, He, ask_run, Hid.
    replace fuel with (length pages + S (fuel - length pages - 1)) by lia.
    rewrite count_todos_served by done.
    cbn [for_pages]. unfold mbind, M_bind, bind. rewrite next_todos_run.
    unfold get_todos. cbn [files stdout tick]. rewrite Hexn.
    do 2 f_equal. lia. }
  assert (Hproc : ∀ exn w',
    create_report e fuel (JDict fields) w = (Raise exn, w') →
    process_user e fuel (JDict fields) w = (Raise exn, w')).
  { intros exn w' Hr. unfold process_user, mbind, M_bind, bind.
    rewrite Hv. cbn [negb]. by rewrite Hr. }
  unfold last_response. split.
  - intros Herr. apply fetch_page_error in Herr. apply Hrun in Herr. eauto.
  - intros Herr Hbody. pose proof (fetch_page_undecodable _ _ _ Herr Hbody) as Hexn.
    apply Hrun in Hexn. eauto.
Qed.

Lemma create_report_fetch_fails_witness :
  let e := failing_todos_env in
  let last := last_response e (todos_request (JInt 1)) (S (tick empty_world)) [[plan_task]] in
  let w' := World (files empty_world)
                  (stdout empty_world ++ malformed_lines (concat [[plan_task]]))
                  (tick empty_world + 2 + length [[plan_task]]) in
  (error_status last = true →
   create_report e 3 ann_user empty_world = (Raise (HTTPError (status_code last)), w')
   ∧ process_user e 3 ann_user empty_world = (Raise (HTTPError (status_code last)), w'))
  ∧ (error_status last = false → body last = None →
     create_report e 3 ann_user empty_world = (Raise JSONDecodeError, w')
     ∧ process_user e 3 ann_user empty_world = (Raise JSONDecodeError, w')).
Proof.
  apply (create_report_fetch_fails failing_todos_env 3 _ (JInt 1) [[plan_task]] empty_world).
  - reflexivity.
  - reflexivity.
  - repeat split; done.
  - reflexivity.
  - simpl. lia.
Defined.



(** ** What a save never touches *)

Lemma prefix_tasks name : String.prefix "tasks/" ("tasks/" +:+ name) = true.
Proof. simpl. by destruct name. Qed.

Lemma outside_tasks p name : String.prefix "tasks/" p = false → p ≠ "tasks/" +:+ name.
Proof. intros Hp ->. by rewrite prefix_tasks in Hp. Qed.

(** [save_report] stays inside [tasks/]: for a user name without path
    separator, made of ordinary characters, dots and paired parentheses,
    and a listing that gives names, not paths, however [save_report]
    ends, with whatever exception, a file whose path does not start with
    [tasks/] is what it was before. *)
Theorem save_report_stays_in_tasks fx today listdir report username user w o w' p :
  has_slash username = false →
  username_atoms 0 username = Some user →
  (∀ d n, n ∈ listdir d → has_slash n = false) →
  save_report fx today listdir report username w = (o, w') →
  String.prefix "tasks/" p = false →
  files w' !! p = files w !! p.
Proof.
  intros _ _ _ Hrun Hp.
  assert (Hrp : p ≠ report_path username) by by apply outside_tasks.
  assert (H1 : written fx (report_path username) report (archived username (files w)) !! p
               = files w !! p).
  { rewrite written_other by done. unfold archived.
    destruct (files w !! report_path username) as [old|]; [|done].
    rewrite lookup_insert_ne by (apply not_eq_sym; by apply outside_tasks).
    by rewrite lookup_delete_ne. }
  destruct (save_report_run fx today listdir report username w) as [out Hs].
  rewrite Hs in Hrun. clear Hs. revert Hrun. set (w1 := World _ _ _).
  destruct (verifies (files w1) (report_path username) report) eqn:Hv.
  - rewrite reconcile_valid by done. by intros [= _ <-].
  - rewrite (reconcile_invalid _ _ _ _ _ _ (validate_file_not_true _ _ _ Hv) eq_refl).
    assert (Hd : delete (report_path username) (files w1) !! p = files w !! p).
    { by rewrite lookup_delete_ne. }
    destruct (find_last_report _ _ _) as [[best|]|e| |]; try (by intros [= _ <-]).
    destruct (delete _ _ !! ("tasks/" +:+ best)) as [data|]; [|by intros [= _ <-]].
    intros [= _ <-]. cbn [files]. rewrite lookup_insert_ne by done.
    rewrite lookup_delete_ne by (apply not_eq_sym; by apply outside_tasks). done.
Qed.

Lemma save_report_stays_in_tasks_witness :
  files (World (<["notes.txt" := "keep"]> (files history_world))
               ["Error occured while writing to file tasks/Ann.txt"] 0) !! "notes.txt"
  = files notes_world !! "notes.txt".
Proof.
  apply (save_report_stays_in_tasks (WriteRaised "# Rep") noon (λ d, flat_listdir d)
           "new report" "Ann" (lits "Ann") notes_world (Ret ())).
  - reflexivity.
  - reflexivity.
  - intros d n Hn. unfold flat_listdir in Hn.
    apply list_elem_of_In, List.filter_In in Hn as [_ Hn].
    by apply negb_true_iff in Hn.
  - vm_compute. reflexivity.
  - reflexivity.
Defined.

(** ** Reports with a carriage return *)

(** A text as it is read holds no carriage return. *)
Lemma universal_newlines_no_cr s : no_cr (universal_newlines s) = true.
Proof.
  assert (H : ∀ n s, String.length s ≤ n → no_cr (universal_newlines s) = true).
  { clear s. induction n as [|n IH]; intros [|c s] Hn; try done; [simpl in Hn; lia|].
    simpl in Hn. cbn [universal_newlines].
    destruct (Ascii.eqb c (ascii_of_nat 13)) eqn:Ec.
    - destruct s as [|c' s']; [done|].
      destruct (Ascii.eqb c' (ascii_of_nat 10)); unfold no_cr;
        cbn [list_ascii_of_string forallb]; apply andb_true_iff; (split; [done|]);
        apply IH; simpl in *; lia.
    - unfold no_cr. cbn [list_ascii_of_string forallb]. rewrite Ec.
      apply IH. lia. }
  by apply (H (String.length s)).
Qed.

Lemma carriage_return_not_read report s :
  no_cr report = false → universal_newlines s ≠ report.
Proof. intros Hcr <-. by rewrite universal_newlines_no_cr in Hcr. Qed.

Lemma carriage_return_fails fx report : no_cr report = false → write_fails fx report = true.
Proof.
  intros Hcr. destruct fx as [|landed|]; cbn [write_fails]; [| |done];
    apply negb_true_iff, String.eqb_neq; by apply carriage_return_not_read.
Qed.

(** A text found after the archive step was in the directory before it. *)
Lemma archived_text username d q x :
  archived username d !! q = Some x → ∃ p, d !! p = Some x.
Proof.
  unfold archived. destruct (d !! report_path username) as [old|] eqn:E; [|eauto].
  destruct (decide (q = archive_path username (date_of old))) as [->|Hne].
  - rewrite lookup_insert_eq. intros [= <-]. eauto.
  - rewrite lookup_insert_ne by done.
    destruct (decide (q = report_path username)) as [->|Hq].
    + by rewrite lookup_delete_eq.
    + rewrite lookup_delete_ne by done. eauto.
Qed.

(** A report that holds a carriage return is never saved.  The file is
    read with a line feed in its place, so [validate_file] answers [False]
    whatever the file holds ([None] without a file), and the write counts
    as failed even when it went through: for a user name made of ordinary
    characters, dots and paired parentheses, when [save_report] returns,
    the current path holds no file, or a text that was in the directory
    before the call and is not read as the report. *)
Theorem save_report_carriage_return fx today listdir report username user w :
  no_cr report = false →
  username_atoms 0 username = Some user →
  write_fails fx report = true
  ∧ (∀ path w0,
       validate_file path report w0
       = (Ret (if bool_decide (is_Some (files w0 !! path)) then Some false else None), w0))
  ∧ ∀ w' x, save_report fx today listdir report username w = (Ret (), w') →
            files w' !! report_path username = Some x →
            universal_newlines x ≠ report ∧ ∃ p, files w !! p = Some x.
Proof.
  intros Hcr _. pose proof (carriage_return_fails fx report Hcr) as Hfx.
  split; [done|]. split.
  - intros path w0. rewrite validate_file_run.
    destruct (files w0 !! path) as [data|] eqn:E.
    + rewrite bool_decide_true by eauto.
      by rewrite (proj2 (String.eqb_neq _ _) (carriage_return_not_read report data Hcr)).
    + rewrite bool_decide_false; [done|]. by intros [? ?].
  - intros w' x.
    destruct (failed_write_directory fx report username (files w) Hfx) as [Hbad Hdir].
    destruct (save_report_run fx today listdir report username w) as [out ->].
    set (w1 := World _ _ _).
    rewrite (reconcile_invalid _ _ _ _ w1 (archived username (files w))
               (validate_file_not_true _ _ w1 Hbad) (eq_sym Hdir)).
    destruct (find_last_report _ _ _) as [[best|]| | |]; try done.
    + destruct (archived _ _ !! ("tasks/" +:+ best)) as [data|] eqn:Ed; [|done].
      intros [= <-]. cbn [files]. rewrite lookup_insert_eq. intros [= <-].
      split; [by apply carriage_return_not_read|]. by apply archived_text in Ed.
    + intros [= <-]. cbn [files]. by rewrite archived_report_path.
Qed.

Lemma save_report_carriage_return_witness :
  write_fails WriteOk cr_report = true
  ∧ (∀ path w0,
       validate_file path cr_report w0
       = (Ret (if bool_decide (is_Some (files w0 !! path)) then Some false else None), w0))
  ∧ ∀ w' x, save_report WriteOk noon plain_listdir cr_report "Ann" history_world
            = (Ret (), w') →
            files w' !! report_path "Ann" = Some x →
            universal_newlines x ≠ cr_report ∧ ∃ p, files history_world !! p = Some x.
Proof.
  apply (save_report_carriage_return WriteOk noon plain_listdir cr_report "Ann" (lits "Ann")
           history_world); reflexivity.
Defined.

(** The report with a carriage return is written in full and is removed:
    the report of the day before comes back from its archive. *)
Lemma save_report_carriage_return_run :
  save_report WriteOk noon plain_listdir cr_report "Ann" history_world
  = (Ret (), history_world).
Proof. vm_compute. reflexivity. Qed.
